(** * Pyramid-Tracker: the acquisition engine, embedded and verified

    A shallow embedding of the rate governor, the retrying request
    executor, the per-platform batch orchestrators, the leaderboard cache
    and the multi-platform dispatcher of Pyramid-Tracker, with the
    platform clients, the participant repository and the evaluation
    service they rely on, followed by the properties of the specification
    that concern them and by further properties of the code.

    Conventions of the embedding.
    - Python exceptions are values of [exn]; the class hierarchy of
      [core/exceptions.py] is the [parent] table and [isinstance] walks it.
    - Effectful code lives in the monad [M W]: a state transformer over a
      world [W] whose outcome is a value, a raised exception, or [Diverge]
      when the recursion budget of the model is exhausted.  A raised
      exception keeps the mutations made so far, as in Python.
    - [await] is plain sequencing: within one task the code is sequential.
    - Python dictionaries whose iteration order is observable are
      association lists with unique keys, in insertion order.
    - Numbers that Python holds in a [float] (ratings, [time.time()]
      readings, durations) are rationals: rounding is not modelled.
      A [datetime] is an integral number of microseconds; a date kept by
      MongoDB is one cut to the millisecond. *)

From Stdlib Require Import ZArith QArith Qround Lia Lqa Ascii String DecimalString.
From stdpp Require Import base option list strings.

Local Open Scope Z_scope.
Local Open Scope string_scope.
Local Open Scope list_scope.

(** ** Exceptions ([core/exceptions.py], plus the library classes the code
       catches or lets through) *)

Inductive exn_class : Set :=
  | PyException
  | PyramidTrackerError
  | ConfigError
  | ScraperError
  | RateLimitError
  | AuthenticationError
  | UserNotFoundError
  | DatabaseError
  | DatabaseDoesNotExistError
  | ClientError            (* aiohttp.ClientError *)
  | ClientResponseError    (* aiohttp.ClientResponseError, carries a status *)
  | JSONDecodeError        (* json.JSONDecodeError *)
  | TimeoutError           (* asyncio.TimeoutError *)
  | RetryError             (* tenacity.RetryError *)
  | KeyError
  | AttributeError
  | TypeError
  | ZeroDivisionError
  | PyMongoError.

#[global] Instance exn_class_eq_dec : EqDecision exn_class.
Proof. solve_decision. Defined.

(** The direct superclass of each class. *)
Definition parent (c : exn_class) : option exn_class :=
  match c with
  | PyException => None
  | PyramidTrackerError => Some PyException
  | ConfigError => Some PyramidTrackerError
  | ScraperError => Some PyramidTrackerError
  | RateLimitError => Some ScraperError
  | AuthenticationError => Some ScraperError
  | UserNotFoundError => Some ScraperError
  | DatabaseError => Some PyramidTrackerError
  | DatabaseDoesNotExistError => Some DatabaseError
  | ClientError => Some PyException
  | ClientResponseError => Some ClientError
  | JSONDecodeError => Some PyException
  | TimeoutError => Some PyException
  | RetryError => Some PyException
  | KeyError => Some PyException
  | AttributeError => Some PyException
  | TypeError => Some PyException
  | ZeroDivisionError => Some PyException
  | PyMongoError => Some PyException
  end.

Fixpoint subclass_upto (depth : nat) (c d : exn_class) : bool :=
  if decide (c = d) then true
  else match depth, parent c with
       | S depth', Some p => subclass_upto depth' p d
       | _, _ => false
       end.

(** The hierarchy is three levels deep below the root. *)
Definition issubclass : exn_class -> exn_class -> bool := subclass_upto 4.

(** A raised exception: its class and, for [ClientResponseError], the HTTP
    status it carries ([0] otherwise). *)
Record exn : Set := mkExn { exn_cls : exn_class; exn_status : Z }.

#[global] Instance exn_eq_dec : EqDecision exn.
Proof. solve_decision. Defined.

Definition an (c : exn_class) : exn := mkExn c 0.
Definition http_error (status : Z) : exn := mkExn ClientResponseError status.

Definition isinstance (e : exn) (c : exn_class) : bool :=
  issubclass (exn_cls e) c.

(** ** The effect monad *)

Inductive outcome (A : Type) : Type :=
  | Ret (a : A)
  | Raise (e : exn)
  | Diverge.
Arguments Ret {A} a.
Arguments Raise {A} e.
Arguments Diverge {A}.

Definition M (W A : Type) : Type := W -> outcome A * W.

#[global] Instance M_ret {W} : MRet (M W) := fun A a w => (Ret a, w).

#[global] Instance M_bind {W} : MBind (M W) := fun A B f m w =>
  match m w with
  | (Ret a, w') => f a w'
  | (Raise e, w') => (Raise e, w')
  | (Diverge, w') => (Diverge, w')
  end.

Definition raise {W A} (e : exn) : M W A := fun w => (Raise e, w).
Definition diverge {W A} : M W A := fun w => (Diverge, w).
Definition get {W} : M W W := fun w => (Ret w, w).
Definition gets {W A} (f : W -> A) : M W A := fun w => (Ret (f w), w).
Definition modify {W} (f : W -> W) : M W unit := fun w => (Ret tt, f w).

(** [try: body except e: handler e].  The handler receives every raised
    exception; a handler that matches no [except] clause re-raises it. *)
Definition try_except {W A} (body : M W A) (handler : exn -> M W A) : M W A :=
  fun w =>
    match body w with
    | (Raise e, w') => handler e w'
    | r => r
    end.

(** [try: body finally: cleanup]. *)
Definition try_finally {W A} (body : M W A) (cleanup : M W unit) : M W A :=
  fun w =>
    match body w with
    | (Diverge, w') => (Diverge, w')
    | (r, w') =>
        match cleanup w' with
        | (Ret _, w'') => (r, w'')
        | (Raise e, w'') => (Raise e, w'')
        | (Diverge, w'') => (Diverge, w'')
        end
    end.

(** ** Python values the code inspects *)

#[warnings="-register-all"]
Inductive json : Type :=
  | JNull
  | JBool (b : bool)
  | JNum (q : Q)
  | JStr (s : string)
  | JArr (items : list json)
  | JObj (fields : list (string * json)).

(** Dictionaries in insertion order. *)
Definition dict (V : Type) : Type := list (string * V).

Fixpoint dict_get {V} (k : string) (d : dict V) : option V :=
  match d with
  | [] => None
  | (k', v) :: d' => if decide (k' = k) then Some v else dict_get k d'
  end.

(** [d[k] = v]: overwrite in place when [k] is present, append otherwise. *)
Fixpoint dict_set {V} (k : string) (v : V) (d : dict V) : dict V :=
  match d with
  | [] => [(k, v)]
  | (k', v') :: d' =>
      if decide (k' = k) then (k', v) :: d' else (k', v') :: dict_set k v d'
  end.

Definition dict_values {V} (d : dict V) : list V := map snd d.

(** Truthiness of the values the code tests with [if x] / [if not x]. *)
Definition truthy (j : json) : bool :=
  match j with
  | JNull => false
  | JBool b => b
  | JNum q => negb (Qeq_bool q 0)
  | JStr s => negb (String.eqb s "")
  | JArr l => negb (Nat.eqb (length l) 0)
  | JObj l => negb (Nat.eqb (length l) 0)
  end.

(** ** [core/constants.py] *)

Inductive Platform : Set :=
  CODECHEF | CODEFORCES | GEEKSFORGEEKS | HACKERRANK | LEETCODE.

Definition Platform_value (p : Platform) : string :=
  match p with
  | CODECHEF => "CodeChef"
  | CODEFORCES => "Codeforces"
  | GEEKSFORGEEKS => "GeeksforGeeks"
  | HACKERRANK => "HackerRank"
  | LEETCODE => "LeetCode"
  end.

(** Iteration order of [for platform in Platform]. *)
Definition Platform_members : list Platform :=
  [CODECHEF; CODEFORCES; GEEKSFORGEEKS; HACKERRANK; LEETCODE].

Inductive College : Set := CMRIT.
Inductive Batch : Set := _2025 | _2026 | _2027.

Definition College_name (c : College) : string := "CMRIT".
Definition Batch_name (b : Batch) : string :=
  match b with _2025 => "_2025" | _2026 => "_2026" | _2027 => "_2027" end.

(** ** [db/models.py] *)

Definition datetime : Set := Z.   (* microseconds since the epoch *)

Record PlatformStatus : Type := mkStatus {
  handle : option string;          (* [None] when the roster cell was empty *)
  rating : option Q;
  exists_ : bool;                  (* the field [exists] *)
  last_updated : datetime;
  raw_data : json
}.

Record Participant : Type := mkParticipant {
  hall_ticket_no : string;
  name : string;
  batch : Batch;
  college : College;
  platforms : dict (option PlatformStatus);
  total_rating : Q;
  percentile : Q
}.

Definition set_platforms (d : dict (option PlatformStatus)) (p : Participant)
  : Participant :=
  mkParticipant (hall_ticket_no p) (name p) (batch p) (college p) d
                (total_rating p) (percentile p).

Definition set_total_rating (t : Q) (p : Participant) : Participant :=
  mkParticipant (hall_ticket_no p) (name p) (batch p) (college p)
                (platforms p) t (percentile p).

(** One iteration of the summing loops of [calculate_total_rating]:
    [if platform_status and platform_status.rating is not None:
       total += platform_status.rating]. *)
Definition add_rating (total : Q) (platform_status : option PlatformStatus)
  : Q :=
  match platform_status with
  | Some st =>
      match rating st with
      | Some r => (total + r)%Q
      | None => total
      end
  | None => total
  end.

(** [Participant.calculate_total_rating]: returns the total and stores it in
    [self.total_rating]. *)
Definition Participant_calculate_total_rating (self : Participant)
  : Q * Participant :=
  let total := fold_left add_rating (dict_values (platforms self)) 0%Q in
  (total, set_total_rating total self).

(** [EvaluationService.calculate_total_rating]. *)
Definition EvaluationService_calculate_total_rating (participant : Participant)
  : Q :=
  fold_left
    (fun total platform =>
       match dict_get (Platform_value platform) (platforms participant) with
       | Some st => add_rating total st     (* [.get] found the key *)
       | None => total                      (* [.get] returned None *)
       end)
    Platform_members 0%Q.

(** ** Reading JSON the way the code does *)

(** [d.get(k, dflt)]: [AttributeError] when [d] is no dict. *)
Definition get_method {W} (d : json) (k : string) (dflt : json) : M W json :=
  match d with
  | JObj fields => mret (default dflt (dict_get k fields))
  | _ => raise (an AttributeError)
  end.

(** [d[k]]: [KeyError] on a missing key, [TypeError] when [d] is no dict. *)
Definition subscript {W} (d : json) (k : string) : M W json :=
  match d with
  | JObj fields =>
      match dict_get k fields with
      | Some v => mret v
      | None => raise (an KeyError)
      end
  | _ => raise (an TypeError)
  end.

(** What iterating over a string yields: its characters. *)
Fixpoint characters (s : string) : list json :=
  match s with
  | EmptyString => []
  | String c s' => JStr (String c "") :: characters s'
  end.

(** A JSON value stored in [PlatformStatus.rating : Optional[float]].
    Python keeps whatever value it is given; the [rating] of the model
    holds a number or [None], so a number is kept and a value of any other
    JSON type, which the declared type rules out, is read as [None]. *)
Definition as_rating (j : json) : option Q :=
  match j with
  | JNum q => Some q
  | _ => None
  end.

(** [not username]: [None] or the empty string. *)
Definition falsy_handle (username : option string) : bool :=
  match username with
  | None => true
  | Some s => String.eqb s ""
  end.

Definition handle_is (username : option string) (s : string) : bool :=
  match username with
  | None => false
  | Some u => String.eqb u s
  end.

(** ['@' in handle]. *)
Fixpoint contains_at (s : string) : bool :=
  match s with
  | EmptyString => false
  | String c s' => if Ascii.eqb c "@"%char then true else contains_at s'
  end.

(** ** The world of a batch orchestrator

    One orchestrator owns one client.  The participant objects are shared
    with the caller and mutated in place, so they live in the world and the
    code handles them by reference (their position in [objs]).  The clock
    is the one [datetime.now()] reads; in the model it moves only while the
    task sleeps.  Logging is left out. *)

Record World : Type := mkWorld {
  objs : list Participant;
  clock : datetime;
  sleeps : list Z;          (* seconds passed to [asyncio.sleep], oldest first *)
  requests : list string;   (* handles sent to the client, oldest first *)
  closes : nat              (* calls of [client.close()] *)
}.

Definition second : Z := 1000000.

(** [await asyncio.sleep(seconds)]. *)
Definition asyncio_sleep (seconds : Z) : M World unit :=
  modify (fun w => mkWorld (objs w) (clock w + seconds * second)
                           (sleeps w ++ [seconds]) (requests w) (closes w)).

(** [await self.client.close()]. *)
Definition client_close : M World unit :=
  modify (fun w => mkWorld (objs w) (clock w) (sleeps w) (requests w)
                           (S (closes w))).

(** A platform client seen from its orchestrator: what the [n]-th call
    made on it answers for a handle. *)
Definition client_behaviour : Type := nat -> string -> outcome json.

Definition call_client (client : client_behaviour) (username : string)
  : M World json :=
  fun w =>
    (client (length (requests w)) username,
     mkWorld (objs w) (clock w) (sleeps w) (requests w ++ [username])
             (closes w)).

(** Dereference a participant.  A reference outside [objs] cannot be built
    by the code; the model gives it no behaviour. *)
Definition deref (participant : nat) : M World Participant :=
  fun w =>
    match objs w !! participant with
    | Some p => (Ret p, w)
    | None => (Diverge, w)
    end.

(** [participant.platforms[key].handle]. *)
Definition platform_handle (key : string) (participant : nat)
  : M World (option string) :=
  p ← deref participant;
  match dict_get key (platforms p) with
  | None => raise (an KeyError)
  | Some None => raise (an AttributeError)
  | Some (Some st) => mret (handle st)
  end.

(** [PlatformStatus(handle=.., rating=.., exists=.., raw_data=..)]: the
    time stamp is [datetime.now()] at construction. *)
Definition new_status (username : option string) (r : option Q) (ex : bool)
    (raw : json) : M World PlatformStatus :=
  now ← gets clock;
  mret (mkStatus username r ex now raw).

(** [participant.platforms[key] = result]. *)
Definition assign_status (key : string) (participant : nat)
    (result : PlatformStatus) : M World unit :=
  modify (fun w =>
    mkWorld
      (alter (fun p => set_platforms (dict_set key (Some result) (platforms p)) p)
             participant (objs w))
      (clock w) (sleeps w) (requests w) (closes w)).

(** [_retry_get_participant_data], given the call it wraps:
    [try: return await self.get_participant_data(participant)
     except RateLimitError: log; raise]. *)
Definition retry_wrapper {A} (again : M World A) : M World A :=
  try_except again
    (fun e => if isinstance e RateLimitError then raise e else raise e).

(** ** [platforms/codechef/service.py] *)

Module CodeChef.
Section Service.
Variable client : client_behaviour.   (* [self.client.get_user_info] *)

Definition KEY : string := Platform_value CODECHEF.

(** [fuel] bounds the depth of the recursion through
    [_retry_get_participant_data]. *)
Fixpoint get_participant_data (fuel : nat) (participant : nat)
  : M World PlatformStatus :=
  match fuel with
  | O => diverge
  | S fuel' =>
      username ← platform_handle KEY participant;
      if falsy_handle username then
        new_status username None false (JObj [])
      else
        try_except
          (profile ← call_client client (default "" username);
           ratings ← subscript profile "ratings";
           allContest ← subscript ratings "allContest";
           new_status username (as_rating allContest) true (JObj []))
          (fun e =>
             if isinstance e UserNotFoundError then
               new_status username None false (JObj [])
             else if isinstance e RateLimitError then
               asyncio_sleep 60;;
               retry_wrapper (get_participant_data fuel' participant)
             else if isinstance e ScraperError then
               raise e
             else raise e)
  end.

Definition _retry_get_participant_data (fuel : nat) (participant : nat)
  : M World PlatformStatus :=
  retry_wrapper (get_participant_data fuel participant).

(** The body of the [for] loop, returning the new [results]. *)
Definition process_one (fuel : nat) (results : list nat) (participant : nat)
  : M World (list nat) :=
  try_finally
    (try_except
       (result ← get_participant_data fuel participant;
        assign_status KEY participant result;;
        mret (results ++ [participant]))
       (fun e =>
          if isinstance e RateLimitError then
            asyncio_sleep 60;;
            try_except
              (result ← _retry_get_participant_data fuel participant;
               assign_status KEY participant result;;
               mret (results ++ [participant]))
              (fun e' =>
                 if isinstance e' RateLimitError then mret results
                 else if isinstance e' ScraperError
                         || isinstance e' UserNotFoundError
                 then mret results
                 else raise e')
          else raise e))
    client_close.

Fixpoint process_loop (fuel : nat) (participants : list nat)
    (results : list nat) : M World (list nat) :=
  match participants with
  | [] => mret results
  | participant :: rest =>
      results' ← process_one fuel results participant;
      process_loop fuel rest results'
  end.

Definition process_batch (fuel : nat) (participants : list nat)
  : M World (list nat) :=
  process_loop fuel participants [].
End Service.
End CodeChef.

(** ** [utils/leetcode_utils.py] *)

(** [float(rating)] after [if not isinstance(rating, (int, float)):
    rating = 0.0]; a Python [bool] is an [int]. *)
Definition float_of_rating (rating : json) : Q :=
  match rating with
  | JNum q => q
  | JBool true => 1%Q
  | _ => 0%Q
  end.

Definition extract_leetcode_rating {W} (data : json) : M W (Q * json) :=
  if negb (truthy data) then mret (0%Q, data) else
  d1 ← get_method data "data" JNull;
  if negb (truthy d1) then mret (0%Q, data) else
  d2 ← get_method data "data" (JObj []);
  ranking ← get_method d2 "userContestRanking" JNull;
  if negb (truthy ranking) then mret (0%Q, data) else
  d3 ← subscript data "data";
  user_data ← subscript d3 "userContestRanking";
  rating ← get_method user_data "rating" (JNum 0);
  mret (float_of_rating rating, data).

(** ** [platforms/leetcode/service.py] *)

Module LeetCode.
Section Service.
Variable client : client_behaviour. (* [self.client.get_user_contest_data] *)

Definition KEY : string := Platform_value LEETCODE.

Fixpoint get_participant_data (fuel : nat) (participant : nat)
  : M World PlatformStatus :=
  match fuel with
  | O => diverge
  | S fuel' =>
      username ← platform_handle KEY participant;
      if falsy_handle username || handle_is username "#n/a" then
        new_status username None false (JObj [])
      else
        try_except
          (user_data ← call_client client (default "" username);
           if negb (truthy user_data) then
             new_status username None false (JObj [])
           else
             '(rating, raw_data) ← extract_leetcode_rating user_data;
             new_status username (Some rating) true raw_data)
          (fun e =>
             if isinstance e UserNotFoundError then
               new_status username None false (JObj [])
             else if isinstance e RateLimitError then
               asyncio_sleep 60;;
               retry_wrapper (get_participant_data fuel' participant)
             else if isinstance e ScraperError then
               raise e
             else raise e)
  end.

Definition _retry_get_participant_data (fuel : nat) (participant : nat)
  : M World PlatformStatus :=
  retry_wrapper (get_participant_data fuel participant).

(** [Platform.LEETCODE.value not in participant.platforms]. *)
Definition has_no_key (participant : nat) : M World bool :=
  p ← deref participant;
  mret (match dict_get KEY (platforms p) with
        | None => true
        | Some _ => false
        end).

Definition process_one (fuel : nat) (results : list nat) (participant : nat)
  : M World (list nat) :=
  try_except
    (missing ← has_no_key participant;
     if (missing : bool) then mret results else
     result ← get_participant_data fuel participant;
     assign_status KEY participant result;;
     asyncio_sleep 1;;
     mret (results ++ [participant]))
    (fun e =>
       if isinstance e RateLimitError then
         asyncio_sleep 60;;
         try_except
           (result ← _retry_get_participant_data fuel participant;
            assign_status KEY participant result;;
            mret (results ++ [participant]))
           (fun e' =>
              if isinstance e' RateLimitError then mret results
              else if isinstance e' ScraperError
                      || isinstance e' UserNotFoundError
              then mret results
              else raise e')
       else if isinstance e ScraperError || isinstance e UserNotFoundError
       then mret results
       else raise e).

Fixpoint process_loop (fuel : nat) (participants : list nat)
    (results : list nat) : M World (list nat) :=
  match participants with
  | [] => mret results
  | participant :: rest =>
      results' ← process_one fuel results participant;
      process_loop fuel rest results'
  end.

Definition process_batch (fuel : nat) (participants : list nat)
  : M World (list nat) :=
  process_loop fuel participants [].
End Service.
End LeetCode.

(** ** [platforms/codeforces/client.py] and [service.py] *)

Module Codeforces.
Section Service.
(** [self.get_user_info([handle])], the signed call to [user.info]. *)
Variable client : client_behaviour.

Definition KEY : string := Platform_value CODEFORCES.

(** [results[0]] under the guard [results and len(results) > 0]. *)
Definition first_result (results : json) : M World json :=
  if negb (truthy results) then mret JNull else
  match results with
  | JArr (x :: _) => mret x
  | JStr (String c _) => mret (JStr (String c ""))
  | JObj _ => raise (an KeyError)
  | _ => raise (an TypeError)
  end.

Definition get_single_user_info (handle : option string) : M World json :=
  if falsy_handle handle || handle_is handle "#n/a"
     || contains_at (default "" handle)
  then mret JNull
  else
    try_except
      (results ← call_client client (default "" handle);
       first_result results)
      (fun e =>
         if isinstance e UserNotFoundError || isinstance e ScraperError
            || isinstance e RateLimitError
         then mret JNull
         else raise e).

Fixpoint get_participant_data (fuel : nat) (participant : nat)
  : M World PlatformStatus :=
  match fuel with
  | O => diverge
  | S fuel' =>
      username ← platform_handle KEY participant;
      if falsy_handle username || handle_is username "#n/a" then
        new_status username None false (JObj [])
      else
        try_except
          (user_data ← get_single_user_info username;
           if negb (truthy user_data) then
             new_status username None false (JObj [])
           else
             rating ← get_method user_data "rating" (JNum 0);
             new_status username (as_rating rating) true user_data)
          (fun e =>
             if isinstance e UserNotFoundError then
               new_status username None false (JObj [])
             else if isinstance e RateLimitError then
               asyncio_sleep 60;;
               retry_wrapper (get_participant_data fuel' participant)
             else if isinstance e ScraperError then
               raise e
             else raise e)
  end.

Definition _retry_get_participant_data (fuel : nat) (participant : nat)
  : M World PlatformStatus :=
  retry_wrapper (get_participant_data fuel participant).

Definition process_one (fuel : nat) (results : list nat) (participant : nat)
  : M World (list nat) :=
  try_finally
    (try_except
       (result ← get_participant_data fuel participant;
        assign_status KEY participant result;;
        mret (results ++ [participant]))
       (fun e =>
          if isinstance e RateLimitError then
            asyncio_sleep 60;;
            try_except
              (result ← _retry_get_participant_data fuel participant;
               assign_status KEY participant result;;
               mret (results ++ [participant]))
              (fun e' =>
                 if isinstance e' RateLimitError then mret results
                 else if isinstance e' ScraperError
                         || isinstance e' UserNotFoundError
                 then mret results
                 else raise e')
          else raise e))
    client_close.

Fixpoint process_loop (fuel : nat) (participants : list nat)
    (results : list nat) : M World (list nat) :=
  match participants with
  | [] => mret results
  | participant :: rest =>
      results' ← process_one fuel results participant;
      process_loop fuel rest results'
  end.

Definition process_batch (fuel : nat) (participants : list nat)
  : M World (list nat) :=
  process_loop fuel participants [].
End Service.
End Codeforces.

(** ** [platforms/base.py]: the rate governor and the request executor *)

(** Why a task went to sleep; kept with each duration in the trace. *)
Inductive sleep_reason : Set :=
  | Governor      (* [_rate_limit], [_rate_limit_by_minute] *)
  | Backoff       (* tenacity, between two attempts of [request] *)
  | CoolDown      (* after a rate-limit answer *)
  | Pacing.       (* fixed pauses between units of work *)

(** What one HTTP exchange on the session produces before
    [raise_for_status]. *)
Record Response : Type := mkResponse {
  status : Z;
  content_type_json : bool;
  body : option json          (* [None]: the payload does not parse *)
}.

Inductive transport : Type :=
  | Answered (r : Response)
  | ConnectionFailed            (* an [aiohttp.ClientError] without status *)
  | TimedOut.                   (* [asyncio.TimeoutError] *)

(** The attributes of a [BasePlatformClient], with the wall clock it reads
    and the traces the properties speak about. *)
Record Client : Type := mkClient {
  rate_limit : Z;
  rate_limit_by_minute : bool;
  bypass_rate_limit : bool;
  last_request_time : Q;
  session_open : bool;
  now : Q;                              (* [time.time()], in seconds *)
  slept : list (sleep_reason * Q);      (* oldest first *)
  exchanges : nat                       (* HTTP exchanges started so far *)
}.

Definition set_rate_limit (v : Z) (c : Client) : Client :=
  mkClient v (rate_limit_by_minute c) (bypass_rate_limit c)
           (last_request_time c) (session_open c) (now c) (slept c)
           (exchanges c).
Definition set_rate_limit_by_minute (v : bool) (c : Client) : Client :=
  mkClient (rate_limit c) v (bypass_rate_limit c)
           (last_request_time c) (session_open c) (now c) (slept c)
           (exchanges c).
Definition set_bypass_rate_limit (v : bool) (c : Client) : Client :=
  mkClient (rate_limit c) (rate_limit_by_minute c) v
           (last_request_time c) (session_open c) (now c) (slept c)
           (exchanges c).
Definition set_last_request_time (v : Q) (c : Client) : Client :=
  mkClient (rate_limit c) (rate_limit_by_minute c) (bypass_rate_limit c)
           v (session_open c) (now c) (slept c) (exchanges c).
Definition set_session_open (v : bool) (c : Client) : Client :=
  mkClient (rate_limit c) (rate_limit_by_minute c) (bypass_rate_limit c)
           (last_request_time c) v (now c) (slept c) (exchanges c).

(** [a < b] on the numbers the governor compares. *)
Definition Qlt_bool (a b : Q) : bool := negb (Qle_bool b a).

(** How long [asyncio.sleep(d)] suspends at least: a delay that is not
    positive only yields. *)
Definition delay (d : Q) : Q := if Qlt_bool 0 d then d else 0%Q.

Section Base.
(** The upstream: its answer to the [n]-th exchange. *)
Variable server : nat -> transport.
(** The scheduler: by how much the [n]-th sleep outlasts what was asked. *)
Variable overshoot : nat -> Q.

(** [await asyncio.sleep(d)]. *)
Definition sleep_for (why : sleep_reason) (d : Q) : M Client unit :=
  modify (fun c =>
    mkClient (rate_limit c) (rate_limit_by_minute c) (bypass_rate_limit c)
             (last_request_time c) (session_open c)
             (now c + delay d + overshoot (length (slept c)))%Q
             (slept c ++ [(why, d)]) (exchanges c)).

(** The common body of the two governor methods; [window] is [1.0] for
    [_rate_limit] and [300.0] for [_rate_limit_by_minute]. *)
Definition govern (window : Q) (rate_limit_arg : option Z)
  : M Client unit :=
  bypass ← gets bypass_rate_limit;
  if (bypass : bool) then mret tt else
  own ← gets rate_limit;
  let effective_rate_limit := default own rate_limit_arg in
  current_time ← gets now;
  last ← gets last_request_time;
  let time_since_last_request := (current_time - last)%Q in
  if decide (effective_rate_limit = 0) then raise (an ZeroDivisionError)
  else
    let interval := (window / inject_Z effective_rate_limit)%Q in
    (if Qlt_bool time_since_last_request interval then
       sleep_for Governor (interval - time_since_last_request)%Q
     else mret tt);;
    t ← gets now;
    modify (set_last_request_time t).

Definition _rate_limit (rate_limit_arg : option Z) : M Client unit :=
  govern 1 rate_limit_arg.

Definition _rate_limit_by_minute (rate_limit_arg : option Z)
  : M Client unit :=
  govern 300 rate_limit_arg.

(** [initialize]. *)
Definition initialize : M Client unit :=
  open ← gets session_open;
  if (open : bool) then mret tt else modify (set_session_open true).

(** [async with self.session.request(..) as response:
       await response.read(); response.raise_for_status()]. *)
Definition session_request : M Client Response :=
  fun c =>
    let c' := mkClient (rate_limit c) (rate_limit_by_minute c)
                       (bypass_rate_limit c) (last_request_time c)
                       (session_open c) (now c) (slept c)
                       (S (exchanges c)) in
    match server (exchanges c) with
    | Answered r =>
        if (400 <=? status r)%Z then (Raise (http_error (status r)), c')
        else (Ret r, c')
    | ConnectionFailed => (Raise (an ClientError), c')
    | TimedOut => (Raise (an TimeoutError), c')
    end.

(** What [request] does before the exchange: the session, the overrides,
    the governor. *)
Definition before_exchange (rate_limit_arg : option Z)
    (rate_limit_by_minute_arg bypass_rate_limit_arg : bool)
  : M Client unit :=
  initialize;;
  (match rate_limit_arg with
   | Some r => if decide (r = 0) then mret tt else modify (set_rate_limit r)
   | None => mret tt
   end);;
  (if rate_limit_by_minute_arg
   then modify (set_rate_limit_by_minute true) else mret tt);;
  (if bypass_rate_limit_arg
   then modify (set_bypass_rate_limit true) else mret tt);;
  (if negb bypass_rate_limit_arg then
     own ← gets rate_limit;
     if rate_limit_by_minute_arg then _rate_limit_by_minute (Some own)
     else _rate_limit (Some own)
   else mret tt).

(** The undecorated body of [request]. *)
Definition request_once (rate_limit_arg : option Z)
    (rate_limit_by_minute_arg bypass_rate_limit_arg : bool)
  : M Client Response :=
  before_exchange rate_limit_arg rate_limit_by_minute_arg
                  bypass_rate_limit_arg;;
  try_except session_request
    (fun e =>
       if isinstance e ClientResponseError then
         if decide (exn_status e = 429) then raise (an RateLimitError)
         else raise (an ScraperError)
       else raise e).

(** *** The [tenacity] decorator

    The library is not part of the repository; this is its documented
    behaviour for [retry(retry=.., wait=.., stop=stop_after_attempt(n))]
    with the default [reraise=False]: an attempt whose exception satisfies
    the retry predicate is followed, unless it was the [n]-th, by a sleep
    of [wait attempt_number] and a new attempt; after the [n]-th such
    failure [RetryError] is raised.  Any other exception, and any return
    value, ends the call at once. *)

Definition retry_if_exception_type (c : exn_class) (e : exn) : bool :=
  isinstance e c.

(** [wait_exponential(multiplier, min, max)]:
    [max(max(0, min), min(multiplier * 2 ** (attempt_number - 1), max))]. *)
Definition wait_exponential (multiplier min_ max_ : Z) (attempt_number : nat)
  : Z :=
  Z.max (Z.max 0 min_)
        (Z.min (multiplier * 2 ^ (Z.of_nat attempt_number - 1)) max_).

Fixpoint attempts {A} (retry_on : exn -> bool) (wait : nat -> Z)
    (remaining : nat) (attempt_number : nat) (body : M Client A)
  : M Client A :=
  try_except body
    (fun e =>
       if retry_on e then
         match remaining with
         | O => raise (an RetryError)
         | S remaining' =>
             sleep_for Backoff (inject_Z (wait attempt_number));;
             attempts retry_on wait remaining' (S attempt_number) body
         end
       else raise e).

Definition retry {A} (retry_on : exn -> bool) (wait : nat -> Z)
    (stop_after_attempt : nat) (body : M Client A) : M Client A :=
  attempts retry_on wait (Nat.pred stop_after_attempt) 1 body.

(** [BasePlatformClient.request], decorated. *)
Definition request (rate_limit_arg : option Z)
    (rate_limit_by_minute_arg bypass_rate_limit_arg : bool)
  : M Client Response :=
  retry (retry_if_exception_type ClientError) (wait_exponential 1 4 10) 3
        (request_once rate_limit_arg rate_limit_by_minute_arg
                      bypass_rate_limit_arg).

(** [await response.json()]. *)
Definition response_json {W} (r : Response) : M W json :=
  if content_type_json r then
    match body r with
    | Some j => mret j
    | None => raise (an JSONDecodeError)
    end
  else raise (http_error (status r)).   (* [ContentTypeError] *)
End Base.

(** ** [db/repositories.py]: the leaderboard cache repository *)

Module LeaderboardCache.
Record t : Type := mk {
  platform : Platform;
  cache_id : string;
  entries : list json;
  last_updated : datetime
}.
End LeaderboardCache.

(** A document of the [leaderboard_cache] collection. *)
Record CacheDoc : Type := mkCacheDoc {
  doc_platform : string;
  doc_cacheId : string;
  doc_entries : option (list json);
  doc_lastUpdated : option datetime
}.

(** The collection, in natural order, and whether the server answers; an
    operation on a server that is down raises [PyMongoError]. *)
Record CacheDb : Type := mkCacheDb {
  cache_collection : list CacheDoc;
  cache_db_up : bool
}.

Definition CACHE_MAX_AGE_DAYS : Z := 1.

Definition microseconds_per_day : Z := 86400 * 1000000.

(** [timedelta.days] of a difference of two [datetime]s: Python normalises
    a [timedelta] so that [days] is the floor of the quotient. *)
Definition timedelta_days (delta : Z) : Z := delta / microseconds_per_day.

(** [is_cache_stale], with the reading of [datetime.now()] as [now_]. *)
Definition is_cache_stale (now_ : datetime)
    (cache_entry : option LeaderboardCache.t) : bool :=
  match cache_entry with
  | None => true
  | Some e =>
      let age := now_ - LeaderboardCache.last_updated e in
      (CACHE_MAX_AGE_DAYS <=? timedelta_days age)%Z
  end.

(** [Platform._value2member_map_[v]]. *)
Definition Platform_of_value (v : string) : option Platform :=
  find (fun p => String.eqb (Platform_value p) v) Platform_members.

(** [_document_to_cache_entry]; a missing [lastUpdated] defaults to
    [datetime.now()], read here as the same [now_]. *)
Definition _document_to_cache_entry (now_ : datetime) (doc : CacheDoc)
  : outcome LeaderboardCache.t :=
  match Platform_of_value (doc_platform doc) with
  | None => Raise (an KeyError)
  | Some p =>
      Ret (LeaderboardCache.mk p (doc_cacheId doc)
             (default [] (doc_entries doc))
             (default now_ (doc_lastUpdated doc)))
  end.

(** A BSON date holds whole milliseconds: the driver drops the
    microseconds below when it encodes a [datetime], in a document as in
    a query. *)
Definition bson_date (t : datetime) : datetime := 1000 * (t / 1000).

(** [_cache_entry_to_document], as the server receives the document. *)
Definition _cache_entry_to_document (cache_entry : LeaderboardCache.t)
  : CacheDoc :=
  mkCacheDoc (Platform_value (LeaderboardCache.platform cache_entry))
             (LeaderboardCache.cache_id cache_entry)
             (Some (LeaderboardCache.entries cache_entry))
             (Some (bson_date (LeaderboardCache.last_updated cache_entry))).

Definition doc_matches (platform_value cache_id : string) (doc : CacheDoc)
  : bool :=
  String.eqb (doc_platform doc) platform_value
  && String.eqb (doc_cacheId doc) cache_id.

(** [collection.find_one({"platform": .., "cacheId": ..})]. *)
Definition find_one (db : CacheDb) (platform_value cache_id : string)
  : outcome (option CacheDoc) :=
  if cache_db_up db
  then Ret (find (doc_matches platform_value cache_id) (cache_collection db))
  else Raise (an PyMongoError).

(** [get_cache_entry]. *)
Definition get_cache_entry (now_ : datetime) (db : CacheDb)
    (platform : Platform) (cache_id : string) (check_freshness : bool)
  : outcome (option LeaderboardCache.t) :=
  match find_one db (Platform_value platform) cache_id with
  | Ret (Some doc) =>
      match _document_to_cache_entry now_ doc with
      | Ret cache_entry =>
          if check_freshness && is_cache_stale now_ (Some cache_entry)
          then Ret None
          else Ret (Some cache_entry)
      | Raise e =>
          if isinstance e PyMongoError then Raise (an DatabaseError)
          else Raise e
      | Diverge => Diverge
      end
  | Ret None => Ret None
  | Raise e =>
      if isinstance e PyMongoError then Raise (an DatabaseError) else Raise e
  | Diverge => Diverge
  end.

(** [$set] with [upsert=True] on the natural key. *)
Fixpoint upsert_doc (doc : CacheDoc) (coll : list CacheDoc) : list CacheDoc :=
  match coll with
  | [] => [doc]
  | d :: coll' =>
      if doc_matches (doc_platform doc) (doc_cacheId doc) d
      then doc :: coll'
      else d :: upsert_doc doc coll'
  end.

(** [save_cache_entries]: one [bulk_write] of upserts, skipped when the
    list is empty. *)
Definition save_cache_entries (db : CacheDb)
    (cache_entries : list LeaderboardCache.t) : outcome unit * CacheDb :=
  match cache_entries with
  | [] => (Ret tt, db)
  | _ =>
      if cache_db_up db then
        (Ret tt,
         mkCacheDb
           (fold_left (fun coll e => upsert_doc (_cache_entry_to_document e) coll)
                      cache_entries (cache_collection db))
           true)
      else (Raise (an DatabaseError), db)
  end.

(** The query of [get_platform_cache_entries]: the platform and, for
    [only_fresh], [lastUpdated >= now - 1 day]. *)
Definition query_matches (now_ : datetime) (platform_value : string)
    (only_fresh : bool) (doc : CacheDoc) : bool :=
  String.eqb (doc_platform doc) platform_value
  && (negb only_fresh
      || match doc_lastUpdated doc with
         | Some t =>
             (bson_date (now_ - CACHE_MAX_AGE_DAYS * microseconds_per_day)
              <=? t)%Z
         | None => false
         end).

Fixpoint collect_entries (now_ : datetime) (only_fresh : bool)
    (docs : list CacheDoc) (entries : list LeaderboardCache.t)
  : outcome (list LeaderboardCache.t) :=
  match docs with
  | [] => Ret entries
  | doc :: docs' =>
      match _document_to_cache_entry now_ doc with
      | Ret cache_entry =>
          if negb only_fresh || negb (is_cache_stale now_ (Some cache_entry))
          then collect_entries now_ only_fresh docs' (entries ++ [cache_entry])
          else collect_entries now_ only_fresh docs' entries
      | Raise e => Raise e
      | Diverge => Diverge
      end
  end.

Definition get_platform_cache_entries (now_ : datetime) (db : CacheDb)
    (platform : Platform) (only_fresh : bool)
  : outcome (list LeaderboardCache.t) :=
  if cache_db_up db then
    collect_entries now_ only_fresh
      (filter (fun doc => Is_true (query_matches now_ (Platform_value platform)
                                                 only_fresh doc))
              (cache_collection db))
      []
  else Raise (an DatabaseError).

(** ** Strings *)

(** [c.lower()] on ASCII letters. *)
Definition lower_ascii (c : ascii) : ascii :=
  let n := nat_of_ascii c in
  if (65 <=? n)%nat && (n <=? 90)%nat then ascii_of_nat (n + 32) else c.

Fixpoint lower (s : string) : string :=
  match s with
  | EmptyString => EmptyString
  | String c s' => String (lower_ascii c) (lower s')
  end.

(** [str(page)] for a non-negative [int]. *)
Definition str (n : nat) : string := NilZero.string_of_uint (Nat.to_uint n).

(** [page_id.isdigit()] and [int(page_id)], on ASCII digits. *)
Definition parse_digits (s : string) : option nat :=
  match s with
  | EmptyString => None
  | _ => Nat.of_uint <$> NilEmpty.uint_of_string s
  end.

(** ** [platforms/geeksforgeeks/client.py] *)

Module GeeksForGeeks.

Record GfgClient : Type := mkGfg {
  base : Client;
  leaderboard_cache : dict json;          (* contest id -> rows *)
  user_cache : dict (dict json);          (* handle -> contest id -> row *)
  is_cache_initialized : bool;
  cache_db : CacheDb                      (* behind [self.cache_repository] *)
}.

Definition set_base (b : Client) (g : GfgClient) : GfgClient :=
  mkGfg b (leaderboard_cache g) (user_cache g) (is_cache_initialized g)
        (cache_db g).
Definition set_leaderboard_cache (v : dict json) (g : GfgClient)
  : GfgClient :=
  mkGfg (base g) v (user_cache g) (is_cache_initialized g) (cache_db g).
Definition set_user_cache (v : dict (dict json)) (g : GfgClient) : GfgClient :=
  mkGfg (base g) (leaderboard_cache g) v (is_cache_initialized g) (cache_db g).
Definition set_is_cache_initialized (v : bool) (g : GfgClient) : GfgClient :=
  mkGfg (base g) (leaderboard_cache g) (user_cache g) v (cache_db g).
Definition set_cache_db (v : CacheDb) (g : GfgClient) : GfgClient :=
  mkGfg (base g) (leaderboard_cache g) (user_cache g) (is_cache_initialized g)
        v.

(** Run a method of the base class on the GeeksForGeeks client. *)
Definition on_base {A} (m : M Client A) : M GfgClient A :=
  fun g => let '(r, b) := m (base g) in (r, set_base b g).

(** [datetime.now()]: the wall clock, to the microsecond. *)
Definition datetime_now : M GfgClient datetime :=
  gets (fun g => Qfloor (now (base g) * inject_Z second)).

(** A call of the repository from the client. *)
Definition repo_save (cache_entries : list LeaderboardCache.t)
  : M GfgClient unit :=
  fun g => let '(r, db) := save_cache_entries (cache_db g) cache_entries in
           (r, set_cache_db db g).

Definition repo_get_platform_cache_entries (platform : Platform)
    (only_fresh : bool) : M GfgClient (list LeaderboardCache.t) :=
  fun g =>
    (get_platform_cache_entries (Qfloor (now (base g) * inject_Z second))
                                (cache_db g) platform only_fresh, g).

(** [entry.get("user_handle", "").lower()]. *)
Definition entry_handle (entry : json) : M GfgClient string :=
  h ← get_method entry "user_handle" (JStr "");
  match h with
  | JStr s => mret (lower s)
  | _ => raise (an AttributeError)
  end.

(** [if user_handle: self.user_cache.setdefault(user_handle, {})[contest_id]
    = entry], as the code spells it out. *)
Definition index_entry (contest_id : string) (entry : json) (user_handle : string)
  : M GfgClient unit :=
  if String.eqb user_handle "" then mret tt else
  modify (fun g =>
    let per_user := default [] (dict_get user_handle (user_cache g)) in
    set_user_cache
      (dict_set user_handle (dict_set contest_id entry per_user) (user_cache g))
      g).

(** [user_score == 0 or user_score is None]. *)
Definition zero_or_none (user_score : json) : bool :=
  match user_score with
  | JNull => true
  | JNum q => Qeq_bool q 0
  | JBool b => negb b
  | _ => false
  end.

(** The rows of a page, as [for entry in entries] takes them: the items
    of a list, the keys of a dict, the characters of a string; a number
    or a boolean is not iterable. *)
Definition rows (entries : json) : M GfgClient (list json) :=
  match entries with
  | JArr l => mret l
  | JObj fields => mret (map (fun kv => JStr (fst kv)) fields)
  | JStr s => mret (characters s)
  | _ => raise (an TypeError)
  end.

(** Hydration from the persistent store: the loop over
    [db_cache_entries]. *)
Fixpoint load_rows (contest_id : string) (user_entries : list json)
  : M GfgClient unit :=
  match user_entries with
  | [] => mret tt
  | user_entry :: rest =>
      user_handle ← entry_handle user_entry;
      index_entry contest_id user_entry user_handle;;
      load_rows contest_id rest
  end.

Fixpoint load_entries (db_cache_entries : list LeaderboardCache.t)
  : M GfgClient unit :=
  match db_cache_entries with
  | [] => mret tt
  | entry :: rest =>
      let contest_id := LeaderboardCache.cache_id entry in
      modify (fun g =>
        set_leaderboard_cache
          (dict_set contest_id (JArr (LeaderboardCache.entries entry))
                    (leaderboard_cache g)) g);;
      load_rows contest_id (LeaderboardCache.entries entry);;
      load_entries rest
  end.

(** The local variables of [initialize_cache] that outlive one page. *)
Record Locals : Type := mkLocals {
  db_cache_entries_to_save : list LeaderboardCache.t;
  processed_pages : list nat;
  found_zero : option bool         (* [None]: not bound yet *)
}.

(** The loop over the rows of a fetched page: index each row and note
    whether one has a zero or missing score. *)
Fixpoint scan_rows (page : nat) (entries : list json) (found : bool)
  : M GfgClient bool :=
  match entries with
  | [] => mret found
  | entry :: rest =>
      user_handle ← entry_handle entry;
      user_score ← get_method entry "user_score" JNull;
      index_entry (str page) entry user_handle;;
      scan_rows page rest (found || zero_or_none user_score)
  end.

Definition max_retries : nat := 3.

Section Fetch.
Variable server : nat -> transport.
Variable overshoot : nat -> Q.

(** What the [try] block of the [while] loop does once the page has been
    requested.  The page is put in [leaderboard_cache] as it came; the
    loop over its rows comes after, and only a page whose rows were all
    read reaches the entries to save. *)
Definition store_page (page : nat) (loc : Locals) : M GfgClient Locals :=
  response ← on_base (request server overshoot None false false);
  json_response ← response_json response;
  entries ← get_method json_response "results" (JArr []);
  if negb (truthy entries) then mret loc else
  modify (fun g =>
    set_leaderboard_cache
      (dict_set (str page) entries (leaderboard_cache g)) g);;
  stamp ← datetime_now;
  entry_list ← rows entries;
  let cache_entry :=
    LeaderboardCache.mk GEEKSFORGEEKS (str page) entry_list stamp in
  let to_save := db_cache_entries_to_save loc ++ [cache_entry] in
  let processed := processed_pages loc ++ [page] in
  found ← scan_rows page entry_list false;
  to_save' ←
    (if (10 <=? length to_save)%nat then
       try_except (repo_save to_save;; mret [])
                  (fun _ => mret to_save)
     else mret to_save);
  (if found then mret tt else on_base (sleep_for overshoot Pacing (1 # 10)));;
  mret (mkLocals to_save' processed (Some found)).

(** The [while retry_count <= max_retries] loop for one page.  It returns
    the locals and the flag [rate_limited].  [budget] counts the
    iterations the loop condition still allows. *)
Fixpoint fetch_page (budget : nat) (retry_count : nat) (page : nat)
    (loc : Locals) (rate_limited : bool) : M GfgClient (Locals * bool) :=
  match budget with
  | O => mret (loc, rate_limited)
  | S budget' =>
      if (max_retries <? retry_count)%nat then mret (loc, rate_limited) else
      try_except
        (loc' ← store_page page loc; mret (loc', rate_limited))
        (fun e =>
           if isinstance e ClientError || isinstance e JSONDecodeError then
             if isinstance e ClientResponseError
                && bool_decide (exn_status e = 429)
             then
               let retry_count' := S retry_count in
               if (retry_count' <=? max_retries)%nat then
                 on_base (sleep_for overshoot CoolDown
                                    (inject_Z (60 * Z.of_nat retry_count')));;
                 fetch_page budget' retry_count' page loc true
               else mret (loc, true)
             else
               on_base (sleep_for overshoot Pacing 1);;
               mret (loc, rate_limited)
           else raise e)
  end.

(** [for page in range(start_page, max_pages)], [count] pages to go. *)
Fixpoint pages_loop (count : nat) (page : nat) (loc : Locals)
  : M GfgClient Locals :=
  match count with
  | O => mret loc
  | S count' =>
      if bool_decide (page ∈ processed_pages loc)
      then pages_loop count' (S page) loc
      else
        '(loc', rate_limited) ← fetch_page (S max_retries) 0 page loc false;
        (if (rate_limited : bool)
         then on_base (sleep_for overshoot CoolDown 120) else mret tt);;
        match found_zero loc' with
        | Some true => mret loc'
        | _ => pages_loop count' (S page) loc'
        end
  end.

(** The ids of the pages already in memory. *)
Definition processed_page_ids (g : GfgClient) : list nat :=
  omap (fun kv => parse_digits (fst kv)) (leaderboard_cache g).

(** The first part of [initialize_cache]: load what the persistent store
    holds fresh.  [true] when the method returns from there. *)
Definition hydrate (force_refresh : bool) : M GfgClient bool :=
  if negb force_refresh then
    try_except
      (db_cache_entries ← repo_get_platform_cache_entries GEEKSFORGEEKS true;
       match db_cache_entries with
       | [] => mret false
       | _ =>
           load_entries db_cache_entries;;
           modify (set_is_cache_initialized true);;
           mret true
       end)
      (fun _ => mret false)
  else mret false.

(** The second part: fetch the pages, save what is left to save, mark the
    cache initialised. *)
Definition fetch_leaderboard (max_pages : nat) : M GfgClient unit :=
  ids ← gets processed_page_ids;
  let start_page :=
    match ids with
    | [] => O
    | _ => S (foldr Nat.max O ids)
    end in
  loc ← pages_loop (max_pages - start_page) start_page (mkLocals [] ids None);
  try_except
    (match db_cache_entries_to_save loc with
     | [] => mret tt
     | to_save => repo_save to_save
     end)
    (fun _ => mret tt);;
  modify (set_is_cache_initialized true).

Definition initialize_cache (max_pages : nat) (force_refresh : bool)
  : M GfgClient unit :=
  initialized ← gets is_cache_initialized;
  if (initialized : bool) && negb force_refresh then mret tt else
  loaded ← hydrate force_refresh;
  if (loaded : bool) then mret tt else fetch_leaderboard max_pages.
End Fetch.

(** [verify_user_exists], over the lookup it relies on
    ([self.get_practice_score]). *)
Section Verify.
Variable get_practice_score : option string -> M GfgClient json.

Definition verify_user_exists (handle : option string) : M GfgClient bool :=
  if falsy_handle handle || handle_is handle "#n/a" then mret false else
  initialized ← gets is_cache_initialized;
  cache ← gets user_cache;
  let handle_lower := lower (default "" handle) in
  if (initialized : bool)
     && match dict_get handle_lower cache with
        | Some (_ :: _) => true
        | _ => false
        end
  then mret true
  else
    try_except
      (get_practice_score handle;; mret true)
      (fun e =>
         if isinstance e UserNotFoundError then mret false
         else if isinstance e ScraperError || isinstance e RateLimitError
         then mret true
         else raise e).
End Verify.

End GeeksForGeeks.

(** ** [platforms/leetcode/client.py]: [verify_user_exists] *)

Module LeetCodeClient.
Section Verify.
Context {W : Type}.
Variable get_user_contest_data : option string -> M W json.

Definition verify_user_exists (handle : option string) : M W bool :=
  if falsy_handle handle || handle_is handle "#n/a" then mret false else
  try_except
    (get_user_contest_data handle;; mret true)
    (fun e =>
       if isinstance e UserNotFoundError then mret false
       else if isinstance e ScraperError || isinstance e RateLimitError
       then mret true
       else raise e).
End Verify.
End LeetCodeClient.

(** ** [platforms/hackerrank/client.py]: fetching one contest

    The [while True] loop of [initialize_cache] that pages through the
    leaderboard of a contest, 100 rows at a time.  It returns the rows it
    collected and the flag [rate_limited]; [fuel] bounds the number of
    iterations of the model. *)

Module HackerRank.
Section Fetch.
Variable server : nat -> transport.
Variable overshoot : nat -> Q.

Definition max_retries : nat := 3.
Definition limit : nat := 100.

(** [all_entries.extend(models)]: the items of a list, the keys of a
    dict, the characters of a string; a number or a boolean is not
    iterable. *)
Definition extend (all_entries : list json) (models : json)
  : M Client (list json) :=
  match models with
  | JArr l => mret (all_entries ++ l)
  | JObj fields => mret (all_entries ++ map (fun kv => JStr (fst kv)) fields)
  | JStr s => mret (all_entries ++ characters s)
  | _ => raise (an TypeError)
  end.

(** The [try] block: [None] for [break], the new rows otherwise. *)
Definition next_rows (all_entries : list json) : M Client (option (list json)) :=
  response ← request server overshoot None false false;
  json_response ← response_json response;
  models ← get_method json_response "models" (JArr []);
  if negb (truthy models) then mret None else
  all_entries' ← extend all_entries models;
  sleep_for overshoot Pacing 1;;
  mret (Some all_entries').

Fixpoint fetch_contest (fuel : nat) (retry_count : nat)
    (all_entries : list json) (offset : nat) (rate_limited : bool)
  : M Client (list json * bool) :=
  match fuel with
  | O => diverge
  | S fuel' =>
      step ←
        try_except
          (rows ← next_rows all_entries;
           mret (match rows with
                 | None => inl (all_entries, rate_limited)
                 | Some all_entries' =>
                     inr (retry_count, all_entries', (offset + limit)%nat,
                          rate_limited)
                 end))
          (fun e =>
             if isinstance e ClientError || isinstance e JSONDecodeError then
               if isinstance e ClientResponseError
                  && bool_decide (exn_status e = 429)
               then
                 let retry_count' := S retry_count in
                 if (retry_count' <=? max_retries)%nat then
                   sleep_for overshoot CoolDown
                             (inject_Z (60 * Z.of_nat retry_count'));;
                   mret (inr (retry_count', all_entries, offset, true))
                 else mret (inl (all_entries, true))
               else mret (inl (all_entries, rate_limited))
             else raise e);
      match step with
      | inl done => mret done
      | inr (retry_count', all_entries', offset', rate_limited') =>
          fetch_contest fuel' retry_count' all_entries' offset' rate_limited'
      end
  end.
End Fetch.
End HackerRank.

(** ** [db/repositories.py]: the participant repository *)

(** A stored platform status and a stored participant: the dictionaries
    that [_platform_status_to_document] and [_participant_to_document]
    build.  The collections of the model hold documents this code wrote:
    every field is there, and [batch] and [college] are values of the
    enumerations (written here as their members). *)
Record StatusDoc : Type := mkStatusDoc {
  doc_handle : option string;
  doc_rating : option Q;
  doc_exists : bool;
  doc_status_lastUpdated : datetime;
  doc_rawData : json
}.

Record ParticipantDoc : Type := mkParticipantDoc {
  doc_hallTicketNo : string;
  doc_name : string;
  doc_batch : Batch;
  doc_college : College;
  doc_platforms : dict (option StatusDoc);
  doc_totalRating : Q;
  doc_percentile : Q
}.

(** [_platform_status_to_document], as the server receives the document:
    [lastUpdated] is a BSON date. *)
Definition _platform_status_to_document (status : option PlatformStatus)
  : option StatusDoc :=
  match status with
  | None => None
  | Some status =>
      Some (mkStatusDoc (handle status) (rating status) (exists_ status)
                        (bson_date (last_updated status)) (raw_data status))
  end.

Definition _document_to_platform_status (doc : option StatusDoc)
  : option PlatformStatus :=
  match doc with
  | None => None
  | Some doc =>
      Some (mkStatus (doc_handle doc) (doc_rating doc) (doc_exists doc)
                     (doc_status_lastUpdated doc) (doc_rawData doc))
  end.

Definition _participant_to_document (participant : Participant)
  : ParticipantDoc :=
  mkParticipantDoc
    (hall_ticket_no participant) (name participant)
    (batch participant) (college participant)
    (map (fun kv => (fst kv, _platform_status_to_document (snd kv)))
         (platforms participant))
    (total_rating participant) (percentile participant).

Definition _document_to_participant (doc : ParticipantDoc) : Participant :=
  mkParticipant
    (doc_hallTicketNo doc) (doc_name doc) (doc_batch doc) (doc_college doc)
    (map (fun kv => (fst kv, _document_to_platform_status (snd kv)))
         (doc_platforms doc))
    (doc_totalRating doc) (doc_percentile doc).

(** The participant documents, each with the name of its collection, and
    whether the server answers. *)
Record ParticipantDb : Type := mkParticipantDb {
  documents : list (string * ParticipantDoc);
  participant_db_up : bool
}.

Definition get_collection_name (b : Batch) (c : College) : string :=
  College_name c +:+ Batch_name b.

(** [update_one({"hallTicketNo": ..}, {"$set": document}, upsert=True)]:
    the document sets every field, so it replaces the one it matches. *)
Fixpoint upsert_participant (coll : string) (document : ParticipantDoc)
    (docs : list (string * ParticipantDoc))
  : list (string * ParticipantDoc) :=
  match docs with
  | [] => [(coll, document)]
  | (c, q) :: docs' =>
      if String.eqb c coll
         && String.eqb (doc_hallTicketNo q) (doc_hallTicketNo document)
      then (c, document) :: docs'
      else (c, q) :: upsert_participant coll document docs'
  end.

Definition update_participant (participant : Participant)
  : M ParticipantDb unit :=
  fun db =>
    if participant_db_up db then
      (Ret tt,
       mkParticipantDb
         (upsert_participant
            (get_collection_name (batch participant) (college participant))
            (_participant_to_document participant) (documents db))
         true)
    else (Raise (an DatabaseError), db).

Fixpoint update_participants (participants : list Participant)
  : M ParticipantDb unit :=
  match participants with
  | [] => mret tt
  | participant :: rest =>
      update_participant participant;;
      update_participants rest
  end.

(** ** [main.py]: the multi-platform dispatcher *)

(** What the dispatcher sees: the participant objects every orchestrator
    mutates in place, and the document store. *)
Record Dispatch : Type := mkDispatch {
  heap : list Participant;
  store : ParticipantDb
}.

(** A platform task, [service.process_batch(participants)]: it acts on the
    shared participant objects and returns references to those it updated.
    What is private to its service stays inside the task. *)
Definition task : Type := M (list Participant) (list nat).

(** A batch orchestrator as a task, started on a fresh client. *)
Definition as_task (process_batch : M World (list nat)) : task :=
  fun objects =>
    let '(r, w) := process_batch (mkWorld objects 0 [] [] 0) in
    (r, objs w).

Definition on_heap {A} (m : M (list Participant) A) : M Dispatch A :=
  fun d => let '(r, h) := m (heap d) in (r, mkDispatch h (store d)).

Definition on_store {A} (m : M ParticipantDb A) : M Dispatch A :=
  fun d => let '(r, s) := m (store d) in (r, mkDispatch (heap d) s).

(** What [asyncio.gather(.., return_exceptions=True)] hands back for one
    awaitable: its value, or the exception it raised, as a value. *)
Definition settle {W A} (aw : M W A) : M W (exn + A) :=
  try_except (a ← aw; mret (inr a)) (fun e => mret (inl e)).

(** [asyncio.gather] of the awaitables with [return_exceptions=True]:
    every awaitable is run to its end and settles, whatever the others
    did.  The model runs them one after the other, in order; the event
    loop interleaves them at their [await]s, which the model does not
    follow. *)
Fixpoint gather {W A} (aws : list (M W A)) : M W (list (exn + A)) :=
  match aws with
  | [] => mret []
  | aw :: rest =>
      r ← settle aw;
      rs ← gather rest;
      mret (r :: rs)
  end.

Section Dispatcher.
(** [get_platform_service(platform)] followed by
    [service.process_batch(participants)]: the task of a known platform,
    [None] for an unknown name, or the exception of a constructor. *)
Variable get_platform_service : string -> outcome (option task).

(** [process_platforms]: the [tasks] dictionary. *)
Fixpoint process_platforms (platform_list : list string) (tasks : dict task)
  : dict task :=
  match platform_list with
  | [] => tasks
  | platform :: rest =>
      match get_platform_service platform with
      | Ret (Some t) => process_platforms rest (dict_set platform t tasks)
      | _ => process_platforms rest tasks
      end
  end.
End Dispatcher.

(** The objects a result list refers to, as they are now. *)
Fixpoint deref_all (refs : list nat) : M Dispatch (list Participant) :=
  match refs with
  | [] => mret []
  | i :: rest =>
      d ← get;
      match heap d !! i with
      | Some p => ps ← deref_all rest; mret (p :: ps)
      | None => diverge
      end
  end.

(** The loop over [zip(tasks.keys(), results)]. *)
Fixpoint persist_results (results : list (string * (exn + list nat)))
  : M Dispatch unit :=
  match results with
  | [] => mret tt
  | (platform, inl _) :: rest => persist_results rest
  | (platform, inr result) :: rest =>
      participants ← deref_all result;
      on_store (update_participants participants);;
      persist_results rest
  end.

Definition process_results (tasks : dict task) : M Dispatch unit :=
  match tasks with
  | [] => mret tt
  | _ =>
      results ← on_heap (gather (dict_values tasks));
      persist_results (zip (map fst tasks) results)
  end.

(** ** [db/repositories.py]: reading the participants back *)

(** [get_all_participants]: every document of the collection of the batch
    and college, in natural order, through [_document_to_participant]. *)
Definition get_all_participants (b : Batch) (c : College)
  : M ParticipantDb (list Participant) :=
  fun db =>
    if participant_db_up db then
      (Ret (map (fun d => _document_to_participant (snd d))
              (filter (fun d => Is_true (String.eqb (fst d)
                                           (get_collection_name b c)))
                      (documents db))),
       db)
    else (Raise (an DatabaseError), db).

(** ** [services/evaluation.py]: [evaluate_batch] *)

Definition set_percentile (v : Q) (p : Participant) : Participant :=
  mkParticipant (hall_ticket_no p) (name p) (batch p) (college p)
                (platforms p) (total_rating p) v.

(** [valid_ratings.sort()]: a stable sort by [<]. *)
Fixpoint insort (x : Q) (l : list Q) : list Q :=
  match l with
  | [] => [x]
  | y :: l' => if Qlt_bool x y then x :: y :: l' else y :: insort x l'
  end.

Definition sort (l : list Q) : list Q :=
  fold_left (fun sorted x => insort x sorted) l [].

(** [l.index(x)]: the position of the first element equal to [x], if
    any. *)
Fixpoint index (x : Q) (l : list Q) : option nat :=
  match l with
  | [] => None
  | y :: l' => if Qeq_bool y x then Some O else S <$> index x l'
  end.

(** The body of the loop that sets the percentiles.  A rating that
    [index] does not find is a [ValueError], which the hierarchy keeps
    under its root. *)
Definition rank (valid_ratings : list Q) (participant : Participant)
  : M ParticipantDb Participant :=
  if Qlt_bool 0 (total_rating participant) then
    match index (total_rating participant) valid_ratings with
    | Some position =>
        mret (set_percentile
                (inject_Z (Z.of_nat position)
                 / inject_Z (Z.of_nat (length valid_ratings)) * 100)%Q
                participant)
    | None => raise (an PyException)
    end
  else mret (set_percentile 0%Q participant).

Fixpoint rank_all (valid_ratings : list Q) (participants : list Participant)
  : M ParticipantDb (list Participant) :=
  match participants with
  | [] => mret []
  | participant :: rest =>
      participant' ← rank valid_ratings participant;
      rest' ← rank_all valid_ratings rest;
      mret (participant' :: rest')
  end.

Definition evaluate_batch (college : College) (batch : Batch)
  : M ParticipantDb (list Participant) :=
  participants ← get_all_participants batch college;
  match participants with
  | [] => mret []
  | _ =>
      let participants :=
        map (fun p =>
               set_total_rating (EvaluationService_calculate_total_rating p) p)
            participants in
      let valid_ratings :=
        List.filter (Qlt_bool 0) (map total_rating participants) in
      match valid_ratings with
      | [] => mret participants
      | _ =>
          let valid_ratings := sort valid_ratings in
          participants ← rank_all valid_ratings participants;
          update_participants participants;;
          mret participants
      end
  end.

(** ** [platforms/leetcode/client.py]: [get_user_contest_data] *)

(** [needle in haystack] on strings. *)
Fixpoint contains (needle haystack : string) : bool :=
  if String.prefix needle haystack then true
  else match haystack with
       | EmptyString => false
       | String _ rest => contains needle rest
       end.

(** [key in x]: the keys of a dict, the elements of a list, the
    substrings of a string; anything else is not iterable. *)
Definition key_in {W} (key : string) (x : json) : M W bool :=
  match x with
  | JObj fields =>
      mret (match dict_get key fields with Some _ => true | None => false end)
  | JArr l =>
      mret (existsb (fun y => match y with
                              | JStr s => String.eqb s key
                              | _ => false
                              end) l)
  | JStr s => mret (contains key s)
  | _ => raise (an TypeError)
  end.

(** [x[0]].  An [IndexError] is kept under the root of the hierarchy. *)
Definition item0 {W} (x : json) : M W json :=
  match x with
  | JArr (y :: _) => mret y
  | JArr [] => raise (an PyException)
  | JStr (String c _) => mret (JStr (String c ""))
  | JStr EmptyString => raise (an PyException)
  | JObj _ => raise (an KeyError)
  | _ => raise (an TypeError)
  end.

(** [x.lower()]. *)
Definition lower_method {W} (x : json) : M W string :=
  match x with
  | JStr s => mret (lower s)
  | _ => raise (an AttributeError)
  end.

Module LeetCodeApi.

Record LcClient : Type := mkLc {
  base : Client;
  user_cache : dict json            (* handle -> answer *)
}.

Definition on_base {A} (m : M Client A) : M LcClient A :=
  fun c => let '(r, b) := m (base c) in (r, mkLc b (user_cache c)).

(** The answer made up for a user without contests. *)
Definition empty_ranking : json :=
  JObj [("data",
         JObj [("userContestRanking",
                JObj [("attendedContestsCount", JNum 0);
                      ("rating", JNum 0);
                      ("globalRanking", JNull);
                      ("totalParticipants", JNull);
                      ("topPercentage", JNull)])])].

Section Fetch.
Variable server : nat -> transport.
Variable overshoot : nat -> Q.

(** [for attempt in range(3)]: [remaining] iterations to go.  Leaving the
    loop without a [break] leaves [response] unbound, an
    [UnboundLocalError], kept under the root of the hierarchy. *)
Fixpoint attempts_loop (remaining attempt : nat) : M LcClient Response :=
  match remaining with
  | O => raise (an PyException)
  | S remaining' =>
      try_except
        (on_base (request server overshoot None false false))
        (fun e =>
           if isinstance e ClientResponseError || isinstance e TimeoutError
           then
             if isinstance e ClientResponseError
                && bool_decide (exn_status e = 429)
             then
               on_base (sleep_for overshoot CoolDown
                          (inject_Z (10 * (Z.of_nat attempt + 1))));;
               attempts_loop remaining' (S attempt)
             else if (attempt <? 2)%nat then
               on_base (sleep_for overshoot Pacing
                          (inject_Z (3 * (Z.of_nat attempt + 1))));;
               attempts_loop remaining' (S attempt)
             else raise e
           else raise e)
  end.

(** The [if "errors" in json_response] block. *)
Definition check_errors (json_response : json) : M LcClient unit :=
  has_errors ← key_in "errors" json_response;
  if (has_errors : bool) then
    errors ← subscript json_response "errors";
    first ← item0 errors;
    message ← subscript first "message";
    error_message ← lower_method message;
    if contains "could not find user" error_message
       || contains "user matching query does not exist" error_message
    then raise (an UserNotFoundError)
    else raise (an ScraperError)
  else mret tt.

Definition get_user_contest_data (handle : option string) : M LcClient json :=
  if falsy_handle handle || handle_is handle "#n/a" then mret (JObj []) else
  let handle := default "" handle in
  cache ← gets user_cache;
  match dict_get handle cache with
  | Some cached => mret cached
  | None =>
      try_except
        (response ← attempts_loop 3 0;
         json_response ← response_json response;
         check_errors json_response;;
         data ← get_method json_response "data" (JObj []);
         ranking ← get_method data "userContestRanking" JNull;
         let json_response :=
           if negb (truthy ranking) then empty_ranking else json_response in
         modify (fun c =>
           mkLc (base c) (dict_set handle json_response (user_cache c)));;
         mret json_response)
        (fun e =>
           if isinstance e UserNotFoundError then raise e
           else if isinstance e ClientResponseError then
             if decide (exn_status e = 429) then raise (an RateLimitError)
             else if decide (exn_status e = 403) then raise (an ScraperError)
             else raise (an ScraperError)
           else if isinstance e ClientError || isinstance e JSONDecodeError
                   || isinstance e TimeoutError
           then raise (an ScraperError)
           else raise e)
  end.
End Fetch.
End LeetCodeApi.

(** ** Vocabulary of the properties *)

(** The ratings that count in a total: those of the statuses that are
    present and carry a rating, in order. *)
Definition counted_ratings (statuses : list (option PlatformStatus)) : list Q :=
  omap (fun st => st ≫= rating) statuses.

(** The participant with the [exists] flag of every status recomputed by
    [flag] and nothing else changed. *)
Definition reflag (flag : PlatformStatus -> bool) (st : PlatformStatus)
  : PlatformStatus :=
  mkStatus (handle st) (rating st) (flag st) (last_updated st) (raw_data st).

Definition reflag_all (flag : PlatformStatus -> bool)
    (d : dict (option PlatformStatus)) : dict (option PlatformStatus) :=
  map (fun kv => (fst kv, option_map (reflag flag) (snd kv))) d.

Definition with_exists (flag : PlatformStatus -> bool) (p : Participant)
  : Participant :=
  set_platforms (reflag_all flag (platforms p)) p.

(** A participant whose only status says the handle does not exist and yet
    carries a rating, as a stored document may. *)
Definition ghost_status : PlatformStatus :=
  mkStatus (Some "ghost") (Some 1500%Q) false 0 (JObj []).

Definition ghost : Participant :=
  mkParticipant "21R01A0501" "Ghost" _2025 CMRIT
                [("CodeChef", Some ghost_status)] 0 0.

(** The cache entry a stored document stands for. *)
Definition entry_of_doc (platform : Platform) (doc : CacheDoc) (t : datetime)
  : LeaderboardCache.t :=
  LeaderboardCache.mk platform (doc_cacheId doc) (default [] (doc_entries doc)) t.

Definition hour : Z := 3600 * second.

(** Two stored pages of the GeeksForGeeks leaderboard, read at [noon]. *)
Definition noon : datetime := 1700000000 * second.
Definition page_rows : list json :=
  [JObj [("user_handle", JStr "alice"); ("user_score", JNum 90)]].
Definition old_page : CacheDoc :=
  mkCacheDoc "GeeksforGeeks" "0" (Some page_rows) (Some (noon - 25 * hour)).
Definition recent_page : CacheDoc :=
  mkCacheDoc "GeeksforGeeks" "1" (Some page_rows) (Some (noon - 1 * hour)).
Definition two_pages : CacheDb := mkCacheDb [old_page; recent_page] true.

(** A handle the verification looks up: neither empty nor the sentinel. *)
Definition looked_up (handle : option string) : Prop :=
  falsy_handle handle || handle_is handle "#n/a" = false.

(** A GeeksForGeeks client fresh from its constructor, with an empty
    persistent cache. *)
Definition fresh_client (rate : Z) : Client :=
  mkClient rate false false 0 true 0 [] 0.
Definition fresh_gfg : GeeksForGeeks.GfgClient :=
  GeeksForGeeks.mkGfg (fresh_client 2) [] [] false (mkCacheDb [] true).

(** Lookups that always fail the same way. *)
Definition always_raises {W} (c : exn_class) : option string -> M W json :=
  fun _ => raise (an c).

(** The CodeChef client between two calls: 30 requests per minute, the
    last slot granted at second 100, the clock at second 103. *)
Definition codechef_client : Client :=
  mkClient 30 true false 100 true 103 [] 0.

(** The same client a twentieth of a second after its last slot, when
    [get_user_info] finds the access token expired and asks for a new one
    first. *)
Definition codechef_refreshing : Client :=
  mkClient 30 true false 100 true (2001 # 20) [] 0.

(** A scheduler that wakes every sleeper a millisecond late. *)
Definition a_millisecond_late : nat -> Q := fun _ => (1 # 1000)%Q.

(** The sleeps of a trace that tenacity asked for. *)
Definition backoffs (trace : list (sleep_reason * Q)) : list Q :=
  omap (fun x => match fst x with Backoff => Some (snd x) | _ => None end)
       trace.

(** The cool-downs of a trace. *)
Definition cool_downs (trace : list (sleep_reason * Q)) : list Q :=
  omap (fun x => match fst x with CoolDown => Some (snd x) | _ => None end)
       trace.

(** How one attempt of [request] ends, by what the exchange produced. *)
Definition attempt_outcome (t : transport) : outcome Response :=
  match t with
  | Answered r =>
      if (400 <=? status r)%Z then
        if decide (status r = 429) then Raise (an RateLimitError)
        else Raise (an ScraperError)
      else Ret r
  | ConnectionFailed => Raise (an ClientError)
  | TimedOut => Raise (an TimeoutError)
  end.

(** Upstreams for the examples. *)
Definition answers (s : Z) (j : option json) : transport :=
  Answered (mkResponse s true j).
Definition always_503 : nat -> transport := fun _ => answers 503 None.
Definition always_429 : nat -> transport := fun _ => answers 429 None.
Definition unreachable : nat -> transport := fun _ => ConnectionFailed.
Definition punctual : nat -> Q := fun _ => 0%Q.

(** The world of an orchestrator after [n] more rate-limited attempts for
    [username]: [n] cool-downs of 60 s and [n] requests. *)
Definition after_rate_limits (n : nat) (username : string) (w : World) : World :=
  mkWorld (objs w) (clock w + Z.of_nat n * (60 * second))
          (sleeps w ++ replicate n 60) (requests w ++ replicate n username)
          (closes w).

(** A roster for the examples: Alice and Bob, with a handle on every
    platform, never fetched. *)
Definition never_fetched (h : string) : option PlatformStatus :=
  Some (mkStatus (Some h) None false 0 (JObj [])).

Definition alice : Participant :=
  mkParticipant "21R01A0501" "Alice" _2025 CMRIT
    [("CodeChef", never_fetched "alice"); ("Codeforces", never_fetched "alice");
     ("LeetCode", never_fetched "alice")] 0 0.

Definition bob : Participant :=
  mkParticipant "21R01A0502" "Bob" _2025 CMRIT
    [("CodeChef", never_fetched "bob"); ("Codeforces", never_fetched "bob");
     ("LeetCode", never_fetched "bob")] 0 0.

Definition roster : World := mkWorld [alice; bob] 0 [] [] 0.

(** A CodeChef profile with the given overall rating. *)
Definition codechef_profile (r : Z) : json :=
  JObj [("ratings", JObj [("allContest", JNum (inject_Z r))])].

(** A CodeChef client that is rate-limited on its first [n] calls and
    answers with a profile rated 1500 afterwards. *)
Definition rate_limited_first (n : nat) : client_behaviour :=
  fun k _ => if (k <? n)%nat then Raise (an RateLimitError)
             else Ret (codechef_profile 1500).

(** Clients that always fail the same way. *)
Definition always_fails (c : exn_class) : client_behaviour :=
  fun _ _ => Raise (an c).

(** A LeetCode answer with the given contest rating. *)
Definition leetcode_ranking (r : Z) : json :=
  JObj [("data", JObj [("userContestRanking",
                        JObj [("attendedContestsCount", JNum 3);
                              ("rating", JNum (inject_Z r))])])].

(** A LeetCode client that is rate-limited on its first [n] calls. *)
Definition leetcode_rate_limited_first (n : nat) : client_behaviour :=
  fun k _ => if (k <? n)%nat then Raise (an RateLimitError)
             else Ret (leetcode_ranking 1600).

(** A client that fails with a plain [ScraperError] for Alice and answers
    for everybody else. *)
Definition fails_for_alice (answer : json) : client_behaviour :=
  fun _ h => if String.eqb h "alice" then Raise (an ScraperError)
             else Ret answer.

(** A computation that leaves the participant objects alone. *)
Definition keeps_objs {A} (m : M World A) : Prop :=
  forall w r w', m w = (r, w') -> objs w' = objs w.

(** The loop of a [process_batch], over the body of one iteration. *)
Fixpoint for_each (body : list nat -> nat -> M World (list nat))
    (participants : list nat) (results : list nat) : M World (list nat) :=
  match participants with
  | [] => mret results
  | participant :: rest =>
      results' ← body results participant;
      for_each body rest results'
  end.

(** What one iteration may do to the objects and to [results]: append the
    participant and change only that object, or leave both as they are. *)
Definition appends_or_keeps (results : list nat) (i : nat)
    (m : M World (list nat)) : Prop :=
  forall w r w',
    m w = (r, w') ->
    (r = Ret (results ++ [i])
     /\ forall j, j <> i -> objs w' !! j = objs w !! j)
    \/ (objs w' = objs w
        /\ forall results', r = Ret results' -> results' = results).

Definition one_at_a_time (body : list nat -> nat -> M World (list nat)) : Prop :=
  forall results i, appends_or_keeps results i (body results i).

(** The status under a key. *)
Definition status_of (key : string) (p : Participant) : option PlatformStatus :=
  mjoin (dict_get key (platforms p)).

(** The participant with a new status under a key. *)
Definition with_status (key : string) (st : PlatformStatus) (p : Participant)
  : Participant :=
  set_platforms (dict_set key (Some st) (platforms p)) p.

(** A handle the Codeforces orchestrator sends nothing for. *)
Definition unusable (h : option string) : bool :=
  falsy_handle h || handle_is h "#n/a" || contains_at (default "" h).

(** An answer of the Codeforces client that carries no user: a
    [ScraperError] of any kind, or an empty result. *)
Definition says_nothing (answer : outcome json) : bool :=
  match answer with
  | Ret j => negb (truthy j)
  | Raise e => isinstance e ScraperError
  | Diverge => false
  end.

(** The status written for a handle without a user. *)
Definition not_found_status (h : option string) (stamp : datetime)
  : PlatformStatus :=
  mkStatus h None false stamp (JObj []).

(** Ghost was looked up on Codeforces yesterday and not found. *)
Definition yesterday : datetime := noon - 24 * hour.

Definition ghost_on_codeforces : Participant :=
  mkParticipant "21R01A0503" "Ghost" _2025 CMRIT
    [("Codeforces", Some (not_found_status (Some "ghost") yesterday))] 0 0.

Definition second_run : World := mkWorld [ghost_on_codeforces] noon [] [] 0.

(** Codeforces answers of today: still nobody, or a user rated 1200. *)
Definition still_nobody : client_behaviour := fun _ _ => Ret (JArr []).
Definition found_today : client_behaviour :=
  fun _ _ => Ret (JArr [JObj [("handle", JStr "ghost");
                              ("rating", JNum (inject_Z 1200))]]).

(** A participant with its [exists] flags forgotten. *)
Definition flags_forgotten (p : Participant) : Participant :=
  with_exists (fun _ => false) p.

(** Two worlds that differ at most in the [exists] flags of the stored
    statuses. *)
Definition same_but_flags (w1 w2 : World) : Prop :=
  map flags_forgotten (objs w1) = map flags_forgotten (objs w2)
  /\ clock w1 = clock w2 /\ sleeps w1 = sleeps w2
  /\ requests w1 = requests w2 /\ closes w1 = closes w2.

(** A computation that cannot tell them apart. *)
Definition blind_to_flags {A} (m : M World A) : Prop :=
  forall w1 w2,
    same_but_flags w1 w2 ->
    fst (m w1) = fst (m w2) /\ same_but_flags (snd (m w1)) (snd (m w2)).

(** A Codeforces client whose connection fails on every attempt:
    [request] ends in tenacity's [RetryError], which [get_user_info] does
    not catch. *)
Definition out_of_attempts : client_behaviour :=
  fun _ _ => Raise (an RetryError).

(** The time stamp of the Codeforces status of the first participant. *)
Definition first_stamp (w : World) : option datetime :=
  p ← objs w !! 0%nat;
  st ← status_of "Codeforces" p;
  Some (last_updated st).

(** The merge of the dispatcher, in the words of the specification: the
    results of the platforms that produced one, in order; a platform whose
    task raised contributes nothing. *)
Definition merged (results : list (exn + list nat)) : list nat :=
  flat_map (fun r => match r with inr refs => refs | inl _ => [] end) results.

(** The objects behind a list of references. *)
Definition objects (h : list Participant) (refs : list nat)
  : list Participant :=
  omap (fun i => h !! i) refs.

(** The key of a participant document: its collection and hall ticket. *)
Definition participant_key (d : string * ParticipantDoc) : string * string :=
  (fst d, doc_hallTicketNo (snd d)).

(** The document [update_participant] writes for a participant. *)
Definition document_of (p : Participant) : string * ParticipantDoc :=
  (get_collection_name (batch p) (college p), _participant_to_document p).

(** Participants of which no two share a hall ticket of a collection
    unless they are written as the same document. *)
Definition one_document_per_key (ps : list Participant) : Prop :=
  forall q q',
    In q ps -> In q' ps ->
    participant_key (document_of q) = participant_key (document_of q') ->
    document_of q = document_of q'.

(** The documents after upserting the given participants, in order. *)
Definition upsert_all (ps : list Participant)
    (docs : list (string * ParticipantDoc)) : list (string * ParticipantDoc) :=
  fold_left
    (fun docs p =>
       upsert_participant (get_collection_name (batch p) (college p))
                          (_participant_to_document p) docs)
    ps docs.

(** Every reference points at an object. *)
Definition refs_valid (h : list Participant) (refs : list nat) : Prop :=
  Forall (fun i => is_Some (h !! i)) refs.

(** Three platforms dispatched over Alice and Bob: LeetCode and Codeforces
    answer, CodeChef's client always raises [ScraperError]. *)
Definition codeforces_answer : client_behaviour :=
  fun _ h => Ret (JArr [JObj [("handle", JStr h);
                              ("rating", JNum (inject_Z 1200))]]).
Definition leetcode_answer : client_behaviour :=
  fun _ _ => Ret (leetcode_ranking 1600).

Definition three_platforms : dict task :=
  [("LEETCODE",
    as_task (LeetCode.process_batch leetcode_answer 1 [0%nat; 1%nat]));
   ("CODECHEF",
    as_task (CodeChef.process_batch (always_fails ScraperError) 1
                                    [0%nat; 1%nat]));
   ("CODEFORCES",
    as_task (Codeforces.process_batch codeforces_answer 1 [0%nat; 1%nat]))].

Definition before_dispatch : Dispatch :=
  mkDispatch [alice; bob] (mkParticipantDb [] true).

(** The same dispatch with a CodeChef client that answers for Alice and
    raises [ScraperError] for Bob. *)
Definition fails_for_bob (answer : json) : client_behaviour :=
  fun _ h => if String.eqb h "bob" then Raise (an ScraperError)
             else Ret answer.

Definition codechef_fails_midway : dict task :=
  [("LEETCODE",
    as_task (LeetCode.process_batch leetcode_answer 1 [0%nat; 1%nat]));
   ("CODECHEF",
    as_task (CodeChef.process_batch (fails_for_bob (codechef_profile 1500)) 1
                                    [0%nat; 1%nat]))].

(** The same dispatch with CodeChef first. *)
Definition codechef_fails_first : dict task :=
  [("CODECHEF",
    as_task (CodeChef.process_batch (fails_for_bob (codechef_profile 1500)) 1
                                    [0%nat; 1%nat]));
   ("LEETCODE",
    as_task (LeetCode.process_batch leetcode_answer 1 [0%nat; 1%nat]))].

(** What the store holds for a hall ticket: the [exists] flag of each
    platform status of the document. *)
Definition stored_flags (ticket : string) (d : Dispatch)
  : option (list (string * option bool)) :=
  (fun kp : string * ParticipantDoc =>
     map (fun kv : string * option StatusDoc =>
            (fst kv, option_map doc_exists (snd kv)))
         (doc_platforms (snd kp)))
  <$> find (fun kp : string * ParticipantDoc =>
              String.eqb (doc_hallTicketNo (snd kp)) ticket)
           (documents (store d)).

(** What the store holds for a hall ticket under a platform key. *)
Definition stored_status (ticket key : string) (d : Dispatch)
  : option StatusDoc :=
  kp ← find (fun kp : string * ParticipantDoc =>
               String.eqb (doc_hallTicketNo (snd kp)) ticket)
            (documents (store d));
  mjoin (dict_get key (doc_platforms (snd kp))).

(** The sleeps of a trace that the governor asked for. *)
Definition governor_sleeps (trace : list (sleep_reason * Q)) : list Q :=
  omap (fun x => match fst x with Governor => Some (snd x) | _ => None end)
       trace.

(** Whether tenacity tries again after this exchange. *)
Definition retried (t : transport) : bool :=
  match t with
  | ConnectionFailed => true
  | _ => false
  end.

(** The LeetCode client between two calls: one request per second, the last
    slot granted at second 100, the clock at 100.25. *)
Definition leetcode_client : Client :=
  mkClient 1 false false 100 true (401 # 4) [] 0.

(** An upstream that drops the first connection and then answers 200. *)
Definition hello : Response := mkResponse 200 true (Some (JObj [])).
Definition flaky_once : nat -> transport :=
  fun n => match n with O => ConnectionFailed | _ => Answered hello end.
Definition always_ok : nat -> transport := fun _ => Answered hello.

(** The natural key of a cache document. *)
Definition doc_key (doc : CacheDoc) : string * string :=
  (doc_platform doc, doc_cacheId doc).

(** The entries a fresh-only bulk read is expected to return: one for each
    document of the platform stamped less than a day ago, in the order of
    the collection. *)
Definition fresh_entries (now_ : datetime) (platform : Platform)
    (coll : list CacheDoc) : list LeaderboardCache.t :=
  omap (fun doc =>
          if String.eqb (doc_platform doc) (Platform_value platform) then
            match doc_lastUpdated doc with
            | Some t =>
                if (now_ - t <? microseconds_per_day)%Z
                then Some (entry_of_doc platform doc t)
                else None
            | None => None
            end
          else None)
       coll.

(** A cache entry as the store gives it back: the stamp cut to the
    millisecond, the rest as it was. *)
Definition read_back (e : LeaderboardCache.t) : LeaderboardCache.t :=
  LeaderboardCache.mk (LeaderboardCache.platform e)
                      (LeaderboardCache.cache_id e)
                      (LeaderboardCache.entries e)
                      (1000 * (LeaderboardCache.last_updated e / 1000)).

(** A cache entry for the examples, and a store that already holds an
    older copy of it. *)
Definition page_zero (stamp : datetime) : LeaderboardCache.t :=
  LeaderboardCache.mk GEEKSFORGEEKS "0" page_rows stamp.

(** A client that answers every call, with a value or an exception. *)
Definition never_hangs (client : client_behaviour) : Prop :=
  forall n u, client n u <> Diverge.

(** The world after one more [client.close()]. *)
Definition closed_once (w : World) : World :=
  mkWorld (objs w) (clock w) (sleeps w) (requests w) (S (closes w)).

(** A participant registered on HackerRank only. *)
Definition carol : Participant :=
  mkParticipant "21R01A0504" "Carol" _2025 CMRIT
    [("HackerRank", never_fetched "carol")] 0 0.

(** The GeeksForGeeks client at noon, over the store with two pages. *)
Definition gfg_at_noon : GeeksForGeeks.GfgClient :=
  GeeksForGeeks.mkGfg (mkClient 2 false false 0 true (inject_Z 1700000000) [] 0)
                      [] [] false two_pages.

(** A leaderboard row the loops can index: an object whose [user_handle],
    when present, is a string. *)
Definition row_ok (row : json) : bool :=
  match row with
  | JObj fields =>
      match dict_get "user_handle" fields with
      | None | Some (JStr _) => true
      | Some _ => false
      end
  | _ => false
  end.

(** An answer of the leaderboard API with no rows: a JSON object below
    status 400 whose [results] is missing or empty. *)
Definition empty_page (t : transport) : bool :=
  match t with
  | Answered r =>
      (status r <? 400)%Z && content_type_json r
      && match body r with
         | Some (JObj fields) =>
             negb (truthy (default (JArr []) (dict_get "results" fields)))
         | _ => false
         end
  | _ => false
  end.

Definition no_rows : nat -> transport :=
  fun _ => answers 200 (Some (JObj [("results", JArr [])])).

(** A row whose [user_score] is [0], [None] or missing. *)
Definition score_is_zero (row : json) : bool :=
  match row with
  | JObj fields =>
      GeeksForGeeks.zero_or_none (default JNull (dict_get "user_score" fields))
  | _ => false
  end.

(** A leaderboard page with the given rows. *)
Definition page_of (rows_ : list json) : transport :=
  answers 200 (Some (JObj [("results", JArr rows_)])).

Definition last_page : list json :=
  [JObj [("user_handle", JStr "Alice"); ("user_score", JNum 90)];
   JObj [("user_handle", JStr "bob"); ("user_score", JNum 0)]].

(** The exceptions the cool-down branch of the leaderboard loops is
    written for. *)
Definition is_http_429 (e : exn) : bool :=
  isinstance e ClientResponseError && bool_decide (exn_status e = 429).

(** A page of a HackerRank leaderboard with the given rows, and an answer
    that ends the paging: a JSON object below 400 whose [models] is
    missing or empty. *)
Definition models_page (l : list json) : transport :=
  answers 200 (Some (JObj [("models", JArr l)])).

Definition no_models (t : transport) : bool :=
  match t with
  | Answered r =>
      (status r <? 400)%Z && content_type_json r
      && match body r with
         | Some (JObj fields) =>
             negb (truthy (default (JArr []) (dict_get "models" fields)))
         | _ => false
         end
  | _ => false
  end.

(** An upstream that serves the given pages and then an empty one. *)
Definition serves (pages : list (list json)) : nat -> transport :=
  fun n => models_page (default [] (pages !! n)).

Definition hacker (name : string) (score : Z) : json :=
  JObj [("hacker", JStr name); ("score", JNum (inject_Z score))].

(** A step of the GeeksForGeeks client that does not cool down and raises
    nothing the cool-down branch is written for. *)
Definition calm {A} (m : M GeeksForGeeks.GfgClient A) : Prop :=
  forall g r g',
    m g = (r, g') ->
    cool_downs (slept (GeeksForGeeks.base g'))
    = cool_downs (slept (GeeksForGeeks.base g))
    /\ forall e, r = Raise e -> is_http_429 e = false.


(** A participant as the store gives it back: the stamp of each platform
    status cut to the millisecond, the rest as it was. *)
Definition as_stored (p : Participant) : Participant :=
  set_platforms
    (map (fun kv =>
            (fst kv,
             option_map
               (fun st => mkStatus (handle st) (rating st) (exists_ st)
                                   (1000 * (last_updated st / 1000))
                                   (raw_data st))
               (snd kv)))
         (platforms p))
    p.

(** Alice rated 1600 on CodeChef by a status stamped [stamp] microseconds
    after the epoch. *)
Definition alice_stamped (stamp : datetime) : Participant :=
  set_platforms
    (dict_set "CodeChef"
       (Some (mkStatus (Some "alice") (Some (inject_Z 1600)) true stamp
                       (JObj [])))
       (platforms alice)) alice.

(** Alice with a CodeChef rating. *)
Definition alice_rated (r : Z) : Participant :=
  set_platforms
    (dict_set "CodeChef"
       (Some (mkStatus (Some "alice") (Some (inject_Z r)) true 0 (JObj [])))
       (platforms alice)) alice.

(** How many of the ratings are strictly below [x]. *)
Definition count_below (x : Q) (l : list Q) : nat :=
  length (List.filter (fun y => Qlt_bool y x) l).

(** A list of ratings in non-decreasing order. *)
Fixpoint ascending (l : list Q) : Prop :=
  match l with
  | [] => True
  | a :: l' => Forall (fun y => (a <= y)%Q) l' /\ ascending l'
  end.

(** The total [evaluate_batch] computes for a participant. *)
Definition total_of (p : Participant) : Q :=
  EvaluationService_calculate_total_rating p.

(** The participants of a collection, as [get_all_participants] lists
    them. *)
Definition stored_in (b : Batch) (c : College) (db : ParticipantDb)
  : list Participant :=
  map (fun d => _document_to_participant (snd d))
      (filter (fun d => Is_true (String.eqb (fst d)
                                   (get_collection_name b c)))
              (documents db)).

(** A participant rated on LeetCode only, and a class of three. *)
Definition dave : Participant :=
  mkParticipant "21R01A0505" "Dave" _2025 CMRIT
    [("LeetCode",
      Some (mkStatus (Some "dave") (Some (inject_Z 1200)) true 0 (JObj [])))]
    0 0.

Definition class_of_three : ParticipantDb :=
  mkParticipantDb
    [document_of (alice_rated 1500); document_of bob; document_of dave] true.

(** The positive totals of a list of participants. *)
Definition positive_totals (ps : list Participant) : list Q :=
  List.filter (Qlt_bool 0) (map total_of ps).

(** What [evaluate_batch] makes of a participant among [ps]. *)
Definition evaluated (ps : list Participant) (p : Participant) : Participant :=
  set_percentile
    (if Qlt_bool 0 (total_of p) then
       inject_Z (Z.of_nat (count_below (total_of p) (positive_totals ps)))
       / inject_Z (Z.of_nat (length (positive_totals ps))) * 100
     else 0)%Q
    (set_total_rating (total_of p) p).

(** The pauses of a trace that are not for the governor, tenacity or a
    rate limit. *)
Definition pauses (trace : list (sleep_reason * Q)) : list Q :=
  omap (fun x => match fst x with Pacing => Some (snd x) | _ => None end)
       trace.

(** The LeetCode client fresh from its constructor. *)
Definition lc_fresh : LeetCodeApi.LcClient :=
  LeetCodeApi.mkLc (fresh_client 1) [].

(** A step of the LeetCode client that does not cool down. *)
Definition steady {A} (m : M LeetCodeApi.LcClient A) : Prop :=
  forall c r c',
    m c = (r, c') ->
    cool_downs (slept (LeetCodeApi.base c'))
    = cool_downs (slept (LeetCodeApi.base c)).

(** Whether the code reads an error message as "no such user". *)
Definition says_not_found (message : string) : bool :=
  contains "could not find user" (lower message)
  || contains "user matching query does not exist" (lower message).

(** A GraphQL answer that carries one error. *)
Definition graphql_error (message : string) : transport :=
  answers 200
    (Some (JObj [("errors", JArr [JObj [("message", JStr message)]]);
                 ("data", JObj [("userContestRanking", JNull)])])).

(* ===================================================================== *)
(** * Properties *)
(* ===================================================================== *)

Ltac unfold_M :=
  unfold try_except, try_finally, mbind, M_bind, mret, M_ret, raise, diverge,
         get, gets, modify in *.

(** Stepping through a sequence. *)
Lemma bind_ret {W A B} (m : M W A) (f : A -> M W B) w a w' :
  m w = (Ret a, w') -> (m ≫= f) w = f a w'.
Proof. intros H. unfold mbind, M_bind. rewrite H. reflexivity. Qed.

Lemma bind_raise {W A B} (m : M W A) (f : A -> M W B) w e w' :
  m w = (Raise e, w') -> (m ≫= f) w = (Raise e, w').
Proof. intros H. unfold mbind, M_bind. rewrite H. reflexivity. Qed.

Lemma bind_diverge {W A B} (m : M W A) (f : A -> M W B) w w' :
  m w = (Diverge, w') -> (m ≫= f) w = (Diverge, w').
Proof. intros H. unfold mbind, M_bind. rewrite H. reflexivity. Qed.

Lemma try_ret {W A} (body : M W A) (h : exn -> M W A) w a w' :
  body w = (Ret a, w') -> try_except body h w = (Ret a, w').
Proof. intros H. unfold try_except. rewrite H. reflexivity. Qed.

Lemma try_raise {W A} (body : M W A) (h : exn -> M W A) w e w' :
  body w = (Raise e, w') -> try_except body h w = h e w'.
Proof. intros H. unfold try_except. rewrite H. reflexivity. Qed.

Lemma try_diverge {W A} (body : M W A) (h : exn -> M W A) w w' :
  body w = (Diverge, w') -> try_except body h w = (Diverge, w').
Proof. intros H. unfold try_except. rewrite H. reflexivity. Qed.

(** ** Total rating *)

Lemma fold_add_rating (statuses : list (option PlatformStatus)) (total : Q) :
  fold_left add_rating statuses total
  = fold_left Qplus (counted_ratings statuses) total.
Proof.
  revert total. induction statuses as [|st statuses IH]; intros total.
  - reflexivity.
  - destruct st as [st|]; simpl.
    + destruct (rating st) as [r|] eqn:Hr; simpl; rewrite IH; reflexivity.
    + apply IH.
Qed.

Lemma counted_ratings_with_exists flag (d : dict (option PlatformStatus)) :
  counted_ratings (dict_values (reflag_all flag d))
  = counted_ratings (dict_values d).
Proof.
  induction d as [|[k [st|]] d IH]; simpl; [reflexivity| |exact IH].
  unfold counted_ratings in *. simpl.
  destruct (rating st); simpl; [f_equal|]; exact IH.
Qed.

Lemma dict_get_with_exists flag k (d : dict (option PlatformStatus)) :
  dict_get k (reflag_all flag d)
  = option_map (option_map (reflag flag)) (dict_get k d).
Proof.
  induction d as [|[k' v] d IH]; simpl; [reflexivity|].
  destruct (decide (k' = k)); [reflexivity|exact IH].
Qed.

Lemma add_rating_with_exists flag total (o : option PlatformStatus) :
  add_rating total (option_map (reflag flag) o) = add_rating total o.
Proof. destruct o; reflexivity. Qed.

Lemma evaluation_total_folds (p : Participant) :
  EvaluationService_calculate_total_rating p
  = fold_left add_rating
      [status_of "CodeChef" p; status_of "Codeforces" p;
       status_of "GeeksforGeeks" p; status_of "HackerRank" p;
       status_of "LeetCode" p] 0%Q.
Proof.
  unfold EvaluationService_calculate_total_rating, Platform_members, status_of.
  cbn [fold_left Platform_value].
  repeat match goal with
  | |- context [dict_get ?k (platforms p)] =>
      destruct (dict_get k (platforms p)); cbn [mjoin option_join add_rating]
  end; reflexivity.
Qed.

(** C6, as the code has it.  Neither [calculate_total_rating] reads the
    [exists] flag.  [Participant.calculate_total_rating] returns, and
    stores in [total_rating], the sum, from [0.0] and in the order of the
    dictionary, of the ratings of all the statuses of [platforms] that are
    not [None] and whose rating is not [None], under whatever key.
    [EvaluationService.calculate_total_rating] returns the sum, from [0.0]
    and in the order of the [Platform] enumeration, of the ratings of the
    statuses stored under the five platform keys that are not [None] and
    whose rating is not [None]; a status under another key is not counted.
    So changing the flags changes neither total. *)
Theorem calculate_total_rating_ignores_exists (p : Participant) :
  Participant_calculate_total_rating p
  = (fold_left Qplus (counted_ratings (dict_values (platforms p))) 0%Q,
     set_total_rating
       (fold_left Qplus (counted_ratings (dict_values (platforms p))) 0%Q) p)
  /\ EvaluationService_calculate_total_rating p
     = fold_left Qplus
         (counted_ratings
            [status_of "CodeChef" p; status_of "Codeforces" p;
             status_of "GeeksforGeeks" p; status_of "HackerRank" p;
             status_of "LeetCode" p]) 0%Q
  /\ forall flag,
       fst (Participant_calculate_total_rating (with_exists flag p))
       = fst (Participant_calculate_total_rating p)
       /\ EvaluationService_calculate_total_rating (with_exists flag p)
          = EvaluationService_calculate_total_rating p.
Proof.
  split; [|split].
  - unfold Participant_calculate_total_rating. rewrite fold_add_rating.
    reflexivity.
  - rewrite evaluation_total_folds. apply fold_add_rating.
  - intros flag. split.
    + simpl. rewrite !fold_add_rating, counted_ratings_with_exists.
      reflexivity.
    + unfold EvaluationService_calculate_total_rating. simpl.
      rewrite !dict_get_with_exists.
      repeat match goal with
      | |- context [dict_get ?k (platforms p)] =>
          destruct (dict_get k (platforms p)); simpl
      end; rewrite ?add_rating_with_exists; reflexivity.
Qed.

(** C6, as stated, fails: a status marked [exists = false] that carries the
    rating 1500 adds 1500 to the total of both functions, and the first
    stores that total. *)
Lemma exists_false_rating_is_counted :
  exists_ ghost_status = false
  /\ fst (Participant_calculate_total_rating ghost) = 1500%Q
  /\ total_rating (snd (Participant_calculate_total_rating ghost)) = 1500%Q
  /\ EvaluationService_calculate_total_rating ghost = 1500%Q
  /\ ~ (fst (Participant_calculate_total_rating ghost) == 0)%Q
  /\ ~ (EvaluationService_calculate_total_rating ghost == 0)%Q.
Proof.
  repeat split; try reflexivity; intros H; vm_compute in H; discriminate H.
Qed.

(** The two functions are not the same sum: a status under a key that is
    no platform is counted by the first and not by the second. *)
Lemma totals_differ_on_other_keys :
  let p := mkParticipant "21R01A0506" "Erin" _2025 CMRIT
             [("GitHub", Some ghost_status)] 0 0 in
  fst (Participant_calculate_total_rating p) = 1500%Q
  /\ EvaluationService_calculate_total_rating p = 0%Q.
Proof. split; reflexivity. Qed.

(** ** Cache freshness *)

Lemma Platform_of_value_value (p : Platform) :
  Platform_of_value (Platform_value p) = Some p.
Proof. destruct p; reflexivity. Qed.

Lemma is_cache_stale_iff (now_ : datetime) (e : LeaderboardCache.t) :
  is_cache_stale now_ (Some e) = true
  <-> microseconds_per_day <= now_ - LeaderboardCache.last_updated e.
Proof.
  unfold is_cache_stale, timedelta_days, CACHE_MAX_AGE_DAYS.
  rewrite Z.leb_le.
  assert (Hd : 0 < microseconds_per_day) by reflexivity.
  split; intros H.
  - destruct (Z_lt_le_dec (now_ - LeaderboardCache.last_updated e)
                          microseconds_per_day) as [Hlt|Hle]; [|exact Hle].
    apply (Z.div_lt_upper_bound _ _ 1 Hd) in Hlt; lia.
  - apply Z.div_le_lower_bound; lia.
Qed.

Lemma find_one_matches db pv cid doc :
  find_one db pv cid = Ret (Some doc) ->
  doc_platform doc = pv /\ doc_cacheId doc = cid.
Proof.
  unfold find_one. destruct (cache_db_up db); [|discriminate].
  intros [= H]. apply find_some in H as [_ H].
  unfold doc_matches in H. apply andb_prop in H as [H1 H2].
  apply String.eqb_eq in H1, H2. auto.
Qed.

Lemma document_entry now_ doc platform t :
  doc_platform doc = Platform_value platform ->
  doc_lastUpdated doc = Some t ->
  _document_to_cache_entry now_ doc = Ret (entry_of_doc platform doc t).
Proof.
  intros Hp Ht. unfold _document_to_cache_entry.
  rewrite Hp, Platform_of_value_value, Ht. reflexivity.
Qed.

(** C8.  A freshness-checked [get_cache_entry] that finds a document
    stamped [t] returns the entry of that document, unchanged, exactly when
    [now - t] is under one day, and [None] otherwise; whatever it returns is
    not stale. *)
Theorem get_cache_entry_fresh_iff
    (now_ : datetime) (db : CacheDb) (platform : Platform) (cache_id : string)
    (doc : CacheDoc) (t : datetime)
    (Hfound : find_one db (Platform_value platform) cache_id = Ret (Some doc))
    (Hstamp : doc_lastUpdated doc = Some t) :
  get_cache_entry now_ db platform cache_id true
  = Ret (if decide (now_ - t < microseconds_per_day)
         then Some (entry_of_doc platform doc t)
         else None)
  /\ forall e,
       get_cache_entry now_ db platform cache_id true = Ret (Some e) ->
       e = entry_of_doc platform doc t
       /\ is_cache_stale now_ (Some e) = false
       /\ now_ - LeaderboardCache.last_updated e < microseconds_per_day.
Proof.
  destruct (find_one_matches _ _ _ _ Hfound) as [Hp Hc].
  assert (Hget :
    get_cache_entry now_ db platform cache_id true
    = Ret (if decide (now_ - t < microseconds_per_day)
           then Some (entry_of_doc platform doc t) else None)).
  { unfold get_cache_entry.
    rewrite Hfound, (document_entry now_ doc platform t Hp Hstamp).
    cbn [andb].
    destruct (is_cache_stale now_ (Some (entry_of_doc platform doc t))) eqn:Hs.
    - apply is_cache_stale_iff in Hs. simpl in Hs.
      destruct (decide _); [lia|reflexivity].
    - destruct (decide _) as [|Hge]; [reflexivity|].
      assert (is_cache_stale now_ (Some (entry_of_doc platform doc t)) = true)
        by (apply is_cache_stale_iff; simpl; lia).
      congruence. }
  split; [exact Hget|].
  intros e He. rewrite Hget in He.
  destruct (decide _) as [Hlt|]; [|discriminate].
  injection He as <-. split; [reflexivity|]. split; [|exact Hlt].
  destruct (is_cache_stale now_ (Some (entry_of_doc platform doc t))) eqn:Hs;
    [|reflexivity].
  apply is_cache_stale_iff in Hs. simpl in Hs. lia.
Qed.

(** The two entries of the specification: the page stored 25 hours ago is
    excluded, the page stored one hour ago comes back as it was stored. *)
Lemma get_cache_entry_fresh_iff_witness :
  get_cache_entry noon two_pages GEEKSFORGEEKS "0" true = Ret None
  /\ get_cache_entry noon two_pages GEEKSFORGEEKS "1" true
     = Ret (Some (LeaderboardCache.mk GEEKSFORGEEKS "1" page_rows
                                      (noon - 1 * hour))).
Proof.
  split.
  - exact (proj1 (get_cache_entry_fresh_iff noon two_pages GEEKSFORGEEKS "0"
                    old_page (noon - 25 * hour) eq_refl eq_refl)).
  - exact (proj1 (get_cache_entry_fresh_iff noon two_pages GEEKSFORGEEKS "1"
                    recent_page (noon - 1 * hour) eq_refl eq_refl)).
Defined.

(** The bulk read that hydrates the in-memory cache is freshness-checked as
    well: with [only_fresh] it returns no stale entry. *)
Lemma collect_entries_fresh now_ docs :
  forall acc entries,
    Forall (fun e => is_cache_stale now_ (Some e) = false) acc ->
    collect_entries now_ true docs acc = Ret entries ->
    Forall (fun e => is_cache_stale now_ (Some e) = false) entries.
Proof.
  induction docs as [|doc docs IH]; intros acc entries Hacc.
  - intros [= <-]. exact Hacc.
  - cbn [collect_entries].
    destruct (_document_to_cache_entry now_ doc) as [e|x|]; try discriminate.
    cbn [negb orb].
    destruct (is_cache_stale now_ (Some e)) eqn:Hs; cbn [negb].
    + apply IH. exact Hacc.
    + apply IH. apply Forall_app. split; [exact Hacc|].
      constructor; [exact Hs|constructor].
Qed.

Lemma get_platform_cache_entries_fresh now_ db platform entries :
  get_platform_cache_entries now_ db platform true = Ret entries ->
  Forall (fun e => is_cache_stale now_ (Some e) = false) entries.
Proof.
  unfold get_platform_cache_entries.
  destruct (cache_db_up db); [|discriminate].
  apply collect_entries_fresh. constructor.
Qed.

(** Without the freshness check the stale page is returned. *)
Lemma get_cache_entry_unchecked_returns_stale :
  get_cache_entry noon two_pages GEEKSFORGEEKS "0" false
  = Ret (Some (LeaderboardCache.mk GEEKSFORGEEKS "0" page_rows
                                   (noon - 25 * hour))).
Proof. reflexivity. Qed.

(** ** Verification of a handle *)

Lemma gfg_verify_false lookup handle g g' :
  GeeksForGeeks.verify_user_exists lookup handle g = (Ret false, g') ->
  ~ looked_up handle
  \/ exists e, lookup handle g = (Raise e, g')
               /\ isinstance e UserNotFoundError = true.
Proof.
  unfold GeeksForGeeks.verify_user_exists, looked_up.
  destruct (falsy_handle handle || handle_is handle "#n/a");
    [intros _; left; congruence|].
  unfold_M. simpl.
  destruct (GeeksForGeeks.is_cache_initialized g && _); simpl; [discriminate|].
  destruct (lookup handle g) as [[j|e|] g1]; simpl; try discriminate.
  destruct (isinstance e UserNotFoundError) eqn:Hnf.
  - simpl. intros H; injection H as <-. right. eauto.
  - destruct (isinstance e ScraperError || isinstance e RateLimitError);
      simpl; discriminate.
Qed.

Lemma gfg_verify_assumes_exists lookup handle g e g1 :
  looked_up handle ->
  lookup handle g = (Raise e, g1) ->
  isinstance e UserNotFoundError = false ->
  isinstance e ScraperError || isinstance e RateLimitError = true ->
  fst (GeeksForGeeks.verify_user_exists lookup handle g) = Ret true.
Proof.
  unfold GeeksForGeeks.verify_user_exists, looked_up.
  intros -> Hl Hnf Hs. unfold_M.
  destruct (GeeksForGeeks.is_cache_initialized g && _); [reflexivity|].
  simpl. rewrite Hl, Hnf, Hs. reflexivity.
Qed.

Lemma leetcode_verify_false {W} (lookup : option string -> M W json)
    handle w w' :
  LeetCodeClient.verify_user_exists lookup handle w = (Ret false, w') ->
  ~ looked_up handle
  \/ exists e, lookup handle w = (Raise e, w')
               /\ isinstance e UserNotFoundError = true.
Proof.
  unfold LeetCodeClient.verify_user_exists, looked_up.
  destruct (falsy_handle handle || handle_is handle "#n/a");
    [intros _; left; congruence|].
  unfold_M.
  destruct (lookup handle w) as [[j|e|] w1]; simpl; try discriminate.
  destruct (isinstance e UserNotFoundError) eqn:Hnf.
  - simpl. intros H; injection H as <-. right. eauto.
  - destruct (isinstance e ScraperError || isinstance e RateLimitError);
      simpl; discriminate.
Qed.

Lemma leetcode_verify_assumes_exists {W} (lookup : option string -> M W json)
    handle w e w1 :
  looked_up handle ->
  lookup handle w = (Raise e, w1) ->
  isinstance e UserNotFoundError = false ->
  isinstance e ScraperError || isinstance e RateLimitError = true ->
  LeetCodeClient.verify_user_exists lookup handle w = (Ret true, w1).
Proof.
  unfold LeetCodeClient.verify_user_exists, looked_up.
  intros -> Hl Hnf Hs. unfold_M. simpl. rewrite Hl, Hnf, Hs. reflexivity.
Qed.

(** C10.  For GeeksForGeeks and for LeetCode, [verify_user_exists] returns
    [False] only for an empty or ["#n/a"] handle or when the lookup raised
    [UserNotFoundError]; when the lookup of a proper handle raises any other
    [ScraperError] (a [RateLimitError] among them) the answer is [True]. *)
Theorem verify_user_exists_assumes_exists_on_error
    (gfg_lookup : option string -> M GeeksForGeeks.GfgClient json)
    (lc_lookup : option string -> M World json)
    (handle : option string) :
  (forall g g',
     GeeksForGeeks.verify_user_exists gfg_lookup handle g = (Ret false, g') ->
     ~ looked_up handle
     \/ exists e, gfg_lookup handle g = (Raise e, g')
                  /\ isinstance e UserNotFoundError = true)
  /\ (forall w w',
        LeetCodeClient.verify_user_exists lc_lookup handle w = (Ret false, w') ->
        ~ looked_up handle
        \/ exists e, lc_lookup handle w = (Raise e, w')
                     /\ isinstance e UserNotFoundError = true)
  /\ (looked_up handle ->
      forall e,
        isinstance e UserNotFoundError = false ->
        isinstance e ScraperError || isinstance e RateLimitError = true ->
        (forall g g1, gfg_lookup handle g = (Raise e, g1) ->
           fst (GeeksForGeeks.verify_user_exists gfg_lookup handle g) = Ret true)
        /\ (forall w w1, lc_lookup handle w = (Raise e, w1) ->
              LeetCodeClient.verify_user_exists lc_lookup handle w
              = (Ret true, w1))).
Proof.
  split; [|split].
  - intros g g'. apply gfg_verify_false.
  - intros w w'. apply leetcode_verify_false.
  - intros Hh e Hnf Hs. split.
    + intros g g1 Hl. eapply gfg_verify_assumes_exists; eauto.
    + intros w w1 Hl. eapply leetcode_verify_assumes_exists; eauto.
Qed.

(** A rate-limited lookup of ["alice"] is reported as a verified handle by
    both clients, and so is one that fails with a plain [ScraperError]. *)
Lemma verify_user_exists_assumes_exists_on_error_witness :
  looked_up (Some "alice")
  /\ fst (GeeksForGeeks.verify_user_exists (always_raises RateLimitError)
            (Some "alice") fresh_gfg) = Ret true
  /\ fst (LeetCodeClient.verify_user_exists (always_raises ScraperError)
            (Some "alice") (mkWorld [] 0 [] [] 0)) = Ret true.
Proof.
  split; [reflexivity|].
  destruct (verify_user_exists_assumes_exists_on_error
              (always_raises RateLimitError)
              (always_raises (W:=World) ScraperError) (Some "alice"))
    as (_ & _ & H).
  specialize (H eq_refl). split.
  - exact (proj1 (H (an RateLimitError) eq_refl eq_refl)
                 fresh_gfg fresh_gfg eq_refl).
  - exact (f_equal fst
             (proj2 (H (an ScraperError) eq_refl eq_refl)
                    (mkWorld [] 0 [] [] 0) (mkWorld [] 0 [] [] 0) eq_refl)).
Defined.

(** ** The rate governor *)

Lemma Qlt_bool_true a b : Qlt_bool a b = true -> (a < b)%Q.
Proof.
  unfold Qlt_bool. intros H. apply negb_true_iff in H.
  apply Qnot_le_lt. intros Hle. apply Qle_bool_iff in Hle. congruence.
Qed.

Lemma Qlt_bool_false a b : Qlt_bool a b = false -> (b <= a)%Q.
Proof.
  unfold Qlt_bool. intros H. apply negb_false_iff in H.
  apply Qle_bool_iff. exact H.
Qed.

Lemma delay_positive d : (0 < d)%Q -> delay d = d.
Proof.
  intros H. unfold delay.
  destruct (Qlt_bool 0 d) eqn:E; [reflexivity|].
  apply Qlt_bool_false in E. lra.
Qed.

(** What [govern] does when it is not bypassed: it returns, records the
    clock as the new last slot, and that slot is at least [window / rate]
    after the previous one. *)
Lemma govern_spacing (overshoot : nat -> Q) (window : Q)
    (rate_limit_arg : option Z) (c : Client) :
  (forall n, 0 <= overshoot n)%Q ->
  bypass_rate_limit c = false ->
  0 < default (rate_limit c) rate_limit_arg ->
  exists c',
    govern overshoot window rate_limit_arg c = (Ret tt, c')
    /\ last_request_time c' = now c'
    /\ (last_request_time c
        + window / inject_Z (default (rate_limit c) rate_limit_arg)
        <= last_request_time c')%Q.
Proof.
  intros Hover Hbypass Hrate.
  unfold govern. unfold_M. simpl. rewrite Hbypass.
  set (r := default (rate_limit c) rate_limit_arg) in *.
  destruct (decide (r = 0)) as [->|_]; [lia|]. simpl.
  destruct (Qlt_bool (now c - last_request_time c) (window / inject_Z r))
    eqn:Hlt; simpl.
  - eexists. split; [reflexivity|]. split; [reflexivity|]. simpl.
    apply Qlt_bool_true in Hlt.
    rewrite delay_positive by lra.
    specialize (Hover (length (slept c))). lra.
  - eexists. split; [reflexivity|]. split; [reflexivity|]. simpl.
    apply Qlt_bool_false in Hlt. lra.
Qed.

Lemma minute_window_covers_sixty (r : Z) :
  0 < r -> (60 / inject_Z r <= 300 / inject_Z r)%Q.
Proof.
  intros Hr. unfold Qdiv.
  assert (0 < / inject_Z r)%Q.
  { apply Qinv_lt_0_compat. change 0%Q with (inject_Z 0).
    rewrite <- Zlt_Qlt. exact Hr. }
  lra.
Qed.

(** The per-minute governor on its own keeps its slots apart: with the
    bypass off and a positive rate [r], one call of [_rate_limit_by_minute]
    returns after suspending the caller until at least [60 / r] seconds (in
    fact [300 / r]) have passed since the last granted slot, and records
    the clock at that moment as the new last granted slot. *)
Lemma rate_limit_by_minute_spacing (overshoot : nat -> Q)
    (rate_limit_arg : option Z) (c : Client)
    (Hscheduler : forall n, (0 <= overshoot n)%Q)
    (Hbypass : bypass_rate_limit c = false)
    (Hrate : 0 < default (rate_limit c) rate_limit_arg) :
  exists c',
    _rate_limit_by_minute overshoot rate_limit_arg c = (Ret tt, c')
    /\ last_request_time c' = now c'
    /\ (last_request_time c
        + 60 / inject_Z (default (rate_limit c) rate_limit_arg)
        <= last_request_time c')%Q
    /\ (last_request_time c
        + 300 / inject_Z (default (rate_limit c) rate_limit_arg)
        <= last_request_time c')%Q.
Proof.
  destruct (govern_spacing overshoot 300 rate_limit_arg c
              Hscheduler Hbypass Hrate) as (c' & Hrun & Hlast & Hgap).
  exists c'. repeat split; try assumption.
  pose proof (minute_window_covers_sixty _ Hrate). lra.
Qed.

(** The CodeChef client, three seconds after its last slot, at 30 requests
    per minute. *)
Lemma rate_limit_by_minute_spacing_example :
  exists c',
    _rate_limit_by_minute a_millisecond_late (Some 30) codechef_client
    = (Ret tt, c')
    /\ last_request_time c' = now c'
    /\ (100 + 60 / inject_Z 30 <= last_request_time c')%Q
    /\ (100 + 300 / inject_Z 30 <= last_request_time c')%Q.
Proof.
  apply (rate_limit_by_minute_spacing a_millisecond_late (Some 30)
           codechef_client).
  - intros n. unfold a_millisecond_late. lra.
  - reflexivity.
  - reflexivity.
Qed.

Lemma Qlt_bool_ge a b : (b <= a)%Q -> Qlt_bool a b = false.
Proof.
  intros H. unfold Qlt_bool. apply negb_false_iff, Qle_bool_iff. exact H.
Qed.

(** One attempt of [request] without [rate_limit_by_minute], on a client
    whose last slot is at least [1 / r] seconds old: the per-second
    governor lets it through without a sleep. *)
Lemma request_once_when_due (server : nat -> transport) (overshoot : nat -> Q)
    (c : Client) :
  bypass_rate_limit c = false ->
  0 < rate_limit c ->
  (1 / inject_Z (rate_limit c) <= now c - last_request_time c)%Q ->
  request_once server overshoot None false false c
  = (attempt_outcome (server (exchanges c)),
     mkClient (rate_limit c) (rate_limit_by_minute c) false (now c) true
              (now c) (slept c) (S (exchanges c))).
Proof.
  intros Hbypass Hrate Hdue.
  unfold request_once, before_exchange, initialize, _rate_limit, govern,
    session_request, attempt_outcome.
  unfold_M. simpl.
  destruct c as [r minute bypass last open now_ slept_ n]. simpl in *.
  subst bypass.
  destruct open; simpl;
    (destruct (decide (r = 0)) as [->|_]; [lia|]); simpl;
    rewrite (Qlt_bool_ge _ _ Hdue); simpl;
    (destruct (server n) as [resp| |]; simpl;
     [destruct (400 <=? status resp)%Z; simpl;
      [unfold isinstance; simpl;
       destruct (decide (status resp = 429)); reflexivity
      |reflexivity]
     |reflexivity|reflexivity]).
Qed.

(** C3, where the code departs from it.  The mode of the instance is
    written by [request] and never read: the governor is chosen by the
    [rate_limit_by_minute] argument of each call.  On an instance in
    per-minute mode, with the bypass off and a rate [r > 0], a call of
    [request] that does not pass the flag is governed per second: once
    [1 / r] seconds have passed since the last granted slot it is granted
    the next one at once, without suspending, and records it.  When fewer
    than [60 / r] seconds have passed, two consecutive slots of the
    instance are then less than [60 / r] seconds apart, and the instance
    is still in per-minute mode. *)
Theorem request_ignores_the_mode_of_the_instance
    (server : nat -> transport) (overshoot : nat -> Q) (c : Client)
    (Hmode : rate_limit_by_minute c = true)
    (Hbypass : bypass_rate_limit c = false)
    (Hrate : 0 < rate_limit c)
    (Hdue : (1 / inject_Z (rate_limit c) <= now c - last_request_time c)%Q)
    (Hearly : (now c - last_request_time c < 60 / inject_Z (rate_limit c))%Q)
    (Hfirst : retried (server (exchanges c)) = false) :
  exists c',
    request server overshoot None false false c
    = (attempt_outcome (server (exchanges c)), c')
    /\ rate_limit_by_minute c' = true
    /\ bypass_rate_limit c' = false
    /\ rate_limit c' = rate_limit c
    /\ exchanges c' = S (exchanges c)
    /\ slept c' = slept c
    /\ last_request_time c' = now c
    /\ (last_request_time c' < last_request_time c
                               + 60 / inject_Z (rate_limit c))%Q.
Proof.
  pose proof (request_once_when_due server overshoot c Hbypass Hrate Hdue)
    as Hrun.
  eexists. split.
  - unfold request, retry. cbn [Nat.pred attempts]. unfold try_except.
    rewrite Hrun.
    destruct (server (exchanges c)) as [resp| |]; cbn [attempt_outcome].
    + destruct (400 <=? status resp)%Z; [|reflexivity].
      destruct (decide (status resp = 429)); reflexivity.
    + discriminate Hfirst.
    + reflexivity.
  - cbn. rewrite Hmode. repeat split. lra.
Qed.

(** The CodeChef client at 30 requests per minute, in per-minute mode since
    its last [get_user_info], asks for a new access token 0.05 s after
    its last slot: the request goes out at once, 0.05 s after the slot
    before it instead of 2 s. *)
Lemma request_ignores_the_mode_of_the_instance_witness :
  exists c',
    request always_ok punctual None false false codechef_refreshing
    = (Ret hello, c')
    /\ rate_limit_by_minute c' = true
    /\ bypass_rate_limit c' = false
    /\ rate_limit c' = 30
    /\ exchanges c' = 1%nat
    /\ slept c' = []
    /\ last_request_time c' = (2001 # 20)%Q
    /\ (last_request_time c' < 100 + 60 / inject_Z 30)%Q.
Proof.
  apply (request_ignores_the_mode_of_the_instance always_ok punctual
           codechef_refreshing).
  - reflexivity.
  - reflexivity.
  - reflexivity.
  - vm_compute. discriminate.
  - vm_compute. reflexivity.
  - reflexivity.
Defined.

(** ** The request executor *)

Ltac case_step :=
  match goal with
  | |- context [if ?b then _ else _] => destruct b eqn:?
  | |- context [let (_, _) := ?x in _] => destruct x as [? ?] eqn:?
  | |- context [match ?x with _ => _ end] => destruct x eqn:?
  end; simpl in *.

Lemma backoffs_app t1 t2 : backoffs (t1 ++ t2) = backoffs t1 ++ backoffs t2.
Proof. apply omap_app. Qed.

Lemma cool_downs_app t1 t2 :
  cool_downs (t1 ++ t2) = cool_downs t1 ++ cool_downs t2.
Proof. apply omap_app. Qed.

(** The preparation of an attempt never fails on a client whose rate is not
    zero, starts no exchange, and sleeps only for the governor. *)
Lemma before_exchange_ok (overshoot : nat -> Q) rate_limit_arg minute bypass c :
  rate_limit c <> 0 ->
  exists c1,
    before_exchange overshoot rate_limit_arg minute bypass c = (Ret tt, c1)
    /\ exchanges c1 = exchanges c
    /\ backoffs (slept c1) = backoffs (slept c)
    /\ cool_downs (slept c1) = cool_downs (slept c)
    /\ rate_limit c1 <> 0.
Proof.
  intros Hrate.
  unfold before_exchange, initialize, _rate_limit_by_minute, _rate_limit,
         govern, sleep_for.
  unfold_M. simpl.
  destruct (session_open c); simpl;
    (destruct rate_limit_arg as [r|]; simpl;
       [destruct (decide (r = 0)); simpl|]);
    destruct minute; simpl; destruct bypass; simpl;
    try (destruct (bypass_rate_limit c); simpl);
    repeat match goal with
    | |- context [decide (?x = 0)] => destruct (decide (x = 0)); simpl
    | |- context [Qlt_bool ?a ?b] => destruct (Qlt_bool a b); simpl
    end;
    try contradiction;
    eexists; (split; [reflexivity|]); simpl;
    rewrite ?backoffs_app, ?cool_downs_app; simpl; rewrite ?app_nil_r;
    auto.
Qed.

(** One attempt: a single exchange, whose result decides the outcome. *)
Lemma request_once_outcome (server : nat -> transport) (overshoot : nat -> Q)
    rate_limit_arg minute bypass c :
  rate_limit c <> 0 ->
  exists c1,
    request_once server overshoot rate_limit_arg minute bypass c
    = (attempt_outcome (server (exchanges c)), c1)
    /\ exchanges c1 = S (exchanges c)
    /\ backoffs (slept c1) = backoffs (slept c)
    /\ cool_downs (slept c1) = cool_downs (slept c)
    /\ rate_limit c1 <> 0.
Proof.
  intros Hrate.
  destruct (before_exchange_ok overshoot rate_limit_arg minute bypass c Hrate)
    as (c0 & Hpre & Hex & Hb & Hc & Hr).
  unfold request_once. unfold_M. rewrite Hpre. simpl.
  unfold session_request, attempt_outcome. rewrite Hex.
  destruct (server (exchanges c)) as [r| |]; simpl.
  - destruct (400 <=? status r)%Z; simpl.
    + unfold isinstance; simpl.
      destruct (decide (status r = 429)); simpl;
        eexists; (split; [reflexivity|]); simpl; auto.
    + eexists; (split; [reflexivity|]); simpl; auto.
  - eexists; (split; [reflexivity|]); simpl; auto.
  - eexists; (split; [reflexivity|]); simpl; auto.
Qed.

Lemma request_stops_on_error_status
    (server : nat -> transport) (overshoot : nat -> Q)
    rate_limit_arg minute bypass (c : Client) (r : Response) :
  rate_limit c <> 0 ->
  server (exchanges c) = Answered r ->
  400 <= status r ->
  exists c',
    request server overshoot rate_limit_arg minute bypass c
    = (Raise (an (if decide (status r = 429) then RateLimitError
                  else ScraperError)), c')
    /\ exchanges c' = S (exchanges c)
    /\ backoffs (slept c') = backoffs (slept c)
    /\ cool_downs (slept c') = cool_downs (slept c).
Proof.
  intros Hrate Hanswer Herror.
  destruct (request_once_outcome server overshoot rate_limit_arg minute bypass
              c Hrate) as (c1 & Hrun & Hex & Hb & Hcd & _).
  exists c1. split; [|auto].
  unfold request, retry. simpl. unfold try_except. rewrite Hrun, Hanswer.
  unfold attempt_outcome.
  apply Z.leb_le in Herror. rewrite Herror.
  destruct (decide (status r = 429)); reflexivity.
Qed.

(** C4, where the code departs from it.  An answer with an error status
    ends [request] at its first attempt: [RateLimitError] for 429 and
    [ScraperError] for every other status from 400 up, the 5xx among them.
    One exchange is made and tenacity never sleeps: a 5xx answer is not
    retried. *)
Theorem request_http_error_not_retried
    (server : nat -> transport) (overshoot : nat -> Q)
    (rate_limit_arg : option Z) (minute bypass : bool) (c : Client)
    (r : Response)
    (Hrate : rate_limit c <> 0)
    (Hanswer : server (exchanges c) = Answered r)
    (Herror : 400 <= status r) :
  exists c',
    request server overshoot rate_limit_arg minute bypass c
    = (Raise (an (if decide (status r = 429) then RateLimitError
                  else ScraperError)), c')
    /\ exchanges c' = S (exchanges c)
    /\ backoffs (slept c') = backoffs (slept c).
Proof.
  destruct (request_stops_on_error_status server overshoot rate_limit_arg
              minute bypass c r Hrate Hanswer Herror)
    as (c' & Hrun & Hex & Hb & _).
  exists c'. auto.
Qed.

(** A 503 from the first exchange: one attempt, [ScraperError], no
    back-off. *)
Lemma request_http_error_not_retried_witness :
  exists c',
    request always_503 punctual None false false (fresh_client 2)
    = (Raise (an ScraperError), c')
    /\ exchanges c' = 1%nat
    /\ backoffs (slept c') = [].
Proof.
  apply (request_http_error_not_retried always_503 punctual None false false
           (fresh_client 2) (mkResponse 503 true None)).
  - discriminate.
  - reflexivity.
  - discriminate.
Defined.

(** What is retried: an exchange that fails without a status.  After three
    of them in a row the caller gets tenacity's [RetryError], which is not a
    [ScraperError]; tenacity slept 4 s and 4 s in between. *)
Lemma request_exhausts_after_three_failures
    (server : nat -> transport) (overshoot : nat -> Q)
    rate_limit_arg minute bypass (c : Client) :
  rate_limit c <> 0 ->
  server (exchanges c) = ConnectionFailed ->
  server (S (exchanges c)) = ConnectionFailed ->
  server (S (S (exchanges c))) = ConnectionFailed ->
  exists c',
    request server overshoot rate_limit_arg minute bypass c
    = (Raise (an RetryError), c')
    /\ isinstance (an RetryError) ScraperError = false
    /\ exchanges c' = S (S (S (exchanges c)))
    /\ backoffs (slept c') = backoffs (slept c) ++ [4%Q; 4%Q].
Proof.
  intros Hrate H1 H2 H3.
  destruct (request_once_outcome server overshoot rate_limit_arg minute bypass
              c Hrate) as (c1 & Hrun1 & Hex1 & Hb1 & _ & Hr1).
  set (c1' := mkClient (rate_limit c1) (rate_limit_by_minute c1)
                (bypass_rate_limit c1) (last_request_time c1)
                (session_open c1)
                (now c1 + delay (inject_Z (wait_exponential 1 4 10 1))
                 + overshoot (length (slept c1)))%Q
                (slept c1 ++ [(Backoff, inject_Z (wait_exponential 1 4 10 1))])
                (exchanges c1)).
  destruct (request_once_outcome server overshoot rate_limit_arg minute bypass
              c1' Hr1) as (c2 & Hrun2 & Hex2 & Hb2 & _ & Hr2).
  set (c2' := mkClient (rate_limit c2) (rate_limit_by_minute c2)
                (bypass_rate_limit c2) (last_request_time c2)
                (session_open c2)
                (now c2 + delay (inject_Z (wait_exponential 1 4 10 2))
                 + overshoot (length (slept c2)))%Q
                (slept c2 ++ [(Backoff, inject_Z (wait_exponential 1 4 10 2))])
                (exchanges c2)).
  destruct (request_once_outcome server overshoot rate_limit_arg minute bypass
              c2' Hr2) as (c3 & Hrun3 & Hex3 & Hb3 & _ & _).
  simpl in Hex2, Hex3, Hb2, Hb3, Hrun2, Hrun3.
  rewrite Hex1, H2 in Hrun2. rewrite Hex2, Hex1, H3 in Hrun3.
  rewrite H1 in Hrun1.
  exists c3. split; [|split; [reflexivity|split]].
  - unfold request, retry. simpl. unfold try_except at 1.
    rewrite Hrun1. simpl.
    unfold sleep_for. unfold_M. simpl.
    fold c1'. rewrite Hrun2. simpl. fold c2'. rewrite Hrun3. reflexivity.
  - rewrite Hex3, Hex2, Hex1. reflexivity.
  - rewrite Hb3, backoffs_app, Hb2, backoffs_app, Hb1. simpl.
    rewrite <- app_assoc. reflexivity.
Qed.

(** ** Cache initialisation under a rate limit *)

(** The [while] loop of a page never sees the 429 it is written to handle:
    [request] has already turned it into a [RateLimitError], which is no
    [ClientError], so the error leaves the loop at once, with no cool-down
    and no retry. *)
Lemma fetch_page_429_escapes (server : nat -> transport) (overshoot : nat -> Q)
    budget retry_count page loc rate_limited g r :
  (retry_count <= GeeksForGeeks.max_retries)%nat ->
  rate_limit (GeeksForGeeks.base g) <> 0 ->
  server (exchanges (GeeksForGeeks.base g)) = Answered r ->
  status r = 429 ->
  exists b,
    GeeksForGeeks.fetch_page server overshoot (S budget) retry_count page loc
                             rate_limited g
    = (Raise (an RateLimitError), GeeksForGeeks.set_base b g)
    /\ exchanges b = S (exchanges (GeeksForGeeks.base g))
    /\ cool_downs (slept b) = cool_downs (slept (GeeksForGeeks.base g)).
Proof.
  intros Hcount Hrate Hanswer Hstatus.
  assert (Herror : 400 <= status r) by lia.
  destruct (request_stops_on_error_status server overshoot None false false
              (GeeksForGeeks.base g) r Hrate Hanswer Herror)
    as (b & Hrun & Hex & _ & Hcd).
  destruct (decide (status r = 429)); [|contradiction].
  exists b. split; [|auto].
  assert (Hstore :
    GeeksForGeeks.store_page server overshoot page loc g
    = (Raise (an RateLimitError), GeeksForGeeks.set_base b g)).
  { unfold GeeksForGeeks.store_page. unfold mbind at 1. unfold M_bind at 1.
    unfold GeeksForGeeks.on_base at 1. rewrite Hrun. reflexivity. }
  cbn [GeeksForGeeks.fetch_page].
  apply Nat.ltb_ge in Hcount. rewrite Hcount.
  unfold try_except. unfold mbind at 1. unfold M_bind at 1.
  rewrite Hstore. reflexivity.
Qed.

(** The loop of the HackerRank client has the same handler around the same
    call, and the same happens: a 429 leaves it as a [RateLimitError]. *)
Lemma hackerrank_fetch_429_escapes (server : nat -> transport)
    (overshoot : nat -> Q) fuel retry_count all_entries offset rate_limited
    c r :
  rate_limit c <> 0 ->
  server (exchanges c) = Answered r ->
  status r = 429 ->
  exists c',
    HackerRank.fetch_contest server overshoot (S fuel) retry_count all_entries
                             offset rate_limited c
    = (Raise (an RateLimitError), c')
    /\ exchanges c' = S (exchanges c)
    /\ cool_downs (slept c') = cool_downs (slept c).
Proof.
  intros Hrate Hanswer Hstatus.
  assert (Herror : 400 <= status r) by lia.
  destruct (request_stops_on_error_status server overshoot None false false
              c r Hrate Hanswer Herror) as (c' & Hrun & Hex & _ & Hcd).
  destruct (decide (status r = 429)); [|contradiction].
  exists c'. split; [|auto].
  cbn [HackerRank.fetch_contest].
  apply bind_raise.
  erewrite try_raise.
  2:{ apply bind_raise. unfold HackerRank.next_rows.
      apply bind_raise. exact Hrun. }
  reflexivity.
Qed.

(** C5, where the code departs from it.  When the leaderboard has to be
    fetched and the first page answers 429, [initialize_cache] does not
    retry the page and does not go on: it raises [RateLimitError] after that
    single exchange, without any cool-down, and the cache stays
    uninitialised. *)
Theorem initialize_cache_fails_on_429
    (server : nat -> transport) (overshoot : nat -> Q)
    (max_pages : nat) (force_refresh : bool) (g : GeeksForGeeks.GfgClient)
    (r : Response)
    (Hneeded : GeeksForGeeks.is_cache_initialized g && negb force_refresh
               = false)
    (Hstore : force_refresh = false ->
              get_platform_cache_entries
                (Qfloor (now (GeeksForGeeks.base g) * inject_Z second))
                (GeeksForGeeks.cache_db g) GEEKSFORGEEKS true = Ret [])
    (Hmemory : GeeksForGeeks.leaderboard_cache g = [])
    (Hpages : (0 < max_pages)%nat)
    (Hrate : rate_limit (GeeksForGeeks.base g) <> 0)
    (Hanswer : server (exchanges (GeeksForGeeks.base g)) = Answered r)
    (Hstatus : status r = 429) :
  exists b,
    GeeksForGeeks.initialize_cache server overshoot max_pages force_refresh g
    = (Raise (an RateLimitError), GeeksForGeeks.set_base b g)
    /\ exchanges b = S (exchanges (GeeksForGeeks.base g))
    /\ cool_downs (slept b) = cool_downs (slept (GeeksForGeeks.base g))
    /\ GeeksForGeeks.is_cache_initialized (GeeksForGeeks.set_base b g)
       = GeeksForGeeks.is_cache_initialized g.
Proof.
  destruct (fetch_page_429_escapes server overshoot GeeksForGeeks.max_retries
              0 0 (GeeksForGeeks.mkLocals [] [] None) false g r
              (Nat.le_0_l _) Hrate Hanswer Hstatus)
    as (b & Hfetch & Hex & Hcd).
  exists b. split; [|auto].
  assert (Hhydrate : GeeksForGeeks.hydrate force_refresh g = (Ret false, g)).
  { unfold GeeksForGeeks.hydrate.
    destruct force_refresh; [reflexivity|]. cbn [negb].
    unfold try_except.
    erewrite bind_ret;
      [|unfold GeeksForGeeks.repo_get_platform_cache_entries;
        rewrite (Hstore eq_refl); reflexivity].
    reflexivity. }
  unfold GeeksForGeeks.initialize_cache.
  erewrite bind_ret by reflexivity. rewrite Hneeded.
  erewrite bind_ret by exact Hhydrate. cbv beta iota.
  unfold GeeksForGeeks.fetch_leaderboard.
  erewrite bind_ret by reflexivity.
  unfold GeeksForGeeks.processed_page_ids. rewrite Hmemory. cbn [omap list_omap].
  apply bind_raise.
  destruct max_pages as [|n]; [lia|].
  rewrite Nat.sub_0_r. cbn [GeeksForGeeks.pages_loop].
  cbn [GeeksForGeeks.processed_pages].
  destruct (bool_decide (0%nat ∈ ([] : list nat))) eqn:Hin.
  { apply bool_decide_eq_true in Hin. inversion Hin. }
  apply bind_raise. exact Hfetch.
Qed.

(** A client fresh from its constructor, an empty store, and an upstream
    that answers 429. *)
Lemma initialize_cache_fails_on_429_witness :
  exists b,
    GeeksForGeeks.initialize_cache always_429 punctual 1000 false fresh_gfg
    = (Raise (an RateLimitError), GeeksForGeeks.set_base b fresh_gfg)
    /\ exchanges b = 1%nat
    /\ cool_downs (slept b) = []
    /\ GeeksForGeeks.is_cache_initialized (GeeksForGeeks.set_base b fresh_gfg)
       = false.
Proof.
  apply (initialize_cache_fails_on_429 always_429 punctual 1000 false
           fresh_gfg (mkResponse 429 true None)).
  - reflexivity.
  - reflexivity.
  - reflexivity.
  - lia.
  - discriminate.
  - reflexivity.
  - reflexivity.
Defined.

(** ** The batch orchestrators *)

Lemma platform_handle_ok key i w p st :
  objs w !! i = Some p ->
  dict_get key (platforms p) = Some (Some st) ->
  platform_handle key i w = (Ret (handle st), w).
Proof.
  intros Hp Hst. unfold platform_handle, deref. unfold_M.
  rewrite Hp, Hst. reflexivity.
Qed.

(** [get_participant_data] keeps cooling down and asking again for as long
    as the client is rate-limited: after [n] rate-limited calls in a row the
    answer of call [n + 1] is the result. *)
Lemma codechef_retries_until_answered (client : client_behaviour) n :
  forall fuel i w p st u fields ratings v,
    (n < fuel)%nat ->
    objs w !! i = Some p ->
    dict_get CodeChef.KEY (platforms p) = Some (Some st) ->
    handle st = Some u ->
    falsy_handle (Some u) = false ->
    (forall k, (k < n)%nat ->
       client (length (requests w) + k)%nat u = Raise (an RateLimitError)) ->
    client (length (requests w) + n)%nat u = Ret (JObj fields) ->
    dict_get "ratings" fields = Some (JObj ratings) ->
    dict_get "allContest" ratings = Some v ->
    CodeChef.get_participant_data client fuel i w
    = (Ret (mkStatus (Some u) (as_rating v) true
                     (clock w + Z.of_nat n * (60 * second)) (JObj [])),
       after_rate_limits n u
         (mkWorld (objs w) (clock w) (sleeps w) (requests w ++ [u])
                  (closes w))).
Proof.
  induction n as [|n IH];
    intros fuel i w p st u fields ratings v Hfuel Hp Hst Hu Hne Hlimited
           Hanswer Hratings Hall;
    (destruct fuel as [|fuel]; [lia|]);
    cbn [CodeChef.get_participant_data];
    (erewrite bind_ret by (eapply platform_handle_ok; eauto));
    rewrite Hu, Hne; change (default "" (Some u)) with u.
  - erewrite try_ret.
    + reflexivity.
    + rewrite Nat.add_0_r in Hanswer.
      erewrite bind_ret by (unfold call_client; rewrite Hanswer; reflexivity).
      erewrite bind_ret by (unfold subscript; rewrite Hratings; reflexivity).
      erewrite bind_ret by (unfold subscript; rewrite Hall; reflexivity).
      unfold after_rate_limits, new_status. unfold_M.
      cbn [objs clock sleeps requests closes replicate Z.of_nat].
      rewrite !app_nil_r, Z.mul_0_l, Z.add_0_r. reflexivity.
  - erewrite try_raise.
    2:{ unfold call_client. unfold mbind at 1. unfold M_bind at 1.
        rewrite <- (Nat.add_0_r (length (requests w))).
        rewrite (Hlimited 0%nat) by lia. reflexivity. }
    change (isinstance (an RateLimitError) UserNotFoundError) with false.
    change (isinstance (an RateLimitError) RateLimitError) with true.
    cbv iota.
    erewrite bind_ret by reflexivity.
    unfold retry_wrapper. erewrite try_ret.
    2:{ eapply (IH fuel i _ p st u fields ratings v); eauto.
        - lia.
        - intros k Hk. cbn [requests]. rewrite length_app. cbn [length].
          replace (length (requests w) + 1 + k)%nat
            with (length (requests w) + S k)%nat by lia.
          apply Hlimited. lia.
        - cbn [requests]. rewrite length_app. cbn [length].
          replace (length (requests w) + 1 + n)%nat
            with (length (requests w) + S n)%nat by lia.
          exact Hanswer. }
    unfold after_rate_limits.
    cbn [objs clock sleeps requests closes replicate].
    f_equal.
    + f_equal. f_equal. lia.
    + f_equal; [lia| |]; rewrite <- !app_assoc; reflexivity.
Qed.

Lemma platform_handle_raises key i w e w' :
  platform_handle key i w = (Raise e, w') ->
  isinstance e RateLimitError = false.
Proof.
  unfold platform_handle, deref. unfold_M.
  destruct (objs w !! i) as [p|]; [|discriminate].
  destruct (dict_get key (platforms p)) as [[st|]|]; try discriminate;
    intros [= <- _]; reflexivity.
Qed.

Lemma retry_wrapper_raises {A} (again : M World A) w e w' :
  retry_wrapper again w = (Raise e, w') -> again w = (Raise e, w').
Proof.
  unfold retry_wrapper, try_except.
  destruct (again w) as [[a|e0|] w0]; try discriminate.
  destruct (isinstance e0 RateLimitError); unfold raise; congruence.
Qed.

(** No [RateLimitError] ever leaves CodeChef's [get_participant_data]: the
    method handles each one itself, by a cool-down and a new call of itself,
    so the [except RateLimitError] clause of [process_batch] and the skip
    that it contains are never reached. *)
Lemma codechef_rate_limit_never_escapes (client : client_behaviour) fuel :
  forall i w e w',
    CodeChef.get_participant_data client fuel i w = (Raise e, w') ->
    isinstance e RateLimitError = false.
Proof.
  induction fuel as [|fuel IH]; intros i w e w'; [discriminate|].
  cbn [CodeChef.get_participant_data].
  unfold mbind at 1. unfold M_bind at 1.
  destruct (platform_handle CodeChef.KEY i w) as [[username|e0|] w0] eqn:Hh.
  - destruct (falsy_handle username); [discriminate|].
    unfold try_except at 1.
    match goal with
    | |- context [match ?body w0 with _ => _ end] =>
        destruct (body w0) as [[a|e1|] w1] eqn:Hbody
    end; try discriminate.
    destruct (isinstance e1 UserNotFoundError); [discriminate|].
    destruct (isinstance e1 RateLimitError) eqn:Hrl.
    + unfold mbind at 1. unfold M_bind at 1.
      cbn [asyncio_sleep modify]. intros H.
      apply retry_wrapper_raises in H. eapply IH; eauto.
    + destruct (isinstance e1 ScraperError); intros [= <- _]; exact Hrl.
  - intros [= <- _]. eapply platform_handle_raises; eauto.
  - discriminate.
Qed.

(** [process_batch] on a batch of one. *)
Lemma codechef_process_one_ret (client : client_behaviour) fuel results i w
    result w1 :
  CodeChef.get_participant_data client fuel i w = (Ret result, w1) ->
  CodeChef.process_one client fuel results i w
  = (Ret (results ++ [i]),
     mkWorld
       (alter (fun p => set_platforms
                          (dict_set CodeChef.KEY (Some result) (platforms p)) p)
              i (objs w1))
       (clock w1) (sleeps w1) (requests w1) (S (closes w1))).
Proof.
  intros H. unfold CodeChef.process_one, try_finally.
  erewrite try_ret by (erewrite bind_ret by exact H; reflexivity).
  reflexivity.
Qed.

(** C1, where the code departs from it.  On CodeChef, a participant whose
    client is rate-limited [n] times in a row and then answers is not
    skipped after the second [RateLimitError]: [process_batch] cools down
    60 s after each of the [n] errors, asks [n + 1] times in all, and
    returns the participant with the status of the last answer.  For
    [n = 1] this is the recovery the specification describes; for [n >= 2] the
    second error is followed by a further delay and a further retry. *)
Theorem codechef_rate_limit_retried_without_bound
    (client : client_behaviour) (n fuel i : nat) (w : World)
    (p : Participant) (st : PlatformStatus) (u : string)
    (fields ratings : list (string * json)) (v : json)
    (Hfuel : (n < fuel)%nat)
    (Hp : objs w !! i = Some p)
    (Hst : dict_get CodeChef.KEY (platforms p) = Some (Some st))
    (Hu : handle st = Some u)
    (Hne : falsy_handle (Some u) = false)
    (Hlimited : forall k, (k < n)%nat ->
       client (length (requests w) + k)%nat u = Raise (an RateLimitError))
    (Hanswer : client (length (requests w) + n)%nat u = Ret (JObj fields))
    (Hratings : dict_get "ratings" fields = Some (JObj ratings))
    (Hall : dict_get "allContest" ratings = Some v) :
  exists w',
    CodeChef.process_batch client fuel [i] w = (Ret [i], w')
    /\ sleeps w' = sleeps w ++ replicate n 60
    /\ requests w' = requests w ++ replicate (S n) u
    /\ objs w' !! i
       = Some (set_platforms
                 (dict_set CodeChef.KEY
                    (Some (mkStatus (Some u) (as_rating v) true
                             (clock w + Z.of_nat n * (60 * second)) (JObj [])))
                    (platforms p)) p).
Proof.
  pose proof (codechef_retries_until_answered client n fuel i w p st u fields
                ratings v Hfuel Hp Hst Hu Hne Hlimited Hanswer Hratings Hall)
    as Hget.
  eexists. split.
  - unfold CodeChef.process_batch. cbn [CodeChef.process_loop].
    erewrite bind_ret by (eapply codechef_process_one_ret; exact Hget).
    reflexivity.
  - cbn [after_rate_limits objs clock sleeps requests closes].
    split; [reflexivity|]. split.
    + rewrite <- app_assoc. reflexivity.
    + rewrite list_lookup_alter.
      destruct (decide (i = i)); [|congruence]. rewrite Hp. reflexivity.
Qed.

(** Alice, rate-limited twice and then answered: two cool-downs, three
    requests, and she is in the result with the rating of the third
    answer. *)
Lemma codechef_rate_limit_retried_without_bound_witness :
  exists w',
    CodeChef.process_batch (rate_limited_first 2) 3 [0%nat] roster
    = (Ret [0%nat], w')
    /\ sleeps w' = [60; 60]
    /\ requests w' = ["alice"; "alice"; "alice"]
    /\ objs w' !! 0%nat
       = Some (set_platforms
                 (dict_set CodeChef.KEY
                    (Some (mkStatus (Some "alice") (Some 1500%Q) true
                             (120 * second) (JObj [])))
                    (platforms alice)) alice).
Proof.
  apply (codechef_rate_limit_retried_without_bound (rate_limited_first 2)
           2 3 0 roster alice
           (mkStatus (Some "alice") None false 0 (JObj [])) "alice"
           [("ratings", JObj [("allContest", JNum (inject_Z 1500))])]
           [("allContest", JNum (inject_Z 1500))] (JNum (inject_Z 1500))).
  - lia.
  - reflexivity.
  - reflexivity.
  - reflexivity.
  - reflexivity.
  - intros k Hk. simpl. unfold rate_limited_first.
    destruct k as [|[|k]]; [reflexivity|reflexivity|lia].
  - reflexivity.
  - reflexivity.
  - reflexivity.
Defined.

(** The same on LeetCode: two rate-limited calls, two cool-downs, a third
    call, and Alice is in the result (the last second is the pacing pause
    after a success). *)
Lemma leetcode_second_rate_limit_is_retried :
  exists w',
    LeetCode.process_batch (leetcode_rate_limited_first 2) 3 [0%nat] roster
    = (Ret [0%nat], w')
    /\ sleeps w' = [60; 60; 1]
    /\ requests w' = ["alice"; "alice"; "alice"]
    /\ (p ← objs w' !! 0%nat; st ← dict_get LeetCode.KEY (platforms p);
        (fun s => (exists_ s, rating s)) <$> st)
       = Some (true, Some (inject_Z 1600)).
Proof. eexists. split; [vm_compute; reflexivity|]. repeat split. Qed.

(** The recovery the specification describes, on both platforms: one
    rate-limited call, one cool-down of 60 s, the answer of the second
    call. *)
Lemma one_rate_limit_one_cool_down :
  (exists w',
     CodeChef.process_batch (rate_limited_first 1) 2 [0%nat] roster
     = (Ret [0%nat], w')
     /\ sleeps w' = [60] /\ requests w' = ["alice"; "alice"])
  /\ (exists w',
        LeetCode.process_batch (leetcode_rate_limited_first 1) 2 [0%nat] roster
        = (Ret [0%nat], w')
        /\ sleeps w' = [60; 1] /\ requests w' = ["alice"; "alice"]).
Proof.
  split; eexists; (split; [vm_compute; reflexivity|]); split; reflexivity.
Qed.

(** A client that is always rate-limited: whatever the budget, the call has
    not returned when the budget is spent, having cooled down once per
    call. *)
Lemma codechef_always_rate_limited (client : client_behaviour) fuel :
  forall i w p st u,
    objs w !! i = Some p ->
    dict_get CodeChef.KEY (platforms p) = Some (Some st) ->
    handle st = Some u ->
    falsy_handle (Some u) = false ->
    (forall k, client k u = Raise (an RateLimitError)) ->
    CodeChef.get_participant_data client fuel i w
    = (Diverge, after_rate_limits fuel u w).
Proof.
  induction fuel as [|fuel IH]; intros i w p st u Hp Hst Hu Hne Hlimited.
  - unfold after_rate_limits. cbn. rewrite !app_nil_r, Z.add_0_r.
    destruct w; reflexivity.
  - cbn [CodeChef.get_participant_data].
    erewrite bind_ret by (eapply platform_handle_ok; eauto).
    rewrite Hu, Hne. change (default "" (Some u)) with u.
    erewrite try_raise
      by (unfold call_client; unfold mbind at 1; unfold M_bind at 1;
          rewrite Hlimited; reflexivity).
    change (isinstance (an RateLimitError) UserNotFoundError) with false.
    change (isinstance (an RateLimitError) RateLimitError) with true.
    cbv iota.
    erewrite bind_ret by reflexivity.
    unfold retry_wrapper. erewrite try_diverge by (eapply IH; eauto).
    unfold after_rate_limits.
    cbn [objs clock sleeps requests closes replicate].
    f_equal. f_equal; [lia| |]; rewrite <- !app_assoc; reflexivity.
Qed.

(** ** A [ScraperError] in the middle of a batch *)

(** C2, where the code departs from it.  CodeChef's [process_batch] has no
    [except] clause for a [ScraperError] raised by the first attempt: when
    the client call for a participant raises one (other than
    [UserNotFoundError] and [RateLimitError]), the error leaves
    [process_batch], nothing is returned, and the participants after that
    one are never asked for. *)
Theorem codechef_scraper_error_aborts_batch
    (client : client_behaviour) (fuel i : nat) (rest : list nat) (w : World)
    (p : Participant) (st : PlatformStatus) (u : string) (e : exn)
    (Hfuel : (0 < fuel)%nat)
    (Hp : objs w !! i = Some p)
    (Hst : dict_get CodeChef.KEY (platforms p) = Some (Some st))
    (Hu : handle st = Some u)
    (Hne : falsy_handle (Some u) = false)
    (Hfails : client (length (requests w)) u = Raise e)
    (Hscraper : isinstance e ScraperError = true)
    (Hfound : isinstance e UserNotFoundError = false)
    (Hlimit : isinstance e RateLimitError = false) :
  CodeChef.process_batch client fuel (i :: rest) w
  = (Raise e,
     mkWorld (objs w) (clock w) (sleeps w) (requests w ++ [u])
             (S (closes w))).
Proof.
  destruct fuel as [|fuel]; [lia|].
  assert (Hget :
    CodeChef.get_participant_data client (S fuel) i w
    = (Raise e, mkWorld (objs w) (clock w) (sleeps w) (requests w ++ [u])
                        (closes w))).
  { cbn [CodeChef.get_participant_data].
    erewrite bind_ret by (eapply platform_handle_ok; eauto).
    rewrite Hu, Hne. change (default "" (Some u)) with u.
    erewrite try_raise
      by (unfold call_client; unfold mbind at 1; unfold M_bind at 1;
          rewrite Hfails; reflexivity).
    rewrite Hfound, Hlimit, Hscraper. reflexivity. }
  unfold CodeChef.process_batch. cbn [CodeChef.process_loop].
  apply bind_raise.
  unfold CodeChef.process_one, try_finally.
  erewrite try_raise by (erewrite bind_raise by exact Hget; reflexivity).
  rewrite Hlimit. reflexivity.
Qed.

(** Alice's call fails, Bob is never asked for. *)
Lemma codechef_scraper_error_aborts_batch_witness :
  CodeChef.process_batch (fails_for_alice (codechef_profile 1500)) 2
                         [0%nat; 1%nat] roster
  = (Raise (an ScraperError),
     mkWorld [alice; bob] 0 [] ["alice"] 1).
Proof.
  apply (codechef_scraper_error_aborts_batch
           (fails_for_alice (codechef_profile 1500)) 2 0 [1%nat] roster alice
           (mkStatus (Some "alice") None false 0 (JObj [])) "alice"
           (an ScraperError));
    solve [reflexivity | lia].
Defined.

(** The sibling orchestrator does what the specification asks: on LeetCode
    the same
    failure skips Alice, leaves her status as it was, and Bob is processed. *)
Lemma leetcode_scraper_error_skips_participant :
  exists w',
    LeetCode.process_batch (fails_for_alice (leetcode_ranking 1600)) 2
                           [0%nat; 1%nat] roster
    = (Ret [1%nat], w')
    /\ requests w' = ["alice"; "bob"]
    /\ objs w' !! 0%nat = Some alice.
Proof. eexists. split; [vm_compute; reflexivity|]. split; reflexivity. Qed.

(** ** What a run does to the stored statuses *)

Lemma keeps_ret {A} (a : A) : keeps_objs (mret a).
Proof. intros w r w' [= _ <-]. reflexivity. Qed.

Lemma keeps_raise {A} (e : exn) : keeps_objs (raise e : M World A).
Proof. intros w r w' [= _ <-]. reflexivity. Qed.

Lemma keeps_diverge {A} : keeps_objs (diverge : M World A).
Proof. intros w r w' [= _ <-]. reflexivity. Qed.

Lemma keeps_gets {A} (f : World -> A) : keeps_objs (gets f).
Proof. intros w r w' [= _ <-]. reflexivity. Qed.

Lemma keeps_bind {A B} (m : M World A) (f : A -> M World B) :
  keeps_objs m -> (forall a, keeps_objs (f a)) -> keeps_objs (m ≫= f).
Proof.
  intros Hm Hf w r w'. unfold mbind, M_bind.
  destruct (m w) as [[a|e|] w1] eqn:E; intros H.
  - rewrite (Hf a _ _ _ H). eapply Hm; eauto.
  - injection H as _ <-. eapply Hm; eauto.
  - injection H as _ <-. eapply Hm; eauto.
Qed.

Lemma keeps_try {A} (body : M World A) (h : exn -> M World A) :
  keeps_objs body -> (forall e, keeps_objs (h e)) ->
  keeps_objs (try_except body h).
Proof.
  intros Hb Hh w r w'. unfold try_except.
  destruct (body w) as [[a|e|] w1] eqn:E; intros H.
  - injection H as _ <-. eapply Hb; eauto.
  - rewrite (Hh e _ _ _ H). eapply Hb; eauto.
  - injection H as _ <-. eapply Hb; eauto.
Qed.

Lemma keeps_sleep seconds : keeps_objs (asyncio_sleep seconds).
Proof. intros w r w' [= _ <-]. reflexivity. Qed.

Lemma keeps_close : keeps_objs client_close.
Proof. intros w r w' [= _ <-]. reflexivity. Qed.

Lemma keeps_call client u : keeps_objs (call_client client u).
Proof. intros w r w' [= _ <-]. reflexivity. Qed.

Lemma keeps_deref i : keeps_objs (deref i).
Proof.
  intros w r w'. unfold deref.
  destruct (objs w !! i); intros [= _ <-]; reflexivity.
Qed.

Lemma keeps_new_status h r ex raw : keeps_objs (new_status h r ex raw).
Proof. intros w r0 w' [= _ <-]. reflexivity. Qed.

Lemma keeps_subscript d k : keeps_objs (subscript d k : M World json).
Proof.
  unfold subscript. destruct d; try apply keeps_raise.
  destruct (dict_get k fields); [apply keeps_ret|apply keeps_raise].
Qed.

Lemma keeps_get_method d k dflt :
  keeps_objs (get_method d k dflt : M World json).
Proof.
  unfold get_method. destruct d; try apply keeps_raise. apply keeps_ret.
Qed.

Lemma keeps_platform_handle key i : keeps_objs (platform_handle key i).
Proof.
  unfold platform_handle. apply keeps_bind; [apply keeps_deref|].
  intros p. destruct (dict_get key (platforms p)) as [[st|]|];
    [apply keeps_ret|apply keeps_raise|apply keeps_raise].
Qed.

Lemma keeps_retry_wrapper {A} (again : M World A) :
  keeps_objs again -> keeps_objs (retry_wrapper again).
Proof.
  intros H. apply keeps_try; [exact H|].
  intros e. destruct (isinstance e RateLimitError); apply keeps_raise.
Qed.

Create HintDb keeps.
#[local] Hint Resolve keeps_ret keeps_raise keeps_diverge keeps_gets
  keeps_sleep keeps_close keeps_call keeps_deref keeps_new_status
  keeps_subscript keeps_get_method keeps_platform_handle keeps_retry_wrapper
  : keeps.

(** Break a computation along its binds, handlers and conditionals. *)
Ltac keeps :=
  repeat first
    [ progress eauto with keeps
    | apply keeps_bind; [|intros ?]
    | apply keeps_try; [|intros ?]
    | match goal with
      | |- keeps_objs (if ?b then _ else _) => destruct b
      | |- keeps_objs (match ?x with _ => _ end) => destruct x
      | |- keeps_objs (let '(_, _) := ?x in _) => destruct x
      end ].

Lemma keeps_first_result results : keeps_objs (Codeforces.first_result results).
Proof. unfold Codeforces.first_result. keeps. Qed.

Lemma keeps_get_single_user_info client h :
  keeps_objs (Codeforces.get_single_user_info client h).
Proof.
  unfold Codeforces.get_single_user_info.
  pose proof keeps_first_result. keeps.
Qed.

Lemma codeforces_get_keeps client fuel :
  forall i, keeps_objs (Codeforces.get_participant_data client fuel i).
Proof.
  induction fuel as [|fuel IH]; intros i; cbn [Codeforces.get_participant_data].
  - apply keeps_diverge.
  - pose proof (keeps_get_single_user_info client). keeps.
Qed.

Lemma keeps_extract data :
  keeps_objs (extract_leetcode_rating data : M World (Q * json)).
Proof. unfold extract_leetcode_rating. keeps. Qed.

Lemma leetcode_get_keeps client fuel :
  forall i, keeps_objs (LeetCode.get_participant_data client fuel i).
Proof.
  induction fuel as [|fuel IH]; intros i; cbn [LeetCode.get_participant_data].
  - apply keeps_diverge.
  - pose proof keeps_extract. keeps.
Qed.

Lemma aok_ret results i : appends_or_keeps results i (mret results).
Proof. intros w r w' [= <- <-]. right. split; [reflexivity|congruence]. Qed.

Lemma aok_raise results i e : appends_or_keeps results i (raise e).
Proof. intros w r w' [= <- <-]. right. split; [reflexivity|discriminate]. Qed.

Lemma aok_bind_keeps {A} results i (m : M World A) f :
  keeps_objs m -> (forall a, appends_or_keeps results i (f a)) ->
  appends_or_keeps results i (m ≫= f).
Proof.
  intros Hm Hf w r w'. unfold mbind, M_bind.
  destruct (m w) as [[a|e|] w1] eqn:E; intros H.
  - rewrite <- (Hm _ _ _ E). eapply Hf; eauto.
  - injection H as <- <-. right.
    split; [eapply Hm; eauto|discriminate].
  - injection H as <- <-. right.
    split; [eapply Hm; eauto|discriminate].
Qed.

Lemma aok_try results i body h :
  appends_or_keeps results i body ->
  (forall e, appends_or_keeps results i (h e)) ->
  appends_or_keeps results i (try_except body h).
Proof.
  intros Hb Hh w r w'. unfold try_except.
  destruct (body w) as [[a|e|] w1] eqn:E; intros H.
  - injection H as <- <-. eapply Hb; eauto.
  - destruct (Hb _ _ _ E) as [[? _]|[Hobjs _]]; [discriminate|].
    rewrite <- Hobjs. eapply Hh; eauto.
  - injection H as <- <-. eapply Hb; eauto.
Qed.

Lemma aok_finally_close results i body :
  appends_or_keeps results i body ->
  appends_or_keeps results i (try_finally body client_close).
Proof.
  intros Hb w r w'. unfold try_finally, client_close, modify.
  destruct (body w) as [[a|e|] w1] eqn:E; intros H;
    injection H as <- <-;
    (destruct (Hb _ _ _ E) as [[Hr Ho]|[Ho Hr]];
     [left; split; [exact Hr|exact Ho]|right; split; [exact Ho|exact Hr]]).
Qed.

(** Storing a result: the only place where an object changes. *)
Lemma aok_store key results i (fetch : M World PlatformStatus)
    (then_ : M World unit) :
  keeps_objs fetch -> keeps_objs then_ ->
  (forall w r w', then_ w = (r, w') -> r = Ret tt) ->
  appends_or_keeps results i
    (result ← fetch;
     assign_status key i result;;
     then_;;
     mret (results ++ [i])).
Proof.
  intros Hf Ht Htr w r w'. unfold mbind, M_bind.
  destruct (fetch w) as [[res|e|] w1] eqn:E.
  - cbn [assign_status modify].
    match goal with
    | |- context [then_ ?x] => destruct (then_ x) as [r2 w2] eqn:E2
    end.
    pose proof (Htr _ _ _ E2) as ->. cbn. intros [= <- <-]. left.
    split; [reflexivity|]. intros j Hj.
    rewrite (Ht _ _ _ E2). cbn [objs].
    rewrite list_lookup_alter_ne by congruence.
    rewrite (Hf _ _ _ E). reflexivity.
  - intros [= <- <-]. right. split; [eapply Hf; eauto|discriminate].
  - intros [= <- <-]. right. split; [eapply Hf; eauto|discriminate].
Qed.

Lemma aok_store_now key results i (fetch : M World PlatformStatus) :
  keeps_objs fetch ->
  appends_or_keeps results i
    (result ← fetch;
     assign_status key i result;;
     mret (results ++ [i])).
Proof.
  intros Hf w r w' H.
  apply (aok_store key results i fetch (mret tt) Hf (keeps_ret tt)).
  - intros w0 r0 w0' [= <- _]. reflexivity.
  - rewrite <- H. unfold mbind, M_bind.
    destruct (fetch w) as [[res|e|] w1]; reflexivity.
Qed.

Lemma codeforces_one_at_a_time client fuel :
  one_at_a_time (Codeforces.process_one client fuel).
Proof.
  intros results i. unfold Codeforces.process_one.
  apply aok_finally_close. apply aok_try.
  - apply aok_store_now. apply codeforces_get_keeps.
  - intros e. destruct (isinstance e RateLimitError); [|apply aok_raise].
    apply aok_bind_keeps; [apply keeps_sleep|]. intros _.
    apply aok_try.
    + apply aok_store_now. apply keeps_retry_wrapper, codeforces_get_keeps.
    + intros e'. destruct (isinstance e' RateLimitError); [apply aok_ret|].
      destruct (isinstance e' ScraperError || isinstance e' UserNotFoundError);
        [apply aok_ret|apply aok_raise].
Qed.

Lemma leetcode_one_at_a_time client fuel :
  one_at_a_time (LeetCode.process_one client fuel).
Proof.
  intros results i. unfold LeetCode.process_one.
  apply aok_try.
  - apply aok_bind_keeps.
    { unfold LeetCode.has_no_key. keeps. }
    intros missing. destruct missing; [apply aok_ret|].
    apply aok_store.
    + apply leetcode_get_keeps.
    + apply keeps_sleep.
    + intros w r w' [= <- _]. reflexivity.
  - intros e. destruct (isinstance e RateLimitError).
    + apply aok_bind_keeps; [apply keeps_sleep|]. intros _.
      apply aok_try.
      * apply aok_store_now. apply keeps_retry_wrapper, leetcode_get_keeps.
      * intros e'. destruct (isinstance e' RateLimitError); [apply aok_ret|].
        destruct (isinstance e' ScraperError || isinstance e' UserNotFoundError);
          [apply aok_ret|apply aok_raise].
    + destruct (isinstance e ScraperError || isinstance e UserNotFoundError);
        [apply aok_ret|apply aok_raise].
Qed.

(** A loop whose iterations go one participant at a time leaves every
    participant it did not append as it found it. *)
Lemma for_each_skipped_untouched body :
  one_at_a_time body ->
  forall participants results w results' w',
    for_each body participants results w = (Ret results', w') ->
    exists appended,
      results' = results ++ appended
      /\ forall j, j ∉ appended -> objs w' !! j = objs w !! j.
Proof.
  intros Hbody participants.
  induction participants as [|i rest IH]; intros results w results' w'.
  - intros [= <- <-]. exists []. rewrite app_nil_r. auto.
  - cbn [for_each]. unfold mbind, M_bind.
    destruct (body results i w) as [[results1|e|] w1] eqn:E; try discriminate.
    intros Hrest. destruct (IH _ _ _ _ Hrest) as (ext & -> & Hext).
    destruct (Hbody _ _ _ _ _ E) as [[Hr Ho]|[Ho Hr]].
    + injection Hr as ->. exists (i :: ext).
      split; [rewrite <- app_assoc; reflexivity|].
      intros j Hj. rewrite Hext, Ho.
      * reflexivity.
      * intros ->. apply Hj. left.
      * intros Hin. apply Hj. right. exact Hin.
    + rewrite (Hr _ eq_refl). exists ext. split; [reflexivity|].
      intros j Hj. rewrite Hext by exact Hj. rewrite Ho. reflexivity.
Qed.

Lemma codeforces_loop_for_each client fuel participants :
  forall results w,
    Codeforces.process_loop client fuel participants results w
    = for_each (Codeforces.process_one client fuel) participants results w.
Proof.
  induction participants as [|i rest IH]; intros results w; [reflexivity|].
  cbn [Codeforces.process_loop for_each]. unfold mbind, M_bind.
  destruct (Codeforces.process_one client fuel results i w) as [[r|e|] w1];
    [apply IH|reflexivity|reflexivity].
Qed.

Lemma leetcode_loop_for_each client fuel participants :
  forall results w,
    LeetCode.process_loop client fuel participants results w
    = for_each (LeetCode.process_one client fuel) participants results w.
Proof.
  induction participants as [|i rest IH]; intros results w; [reflexivity|].
  cbn [LeetCode.process_loop for_each]. unfold mbind, M_bind.
  destruct (LeetCode.process_one client fuel results i w) as [[r|e|] w1];
    [apply IH|reflexivity|reflexivity].
Qed.

(** On LeetCode, where participants do get skipped, a skipped participant
    keeps the status it had. *)
Lemma leetcode_skipped_untouched client fuel participants w results w' :
  LeetCode.process_batch client fuel participants w = (Ret results, w') ->
  forall j, j ∉ results -> objs w' !! j = objs w !! j.
Proof.
  unfold LeetCode.process_batch. rewrite leetcode_loop_for_each. intros H.
  destruct (for_each_skipped_untouched _ (leetcode_one_at_a_time client fuel)
              _ _ _ _ _ H) as (ext & -> & Hext).
  exact Hext.
Qed.

Lemma codeforces_process_one_ret (client : client_behaviour) fuel results i w
    result w1 :
  Codeforces.get_participant_data client fuel i w = (Ret result, w1) ->
  Codeforces.process_one client fuel results i w
  = (Ret (results ++ [i]),
     mkWorld (alter (with_status Codeforces.KEY result) i (objs w1))
             (clock w1) (sleeps w1) (requests w1) (S (closes w1))).
Proof.
  intros H. unfold Codeforces.process_one, try_finally.
  erewrite try_ret by (erewrite bind_ret by exact H; reflexivity).
  reflexivity.
Qed.

Lemma codeforces_batch_of_one (client : client_behaviour) fuel i w result w1 :
  Codeforces.get_participant_data client fuel i w = (Ret result, w1) ->
  Codeforces.process_batch client fuel [i] w
  = (Ret [i],
     mkWorld (alter (with_status Codeforces.KEY result) i (objs w1))
             (clock w1) (sleeps w1) (requests w1) (S (closes w1))).
Proof.
  intros H. unfold Codeforces.process_batch. cbn [Codeforces.process_loop].
  erewrite bind_ret by (eapply codeforces_process_one_ret; exact H).
  reflexivity.
Qed.

Lemma codeforces_get_unusable (client : client_behaviour) fuel i w p st :
  (0 < fuel)%nat ->
  objs w !! i = Some p ->
  dict_get Codeforces.KEY (platforms p) = Some (Some st) ->
  unusable (handle st) = true ->
  Codeforces.get_participant_data client fuel i w
  = (Ret (not_found_status (handle st) (clock w)), w).
Proof.
  intros Hfuel Hp Hst Hun. destruct fuel as [|fuel]; [lia|].
  cbn [Codeforces.get_participant_data].
  erewrite bind_ret by (eapply platform_handle_ok; eauto).
  destruct (falsy_handle (handle st) || handle_is (handle st) "#n/a") eqn:Hf.
  - reflexivity.
  - erewrite try_ret; [reflexivity|].
    unfold Codeforces.get_single_user_info.
    unfold unusable in Hun. rewrite Hun.
    erewrite bind_ret by reflexivity. reflexivity.
Qed.

Lemma codeforces_single_user_nothing (client : client_behaviour) w u :
  unusable (Some u) = false ->
  says_nothing (client (length (requests w)) u) = true ->
  Codeforces.get_single_user_info client (Some u) w
  = (Ret JNull,
     mkWorld (objs w) (clock w) (sleeps w) (requests w ++ [u]) (closes w)).
Proof.
  intros Hus Hnothing. unfold Codeforces.get_single_user_info.
  unfold unusable in Hus. rewrite Hus. change (default "" (Some u)) with u.
  unfold try_except, call_client. unfold mbind at 1. unfold M_bind at 1.
  destruct (client (length (requests w)) u) as [j|e|];
    unfold says_nothing in Hnothing.
  - unfold Codeforces.first_result. rewrite Hnothing. reflexivity.
  - rewrite Hnothing, orb_true_r. reflexivity.
  - discriminate.
Qed.

Lemma codeforces_get_nothing (client : client_behaviour) fuel i w p st u :
  (0 < fuel)%nat ->
  objs w !! i = Some p ->
  dict_get Codeforces.KEY (platforms p) = Some (Some st) ->
  handle st = Some u ->
  unusable (Some u) = false ->
  says_nothing (client (length (requests w)) u) = true ->
  Codeforces.get_participant_data client fuel i w
  = (Ret (not_found_status (Some u) (clock w)),
     mkWorld (objs w) (clock w) (sleeps w) (requests w ++ [u]) (closes w)).
Proof.
  intros Hfuel Hp Hst Hu Hus Hnothing. destruct fuel as [|fuel]; [lia|].
  cbn [Codeforces.get_participant_data].
  erewrite bind_ret by (eapply platform_handle_ok; eauto).
  rewrite Hu.
  assert (Hf : falsy_handle (Some u) || handle_is (Some u) "#n/a" = false).
  { unfold unusable in Hus. apply orb_false_iff in Hus as [Hus _]. exact Hus. }
  rewrite Hf.
  erewrite try_ret; [reflexivity|].
  erewrite bind_ret by (apply codeforces_single_user_nothing; assumption).
  reflexivity.
Qed.

Lemma codeforces_get_found (client : client_behaviour) fuel i w p st u
    field fields more :
  (0 < fuel)%nat ->
  objs w !! i = Some p ->
  dict_get Codeforces.KEY (platforms p) = Some (Some st) ->
  handle st = Some u ->
  unusable (Some u) = false ->
  client (length (requests w)) u = Ret (JArr (JObj (field :: fields) :: more)) ->
  Codeforces.get_participant_data client fuel i w
  = (Ret (mkStatus (Some u)
            (as_rating (default (JNum 0) (dict_get "rating" (field :: fields))))
            true (clock w) (JObj (field :: fields))),
     mkWorld (objs w) (clock w) (sleeps w) (requests w ++ [u]) (closes w)).
Proof.
  intros Hfuel Hp Hst Hu Hus Hanswer. destruct fuel as [|fuel]; [lia|].
  cbn [Codeforces.get_participant_data].
  erewrite bind_ret by (eapply platform_handle_ok; eauto).
  rewrite Hu.
  assert (Hf : falsy_handle (Some u) || handle_is (Some u) "#n/a" = false).
  { unfold unusable in Hus. apply orb_false_iff in Hus as [Hus _]. exact Hus. }
  rewrite Hf.
  erewrite try_ret; [reflexivity|].
  erewrite bind_ret.
  2:{ unfold Codeforces.get_single_user_info.
      unfold unusable in Hus. rewrite Hus. change (default "" (Some u)) with u.
      erewrite try_ret; [reflexivity|].
      erewrite bind_ret by (unfold call_client; rewrite Hanswer; reflexivity).
      reflexivity. }
  reflexivity.
Qed.

(** ** The dispatcher *)

(** [gather] with [return_exceptions=True] never raises: an exception of a
    task is a value in the result list. *)
Lemma gather_never_raises {W A} (aws : list (M W A)) :
  forall w e w', gather aws w <> (Raise e, w').
Proof.
  induction aws as [|aw rest IH]; intros w e w'; [discriminate|].
  cbn [gather]. unfold settle, try_except, mbind, M_bind, mret, M_ret.
  destruct (aw w) as [[a|e0|] w1]; try discriminate.
  - destruct (gather rest w1) as [[rs|e1|] w2] eqn:E; try discriminate.
    exfalso. eapply IH; eauto.
  - destruct (gather rest w1) as [[rs|e1|] w2] eqn:E; try discriminate.
    exfalso. eapply IH; eauto.
Qed.

(** Every task is run and has its entry in the result, whatever the tasks
    before it did. *)
Lemma gather_length {W A} (aws : list (M W A)) :
  forall w rs w', gather aws w = (Ret rs, w') -> length rs = length aws.
Proof.
  induction aws as [|aw rest IH]; intros w rs w'.
  - intros [= <- _]. reflexivity.
  - cbn [gather]. unfold settle, try_except, mbind, M_bind, mret, M_ret.
    destruct (aw w) as [[a|e0|] w1]; try discriminate;
      (destruct (gather rest w1) as [[rs1|e1|] w2] eqn:E; try discriminate;
       intros [= <- _]; cbn [length]; f_equal; eapply IH; eauto).
Qed.

Lemma update_participants_up (ps : list Participant) :
  forall db,
    participant_db_up db = true ->
    update_participants ps db
    = (Ret tt, mkParticipantDb (upsert_all ps (documents db)) true).
Proof.
  induction ps as [|p ps IH]; intros db Hup.
  - destruct db as [docs up]. cbn in *. subst. reflexivity.
  - cbn [update_participants]. unfold mbind, M_bind, update_participant.
    rewrite Hup. rewrite IH by reflexivity. reflexivity.
Qed.

Lemma deref_all_valid (refs : list nat) (d : Dispatch) :
  refs_valid (heap d) refs ->
  deref_all refs d = (Ret (objects (heap d) refs), d).
Proof.
  induction refs as [|i rest IH]; intros Hvalid; [reflexivity|].
  apply Forall_cons in Hvalid as [[p Hp] Hrest].
  cbn [deref_all]. unfold mbind, M_bind, get. rewrite Hp.
  rewrite (IH Hrest). unfold objects. cbn [omap list_omap]. rewrite Hp.
  reflexivity.
Qed.

Lemma objects_app h refs1 refs2 :
  objects h (refs1 ++ refs2) = objects h refs1 ++ objects h refs2.
Proof. apply omap_app. Qed.

Lemma upsert_all_app ps1 ps2 docs :
  upsert_all (ps1 ++ ps2) docs = upsert_all ps2 (upsert_all ps1 docs).
Proof. apply fold_left_app. Qed.

Lemma persist_results_merges (results : list (string * (exn + list nat))) :
  forall d,
    participant_db_up (store d) = true ->
    refs_valid (heap d) (merged (map snd results)) ->
    persist_results results d
    = (Ret tt,
       mkDispatch (heap d)
         (mkParticipantDb
            (upsert_all (objects (heap d) (merged (map snd results)))
                        (documents (store d)))
            true)).
Proof.
  induction results as [|[platform [e|refs]] rest IH]; intros d Hup Hvalid.
  - destruct d as [h [docs up]]. cbn in *. subst. reflexivity.
  - cbn [persist_results]. apply IH; assumption.
  - cbn [persist_results map snd merged flat_map] in *.
    apply Forall_app in Hvalid as [Hrefs Hrest].
    erewrite bind_ret by (apply deref_all_valid; exact Hrefs).
    erewrite bind_ret.
    2:{ unfold on_store. rewrite update_participants_up by exact Hup.
        reflexivity. }
    rewrite IH
      by (cbn [heap store participant_db_up];
          first [reflexivity | exact Hrest]).
    cbn [heap store documents].
    rewrite objects_app, upsert_all_app. reflexivity.
Qed.

(** When the store answers and every task settles, [process_results]
    returns normally whatever the tasks raised; the store then holds,
    upserted in order, the participants of every platform whose task
    returned a list, as they are after all the tasks ran, and the list of a
    platform whose task raised is not there to be written. *)
Lemma process_results_isolates_failures
    (tasks : dict task) (d : Dispatch)
    (results : list (exn + list nat)) (h : list Participant)
    (Hup : participant_db_up (store d) = true)
    (Hsettled : gather (dict_values tasks) (heap d) = (Ret results, h))
    (Hvalid : refs_valid h (merged results)) :
  process_results tasks d
  = (Ret tt,
     mkDispatch h
       (mkParticipantDb
          (upsert_all (objects h (merged results)) (documents (store d)))
          true))
  /\ length results = length tasks
  /\ forall e d', process_results tasks d <> (Raise e, d').
Proof.
  pose proof (gather_length _ _ _ _ Hsettled) as Hlen.
  unfold dict_values in Hlen. rewrite length_map in Hlen.
  assert (Hrun :
    process_results tasks d
    = (Ret tt,
       mkDispatch h
         (mkParticipantDb
            (upsert_all (objects h (merged results)) (documents (store d)))
            true))).
  { destruct tasks as [|t tasks'].
    - cbn in Hsettled. injection Hsettled as <- <-.
      destruct d as [h0 [docs up]]. cbn in *. subst. reflexivity.
    - unfold process_results.
      erewrite bind_ret by (unfold on_heap; rewrite Hsettled; reflexivity).
      rewrite persist_results_merges.
      + rewrite snd_zip by (rewrite length_map; lia). reflexivity.
      + exact Hup.
      + rewrite snd_zip by (rewrite length_map; lia). exact Hvalid. }
  split; [exact Hrun|]. split; [exact Hlen|].
  intros e d'. rewrite Hrun. discriminate.
Qed.

(** LeetCode, CodeChef and Codeforces dispatched over Alice and Bob, with a
    CodeChef client that always raises [ScraperError]: the dispatch returns,
    the documents of both carry the new LeetCode and Codeforces statuses, and
    their CodeChef status is the one they had. *)
Lemma process_results_isolates_failures_example :
  fst (process_results three_platforms before_dispatch) = Ret tt
  /\ fst (gather (dict_values three_platforms) [alice; bob])
     = Ret [inr [0%nat; 1%nat]; inl (an ScraperError); inr [0%nat; 1%nat]]
  /\ stored_flags "21R01A0501" (snd (process_results three_platforms
                                                     before_dispatch))
     = Some [("CodeChef", Some false); ("Codeforces", Some true);
             ("LeetCode", Some true)]
  /\ stored_flags "21R01A0502" (snd (process_results three_platforms
                                                     before_dispatch))
     = Some [("CodeChef", Some false); ("Codeforces", Some true);
             ("LeetCode", Some true)].
Proof.
  set (h := snd (gather (dict_values three_platforms) [alice; bob])).
  assert (Hg : gather (dict_values three_platforms) (heap before_dispatch)
               = (Ret [inr [0%nat; 1%nat]; inl (an ScraperError);
                       inr [0%nat; 1%nat]], h))
    by (vm_compute; reflexivity).
  assert (Hvalid : refs_valid h (merged [inr [0%nat; 1%nat];
                                         inl (an ScraperError);
                                         inr [0%nat; 1%nat]]))
    by (repeat constructor; eexists; vm_compute; reflexivity).
  destruct (process_results_isolates_failures three_platforms before_dispatch
              _ h eq_refl Hg Hvalid) as (Hrun & _ & _).
  rewrite Hrun. cbn [fst snd].
  split; [reflexivity|]. split; [vm_compute; reflexivity|].
  split; vm_compute; reflexivity.
Qed.

(** What is omitted for a platform that raised is its result list.  The
    participant objects are shared: a status that the failing orchestrator
    had already written in place before it raised is part of the object,
    and reaches the store with the result of another platform.  Here
    CodeChef updates Alice, then raises on Bob; LeetCode returns both. *)
Lemma in_place_updates_of_a_failed_platform_are_stored :
  fst (gather (dict_values codechef_fails_midway) [alice; bob])
  = Ret [inr [0%nat; 1%nat]; inl (an ScraperError)]
  /\ stored_flags "21R01A0501" (snd (process_results codechef_fails_midway
                                                     before_dispatch))
     = Some [("CodeChef", Some true); ("Codeforces", Some false);
             ("LeetCode", Some true)]
  /\ stored_flags "21R01A0502" (snd (process_results codechef_fails_midway
                                                     before_dispatch))
     = Some [("CodeChef", Some false); ("Codeforces", Some false);
             ("LeetCode", Some true)].
Proof. repeat split; vm_compute; reflexivity. Qed.

Lemma upsert_matches_key coll (doc : ParticipantDoc) d :
  String.eqb (fst d) coll
  && String.eqb (doc_hallTicketNo (snd d)) (doc_hallTicketNo doc) = true
  <-> participant_key d = participant_key (coll, doc).
Proof.
  unfold participant_key. cbn [fst snd].
  rewrite andb_true_iff, !String.eqb_eq.
  split; [intros [-> ->]; reflexivity|intros H; injection H; auto].
Qed.

Lemma upsert_participant_In coll doc docs d :
  In d (upsert_participant coll doc docs) -> d = (coll, doc) \/ In d docs.
Proof.
  induction docs as [|[c q] docs IH]; cbn [upsert_participant In].
  - intros [<-|[]]. left; reflexivity.
  - destruct (String.eqb c coll
              && String.eqb (doc_hallTicketNo q) (doc_hallTicketNo doc))
      eqn:Hm; cbn [In].
    + apply andb_prop in Hm as [Hc _]. apply String.eqb_eq in Hc. subst c.
      intros [<-|H]; auto.
    + intros [<-|H]; auto. destruct (IH H); auto.
Qed.

Lemma upsert_participant_NoDup coll doc docs :
  List.NoDup (map participant_key docs) ->
  List.NoDup (map participant_key (upsert_participant coll doc docs)).
Proof.
  induction docs as [|[c q] docs IH]; cbn [upsert_participant map]; intros Hnd.
  - constructor; [intros []|constructor].
  - apply List.NoDup_cons_iff in Hnd as [Hnotin Hnd].
    destruct (String.eqb c coll
              && String.eqb (doc_hallTicketNo q) (doc_hallTicketNo doc))
      eqn:Hm; cbn [map]; apply List.NoDup_cons_iff.
    + apply (upsert_matches_key coll doc (c, q)) in Hm.
      change (participant_key (c, doc)) with (c, doc_hallTicketNo doc).
      unfold participant_key in Hm. cbn [fst snd] in Hm.
      injection Hm as _ Hh. rewrite <- Hh. split; assumption.
    + split; [|exact (IH Hnd)].
      intros Hin. apply in_map_iff in Hin as (d & Hkey & Hin).
      apply upsert_participant_In in Hin as [->|Hin].
      * symmetry in Hkey.
        apply (upsert_matches_key coll doc (c, q)) in Hkey.
        cbn [fst snd] in Hkey. congruence.
      * apply Hnotin. rewrite <- Hkey. apply in_map. exact Hin.
Qed.

Lemma upsert_participant_has coll doc docs :
  In (coll, doc) (upsert_participant coll doc docs).
Proof.
  induction docs as [|[c q] docs IH]; cbn [upsert_participant].
  - left; reflexivity.
  - destruct (String.eqb c coll
              && String.eqb (doc_hallTicketNo q) (doc_hallTicketNo doc))
      eqn:Hm; [|right; exact IH].
    apply andb_prop in Hm as [Hc _]. apply String.eqb_eq in Hc. subst c.
    left; reflexivity.
Qed.

Lemma upsert_participant_keeps coll doc docs d :
  In d docs ->
  participant_key d <> participant_key (coll, doc) ->
  In d (upsert_participant coll doc docs).
Proof.
  intros Hin Hne. induction docs as [|[c q] docs IH]; [destruct Hin|].
  cbn [upsert_participant].
  destruct (String.eqb c coll
            && String.eqb (doc_hallTicketNo q) (doc_hallTicketNo doc)) eqn:Hm.
  - destruct Hin as [<-|Hin]; [|right; exact Hin].
    apply (upsert_matches_key coll doc (c, q)) in Hm. contradiction.
  - destruct Hin as [<-|Hin]; [left; reflexivity|right; exact (IH Hin)].
Qed.

Lemma upsert_all_stores (p : Participant) (ps : list Participant) :
  forall docs,
    (forall q, In q ps ->
       participant_key (document_of q) = participant_key (document_of p) ->
       document_of q = document_of p) ->
    In (document_of p) docs \/ In p ps ->
    In (document_of p) (upsert_all ps docs).
Proof.
  induction ps as [|q ps IH]; intros docs Hsame Hin.
  - destruct Hin as [Hin|[]]. exact Hin.
  - unfold upsert_all. cbn [fold_left]. apply IH.
    + intros q' Hq'. apply Hsame. right. exact Hq'.
    + destruct (decide (participant_key (document_of q)
                        = participant_key (document_of p))) as [Hk|Hk].
      * left. rewrite <- (Hsame q (or_introl eq_refl) Hk).
        apply upsert_participant_has.
      * destruct Hin as [Hin|[->|Hin]].
        -- left. apply upsert_participant_keeps; [exact Hin|].
           intros Heq. apply Hk. symmetry. exact Heq.
        -- contradiction.
        -- right. exact Hin.
Qed.

(** C9, where the code departs from it.  The participant objects are
    shared by the tasks and mutated in place; [process_results] reads them
    only after every task has ended and writes, for each platform that
    returned a list, the objects of that list as they are then.  So what a
    task had written into an object before it raised is stored as soon as
    another platform returns that object: the results of a failing
    platform are not left out of what is persisted, only its list is.
    [h] is the state of the objects after all the tasks, the failed ones
    included. *)
Theorem updates_of_a_failed_platform_are_stored
    (tasks : dict task) (d : Dispatch)
    (results : list (exn + list nat)) (h : list Participant)
    (Hup : participant_db_up (store d) = true)
    (Hsettled : gather (dict_values tasks) (heap d) = (Ret results, h))
    (Hvalid : refs_valid h (merged results))
    (Hkeys : one_document_per_key (objects h (merged results))) :
  exists d',
    process_results tasks d = (Ret tt, d')
    /\ heap d' = h
    /\ forall i p,
         i ∈ merged results -> h !! i = Some p ->
         In (document_of p) (documents (store d')).
Proof.
  assert (Hlen : length results = length tasks).
  { pose proof (gather_length _ _ _ _ Hsettled) as Hlen.
    unfold dict_values in Hlen. rewrite length_map in Hlen. exact Hlen. }
  exists (mkDispatch h
            (mkParticipantDb
               (upsert_all (objects h (merged results)) (documents (store d)))
               true)).
  split; [|split].
  - destruct tasks as [|t tasks'].
    + cbn in Hsettled. injection Hsettled as <- <-.
      destruct d as [h0 [docs up]]. cbn in *. subst. reflexivity.
    + unfold process_results.
      erewrite bind_ret by (unfold on_heap; rewrite Hsettled; reflexivity).
      rewrite persist_results_merges.
      * rewrite snd_zip by (rewrite length_map; lia). reflexivity.
      * exact Hup.
      * rewrite snd_zip by (rewrite length_map; lia). exact Hvalid.
  - reflexivity.
  - intros i p Hi Hp. cbn [store documents].
    apply upsert_all_stores.
    + intros q Hq. apply Hkeys; [exact Hq|].
      unfold objects. apply list_elem_of_In, list_elem_of_omap.
      exists i. split; [exact Hi|exact Hp].
    + right. unfold objects. apply list_elem_of_In, list_elem_of_omap.
      exists i. split; [exact Hi|exact Hp].
Qed.

(** LeetCode and CodeChef dispatched over Alice and Bob, who have never
    been fetched.  LeetCode returns both; CodeChef rates Alice 1500, writes
    that into her object, then raises [ScraperError] on Bob.  The dispatch
    returns, and Alice's stored document carries the CodeChef rating of
    the platform that failed. *)
Lemma updates_of_a_failed_platform_are_stored_witness :
  exists d',
    process_results codechef_fails_midway before_dispatch = (Ret tt, d')
    /\ fst (gather (dict_values codechef_fails_midway) [alice; bob])
       = Ret [inr [0%nat; 1%nat]; inl (an ScraperError)]
    /\ stored_status "21R01A0501" "CodeChef" before_dispatch = None
    /\ stored_status "21R01A0501" "CodeChef" d'
       = Some (mkStatusDoc (Some "alice") (Some (inject_Z 1500)) true 0
                           (JObj []))
    /\ stored_status "21R01A0502" "CodeChef" d'
       = Some (mkStatusDoc (Some "bob") None false 0 (JObj [])).
Proof.
  set (h := snd (gather (dict_values codechef_fails_midway) [alice; bob])).
  assert (Hg : gather (dict_values codechef_fails_midway)
                      (heap before_dispatch)
               = (Ret [inr [0%nat; 1%nat]; inl (an ScraperError)], h))
    by (vm_compute; reflexivity).
  destruct (updates_of_a_failed_platform_are_stored codechef_fails_midway
              before_dispatch _ h eq_refl Hg) as (d' & Hrun & _ & _).
  - repeat constructor; eexists; vm_compute; reflexivity.
  - intros q q' Hq Hq' Hkey.
    vm_compute in Hq, Hq'.
    destruct Hq as [<-|[<-|[]]], Hq' as [<-|[<-|[]]];
      first [reflexivity | vm_compute in Hkey; discriminate Hkey].
  - exists d'. split; [exact Hrun|].
    split; [vm_compute; reflexivity|].
    split; [reflexivity|].
    assert (Hd' : d' = snd (process_results codechef_fails_midway
                                            before_dispatch))
      by (rewrite Hrun; reflexivity).
    rewrite Hd'. split; vm_compute; reflexivity.
Defined.

(** The order of the tasks makes no difference: with CodeChef first the
    store ends the same. *)
Lemma failed_platform_first_is_stored_too :
  fst (gather (dict_values codechef_fails_first) [alice; bob])
  = Ret [inl (an ScraperError); inr [0%nat; 1%nat]]
  /\ fst (process_results codechef_fails_first before_dispatch) = Ret tt
  /\ store (snd (process_results codechef_fails_first before_dispatch))
     = store (snd (process_results codechef_fails_midway before_dispatch)).
Proof. repeat split; vm_compute; reflexivity. Qed.

(** A store that is down is the one thing that makes the dispatch raise. *)
Lemma process_results_raises_when_store_is_down :
  fst (process_results three_platforms
         (mkDispatch [alice; bob] (mkParticipantDb [] false)))
  = Raise (an DatabaseError).
Proof. vm_compute. reflexivity. Qed.

(** * Further properties of the code *)

(** ** The governor in per-second mode, and the bypass *)

(** X1.  In per-second mode, with the bypass off and a positive rate [r],
    [_rate_limit] returns with the clock recorded as the new last slot, at
    least [1 / r] seconds after the previous one; when that much time has
    already passed it does not sleep at all. *)
Theorem rate_limit_spacing (overshoot : nat -> Q)
    (rate_limit_arg : option Z) (c : Client)
    (Hscheduler : forall n, (0 <= overshoot n)%Q)
    (Hbypass : bypass_rate_limit c = false)
    (Hrate : 0 < default (rate_limit c) rate_limit_arg) :
  exists c',
    _rate_limit overshoot rate_limit_arg c = (Ret tt, c')
    /\ last_request_time c' = now c'
    /\ (last_request_time c
        + 1 / inject_Z (default (rate_limit c) rate_limit_arg)
        <= last_request_time c')%Q
    /\ ((1 / inject_Z (default (rate_limit c) rate_limit_arg)
         <= now c - last_request_time c)%Q ->
        slept c' = slept c /\ now c' = now c).
Proof.
  destruct (govern_spacing overshoot 1 rate_limit_arg c
              Hscheduler Hbypass Hrate) as (c' & Hrun & Hlast & Hgap).
  exists c'. repeat split; try assumption;
    revert Hrun; unfold _rate_limit, govern; unfold_M; simpl;
    rewrite Hbypass;
    set (r := default (rate_limit c) rate_limit_arg) in *;
    (destruct (decide (r = 0)) as [->|_]; [lia|]); simpl;
    (destruct (Qlt_bool (now c - last_request_time c) (1 / inject_Z r))
       eqn:Hlt; simpl;
     [apply Qlt_bool_true in Hlt; lra|]);
    intros [= <-]; reflexivity.
Qed.

(** The LeetCode client a quarter of a second after its last slot: it is
    held until a full second has passed. *)
Lemma rate_limit_spacing_witness :
  exists c',
    _rate_limit a_millisecond_late None leetcode_client = (Ret tt, c')
    /\ last_request_time c' = now c'
    /\ (100 + 1 / inject_Z 1 <= last_request_time c')%Q.
Proof.
  destruct (rate_limit_spacing a_millisecond_late None leetcode_client)
    as (c' & Hrun & Hlast & Hgap & _).
  - intros n. unfold a_millisecond_late. lra.
  - reflexivity.
  - reflexivity.
  - exists c'. auto.
Defined.

(** ** The request executor: attempts and back-off *)

Lemma attempt_outcome_retried (t : transport) e :
  attempt_outcome t = Raise e ->
  retry_if_exception_type ClientError e = retried t.
Proof.
  destruct t as [r| |]; cbn [attempt_outcome retried].
  - destruct (400 <=? status r)%Z; [|discriminate].
    destruct (decide (status r = 429)); intros [= <-]; reflexivity.
  - intros [= <-]. reflexivity.
  - intros [= <-]. reflexivity.
Qed.

(** The state in which the next attempt starts, after tenacity's sleep. *)
Lemma attempts_last {A} (overshoot : nat -> Q) retry_on wait k
    (body : M Client A) c r c1 :
  body c = (r, c1) ->
  attempts (A:=A) overshoot retry_on wait 0 k body c
  = (match r with
     | Raise e => if retry_on e then Raise (an RetryError) else Raise e
     | _ => r
     end, c1).
Proof.
  intros H. cbn [attempts]. unfold try_except. rewrite H.
  destruct r as [a|e|]; try reflexivity.
  destruct (retry_on e); reflexivity.
Qed.

Lemma attempts_more {A} (overshoot : nat -> Q) retry_on wait remaining k
    (body : M Client A) c r c1 :
  body c = (r, c1) ->
  attempts overshoot retry_on wait (S remaining) k body c
  = match r with
    | Raise e =>
        if retry_on e then
          attempts overshoot retry_on wait remaining (S k) body
            (snd (sleep_for overshoot Backoff (inject_Z (wait k)) c1))
        else (Raise e, c1)
    | _ => (r, c1)
    end.
Proof.
  intros H. cbn [attempts]. unfold try_except. rewrite H.
  destruct r as [a|e|]; try reflexivity.
  destruct (retry_on e); reflexivity.
Qed.

Lemma backoffs_after_sleep (overshoot : nat -> Q) d c :
  backoffs (slept (snd (sleep_for overshoot Backoff d c)))
  = backoffs (slept c) ++ [d].
Proof. cbn. rewrite backoffs_app. reflexivity. Qed.

Lemma request_ends_after_one
    (server : nat -> transport) (overshoot : nat -> Q)
    (rate_limit_arg : option Z) (minute bypass : bool) (c : Client)
    (Hrate : rate_limit c <> 0)
    (Hfirst : retried (server (exchanges c)) = false) :
  exists c',
    request server overshoot rate_limit_arg minute bypass c
    = (attempt_outcome (server (exchanges c)), c')
    /\ exchanges c' = S (exchanges c)
    /\ backoffs (slept c') = backoffs (slept c).
Proof.
  destruct (request_once_outcome server overshoot rate_limit_arg minute bypass
              c Hrate) as (c1 & Hrun & Hex & Hb & _ & _).
  exists c1. split; [|auto].
  unfold request, retry. cbn [Nat.pred].
  rewrite (attempts_more _ _ _ _ _ _ _ _ _ Hrun).
  destruct (attempt_outcome (server (exchanges c))) as [a|e|] eqn:E;
    try reflexivity.
  rewrite (attempt_outcome_retried _ _ E), Hfirst. reflexivity.
Qed.

(** X2.  Unless the exchange fails without a status, [request] is over
    after that one exchange: a response with a status below 400 is handed
    to the caller as it came, a time-out is raised as it is, and tenacity
    does not sleep. *)
Theorem request_single_attempt
    (server : nat -> transport) (overshoot : nat -> Q)
    (rate_limit_arg : option Z) (minute bypass : bool) (c : Client)
    (Hrate : rate_limit c <> 0)
    (Hfirst : retried (server (exchanges c)) = false) :
  exists c',
    request server overshoot rate_limit_arg minute bypass c
    = (attempt_outcome (server (exchanges c)), c')
    /\ exchanges c' = S (exchanges c)
    /\ backoffs (slept c') = backoffs (slept c).
Proof.
  exact (request_ends_after_one server overshoot rate_limit_arg minute bypass
           c Hrate Hfirst).
Qed.

(** A 200 is returned untouched; a time-out is not retried. *)
Lemma request_single_attempt_witness :
  (exists c',
     request always_ok punctual None false false (fresh_client 2)
     = (Ret hello, c')
     /\ exchanges c' = 1%nat /\ backoffs (slept c') = [])
  /\ (exists c',
        request (fun _ => TimedOut) punctual None false false (fresh_client 2)
        = (Raise (an TimeoutError), c')
        /\ exchanges c' = 1%nat /\ backoffs (slept c') = []).
Proof.
  split.
  - apply (request_single_attempt always_ok punctual None false false
             (fresh_client 2)); [discriminate|reflexivity].
  - apply (request_single_attempt (fun _ => TimedOut) punctual None false false
             (fresh_client 2)); [discriminate|reflexivity].
Defined.

Lemma request_ends_after_two
    (server : nat -> transport) (overshoot : nat -> Q)
    (rate_limit_arg : option Z) (minute bypass : bool) (c : Client)
    (Hrate : rate_limit c <> 0)
    (Hfirst : server (exchanges c) = ConnectionFailed)
    (Hsecond : retried (server (S (exchanges c))) = false) :
  exists c',
    request server overshoot rate_limit_arg minute bypass c
    = (attempt_outcome (server (S (exchanges c))), c')
    /\ exchanges c' = S (S (exchanges c))
    /\ backoffs (slept c') = backoffs (slept c) ++ [4%Q].
Proof.
  destruct (request_once_outcome server overshoot rate_limit_arg minute bypass
              c Hrate) as (c1 & Hrun1 & Hex1 & Hb1 & _ & Hr1).
  set (c1' := snd (sleep_for overshoot Backoff
                     (inject_Z (wait_exponential 1 4 10 1)) c1)).
  assert (Hr1' : rate_limit c1' <> 0) by exact Hr1.
  destruct (request_once_outcome server overshoot rate_limit_arg minute bypass
              c1' Hr1') as (c2 & Hrun2 & Hex2 & Hb2 & _ & _).
  assert (Hex1' : exchanges c1' = S (exchanges c)) by exact Hex1.
  rewrite Hex1' in Hrun2, Hex2.
  exists c2. split; [|split].
  - unfold request, retry. cbn [Nat.pred].
    rewrite (attempts_more _ _ _ _ _ _ _ _ _ Hrun1), Hfirst.
    cbn [attempt_outcome]. change (retry_if_exception_type ClientError
                                     (an ClientError)) with true.
    cbv iota. fold c1'.
    rewrite (attempts_more _ _ _ _ _ _ _ _ _ Hrun2).
    destruct (attempt_outcome (server (S (exchanges c)))) as [a|e|] eqn:E;
      try reflexivity.
    rewrite (attempt_outcome_retried _ _ E), Hsecond. reflexivity.
  - exact Hex2.
  - rewrite Hb2. unfold c1'. rewrite backoffs_after_sleep, Hb1. reflexivity.
Qed.

(** X3.  A connection that fails once is tried again after a back-off of
    4 s, and the second exchange decides the outcome. *)
Theorem request_recovers_after_one_failure
    (server : nat -> transport) (overshoot : nat -> Q)
    (rate_limit_arg : option Z) (minute bypass : bool) (c : Client)
    (Hrate : rate_limit c <> 0)
    (Hfirst : server (exchanges c) = ConnectionFailed)
    (Hsecond : retried (server (S (exchanges c))) = false) :
  exists c',
    request server overshoot rate_limit_arg minute bypass c
    = (attempt_outcome (server (S (exchanges c))), c')
    /\ exchanges c' = S (S (exchanges c))
    /\ backoffs (slept c') = backoffs (slept c) ++ [4%Q].
Proof.
  exact (request_ends_after_two server overshoot rate_limit_arg minute bypass
           c Hrate Hfirst Hsecond).
Qed.

(** One dropped connection, then a 200. *)
Lemma request_recovers_after_one_failure_witness :
  exists c',
    request flaky_once punctual None false false (fresh_client 2)
    = (Ret hello, c')
    /\ exchanges c' = 2%nat
    /\ backoffs (slept c') = [4%Q].
Proof.
  apply (request_recovers_after_one_failure flaky_once punctual None false
           false (fresh_client 2)); [discriminate|reflexivity|reflexivity].
Defined.

Lemma request_ends_after_three
    (server : nat -> transport) (overshoot : nat -> Q)
    (rate_limit_arg : option Z) (minute bypass : bool) (c : Client) :
  rate_limit c <> 0 ->
  server (exchanges c) = ConnectionFailed ->
  server (S (exchanges c)) = ConnectionFailed ->
  exists c',
    request server overshoot rate_limit_arg minute bypass c
    = (match attempt_outcome (server (S (S (exchanges c)))) with
       | Raise e => if retry_if_exception_type ClientError e
                    then Raise (an RetryError) else Raise e
       | r => r
       end, c')
    /\ exchanges c' = S (S (S (exchanges c)))
    /\ backoffs (slept c') = backoffs (slept c) ++ [4%Q; 4%Q].
Proof.
  intros Hrate H1 H2.
  destruct (request_once_outcome server overshoot rate_limit_arg minute bypass
              c Hrate) as (c1 & Hrun1 & Hex1 & Hb1 & _ & Hr1).
  set (c1' := snd (sleep_for overshoot Backoff
                     (inject_Z (wait_exponential 1 4 10 1)) c1)).
  assert (Hr1' : rate_limit c1' <> 0) by exact Hr1.
  destruct (request_once_outcome server overshoot rate_limit_arg minute bypass
              c1' Hr1') as (c2 & Hrun2 & Hex2 & Hb2 & _ & Hr2).
  set (c2' := snd (sleep_for overshoot Backoff
                     (inject_Z (wait_exponential 1 4 10 2)) c2)).
  assert (Hr2' : rate_limit c2' <> 0) by exact Hr2.
  destruct (request_once_outcome server overshoot rate_limit_arg minute bypass
              c2' Hr2') as (c3 & Hrun3 & Hex3 & Hb3 & _ & _).
  assert (Hex1' : exchanges c1' = S (exchanges c)) by exact Hex1.
  rewrite Hex1' in Hrun2, Hex2.
  assert (Hex2' : exchanges c2' = S (S (exchanges c))) by exact Hex2.
  rewrite Hex2' in Hrun3, Hex3.
  exists c3. split; [|split].
  - unfold request, retry. cbn [Nat.pred].
    rewrite (attempts_more _ _ _ _ _ _ _ _ _ Hrun1), H1.
    cbn [attempt_outcome]. change (retry_if_exception_type ClientError
                                     (an ClientError)) with true.
    cbv iota. fold c1'.
    rewrite (attempts_more _ _ _ _ _ _ _ _ _ Hrun2), H2.
    cbn [attempt_outcome]. change (retry_if_exception_type ClientError
                                     (an ClientError)) with true.
    cbv iota. fold c2'.
    rewrite (attempts_last _ _ _ _ _ _ _ _ Hrun3).
    destruct (attempt_outcome (server (S (S (exchanges c))))); reflexivity.
  - exact Hex3.
  - rewrite Hb3. unfold c2'. rewrite backoffs_after_sleep, Hb2.
    unfold c1'. rewrite backoffs_after_sleep, Hb1.
    rewrite <- app_assoc. reflexivity.
Qed.

(** X4.  Whatever the upstream does, a call of [request] on a client whose
    rate is not zero comes back after one, two or three exchanges; tenacity
    sleeps 4 s before each exchange but the first; and what the caller gets
    is never an [aiohttp.ClientError]: three failures in a row surface as
    [RetryError]. *)
Theorem request_makes_at_most_three_attempts
    (server : nat -> transport) (overshoot : nat -> Q)
    (rate_limit_arg : option Z) (minute bypass : bool) (c : Client)
    (Hrate : rate_limit c <> 0) :
  exists r c' k,
    request server overshoot rate_limit_arg minute bypass c = (r, c')
    /\ (k <= 2)%nat
    /\ exchanges c' = (exchanges c + S k)%nat
    /\ backoffs (slept c') = backoffs (slept c) ++ replicate k 4%Q
    /\ r <> Diverge
    /\ forall e, r = Raise e -> isinstance e ClientError = false.
Proof.
  assert (Hout : forall t r,
            (r = attempt_outcome t /\ retried t = false
             \/ r = match attempt_outcome t with
                    | Raise e => if retry_if_exception_type ClientError e
                                 then Raise (an RetryError) else Raise e
                    | r => r
                    end) ->
            r <> Diverge
            /\ forall e, r = Raise e -> isinstance e ClientError = false).
  { intros t r [[-> Ht] | ->]; destruct t as [resp| |]; cbn [attempt_outcome];
      try discriminate Ht;
      try (destruct (400 <=? status resp)%Z;
           [destruct (decide (status resp = 429))|]);
      (split; [discriminate|intros x Hx; try discriminate Hx;
                            injection Hx as <-; reflexivity]). }
  destruct (retried (server (exchanges c))) eqn:H1.
  - destruct (server (exchanges c)) eqn:E1; try discriminate H1.
    destruct (retried (server (S (exchanges c)))) eqn:H2.
    + destruct (server (S (exchanges c))) eqn:E2; try discriminate H2.
      destruct (request_ends_after_three server overshoot rate_limit_arg
                  minute bypass c Hrate E1 E2) as (c' & Hrun & Hex & Hb).
      eexists _, c', 2%nat. split; [exact Hrun|].
      split; [lia|]. split; [rewrite Hex; lia|]. split; [exact Hb|].
      apply (Hout (server (S (S (exchanges c))))). right. reflexivity.
    + destruct (request_ends_after_two server overshoot rate_limit_arg
                  minute bypass c Hrate E1 H2) as (c' & Hrun & Hex & Hb).
      eexists _, c', 1%nat. split; [exact Hrun|].
      split; [lia|]. split; [rewrite Hex; lia|]. split; [exact Hb|].
      apply (Hout (server (S (exchanges c)))). left. auto.
  - destruct (request_ends_after_one server overshoot rate_limit_arg
                minute bypass c Hrate H1) as (c' & Hrun & Hex & Hb).
    eexists _, c', 0%nat. split; [exact Hrun|].
    split; [lia|]. split; [rewrite Hex; lia|].
    split; [rewrite Hb, app_nil_r; reflexivity|].
    apply (Hout (server (exchanges c))). left. auto.
Qed.

(** An upstream that cannot be reached: three exchanges, two back-offs. *)
Lemma request_makes_at_most_three_attempts_witness :
  exists r c' k,
    request unreachable punctual None false false (fresh_client 2) = (r, c')
    /\ (k <= 2)%nat
    /\ exchanges c' = (0 + S k)%nat
    /\ backoffs (slept c') = [] ++ replicate k 4%Q
    /\ r <> Diverge
    /\ forall e, r = Raise e -> isinstance e ClientError = false.
Proof.
  apply (request_makes_at_most_three_attempts unreachable punctual None false
           false (fresh_client 2)).
  discriminate.
Defined.

(** ** The overrides of [request] stay on the client *)

Lemma attempts_ends_with_body {A} (P : Client -> Prop) (overshoot : nat -> Q)
    retry_on wait (body : M Client A) :
  (forall c r c', body c = (r, c') -> P c') ->
  forall remaining k c r c',
    attempts overshoot retry_on wait remaining k body c = (r, c') -> P c'.
Proof.
  intros Hbody remaining.
  induction remaining as [|remaining IH]; intros k c r c';
    destruct (body c) as [r1 c1] eqn:E.
  - rewrite (attempts_last _ _ _ _ _ _ _ _ E). intros [= _ <-].
    eapply Hbody; eauto.
  - rewrite (attempts_more _ _ _ _ _ _ _ _ _ E).
    destruct r1 as [a|e|]; try (intros [= _ <-]; eapply Hbody; eauto).
    destruct (retry_on e); [apply IH|intros [= _ <-]; eapply Hbody; eauto].
Qed.

Lemma attempts_invariant {A} (P : Client -> Prop) (overshoot : nat -> Q)
    retry_on wait (body : M Client A) :
  (forall c r c', P c -> body c = (r, c') -> P c') ->
  (forall c d, P c -> P (snd (sleep_for overshoot Backoff d c))) ->
  forall remaining k c r c',
    P c ->
    attempts overshoot retry_on wait remaining k body c = (r, c') -> P c'.
Proof.
  intros Hbody Hsleep remaining.
  induction remaining as [|remaining IH]; intros k c r c' Hc;
    destruct (body c) as [r1 c1] eqn:E;
    pose proof (Hbody _ _ _ Hc E) as Hc1.
  - rewrite (attempts_last _ _ _ _ _ _ _ _ E). intros [= _ <-]. exact Hc1.
  - rewrite (attempts_more _ _ _ _ _ _ _ _ _ E).
    destruct r1 as [a|e|]; try (intros [= _ <-]; exact Hc1).
    destruct (retry_on e); [|intros [= _ <-]; exact Hc1].
    apply IH. apply Hsleep. exact Hc1.
Qed.

Lemma request_once_sets_bypass (server : nat -> transport)
    (overshoot : nat -> Q) rate_limit_arg minute c r c' :
  request_once server overshoot rate_limit_arg minute true c = (r, c') ->
  bypass_rate_limit c' = true.
Proof.
  unfold request_once, before_exchange, initialize, session_request.
  unfold_M. simpl.
  destruct (session_open c); simpl;
    (destruct rate_limit_arg as [x|]; simpl;
       [destruct (decide (x = 0)); simpl|]);
    destruct minute; simpl;
    (destruct (server (exchanges c)) as [resp| |]; simpl;
       [destruct (400 <=? status resp)%Z; simpl;
          [destruct (decide (status resp = 429)); simpl|]| |]);
    intros [= _ <-]; reflexivity.
Qed.

Lemma request_once_bypassed (server : nat -> transport)
    (overshoot : nat -> Q) rate_limit_arg minute bypass c r c' :
  bypass_rate_limit c = true ->
  request_once server overshoot rate_limit_arg minute bypass c = (r, c') ->
  bypass_rate_limit c' = true
  /\ last_request_time c' = last_request_time c
  /\ governor_sleeps (slept c') = governor_sleeps (slept c).
Proof.
  intros Hb.
  unfold request_once, before_exchange, initialize, session_request,
         _rate_limit_by_minute, _rate_limit, govern.
  unfold_M. simpl.
  destruct (session_open c); simpl;
    (destruct rate_limit_arg as [x|]; simpl;
       [destruct (decide (x = 0)); simpl|]);
    destruct minute; simpl; destruct bypass; simpl; rewrite ?Hb; simpl;
    (destruct (server (exchanges c)) as [resp| |]; simpl;
       [destruct (400 <=? status resp)%Z; simpl;
          [destruct (decide (status resp = 429)); simpl|]| |]);
    intros [= _ <-]; auto.
Qed.

(** X5.  The bypass is a switch that [request] only ever turns on.  After a
    call made with [bypass_rate_limit=True] the flag of the client is set,
    and on a client whose flag is set every later call, whatever its
    arguments, leaves the flag set, never waits for the governor and does
    not record a slot. *)
Theorem bypass_is_sticky
    (server : nat -> transport) (overshoot : nat -> Q) :
  (forall rate_limit_arg minute c r c',
     request server overshoot rate_limit_arg minute true c = (r, c') ->
     bypass_rate_limit c' = true)
  /\ (forall rate_limit_arg minute bypass c r c',
        bypass_rate_limit c = true ->
        request server overshoot rate_limit_arg minute bypass c = (r, c') ->
        bypass_rate_limit c' = true
        /\ last_request_time c' = last_request_time c
        /\ governor_sleeps (slept c') = governor_sleeps (slept c)).
Proof.
  split.
  - intros rate_limit_arg minute c r c'. unfold request, retry.
    apply (attempts_ends_with_body (fun x => bypass_rate_limit x = true)).
    intros c0 r0 c0'. apply request_once_sets_bypass.
  - intros rate_limit_arg minute bypass c r c' Hb. unfold request, retry.
    apply (attempts_invariant
             (fun x => bypass_rate_limit x = true
                       /\ last_request_time x = last_request_time c
                       /\ governor_sleeps (slept x) = governor_sleeps (slept c))).
    + intros c0 r0 c0' (H1 & H2 & H3) Hrun.
      destruct (request_once_bypassed _ _ _ _ _ _ _ _ H1 Hrun)
        as (H1' & H2' & H3').
      rewrite H2', H3'. auto.
    + intros c0 d (H1 & H2 & H3). cbn.
      unfold governor_sleeps. rewrite omap_app. cbn.
      rewrite app_nil_r. auto.
    + auto.
Qed.

(** A first call with the bypass, then an ordinary call: the second one is
    not held by the governor although no time has passed. *)
Lemma bypass_is_sticky_witness :
  let c1 := snd (request always_ok punctual None false true (fresh_client 2)) in
  let c2 := snd (request always_ok punctual None false false c1) in
  bypass_rate_limit c1 = true
  /\ bypass_rate_limit c2 = true
  /\ governor_sleeps (slept c2) = []
  /\ exchanges c2 = 2%nat.
Proof.
  intros c1 c2.
  pose proof (bypass_is_sticky always_ok punctual) as [Hset Hkeep].
  assert (H1 : bypass_rate_limit c1 = true)
    by (eapply (Hset None false (fresh_client 2)); apply surjective_pairing).
  destruct (Hkeep None false false c1 _ c2 H1 (surjective_pairing _))
    as (H2 & _ & H3).
  split; [exact H1|]. split; [exact H2|]. split; [|reflexivity].
  rewrite H3. reflexivity.
Defined.

(** ** The leaderboard cache repository: write, read back *)

Lemma doc_matches_same_key k1 k2 d d0 :
  doc_matches (doc_platform d) (doc_cacheId d) d0 = true ->
  doc_matches k1 k2 d0 = doc_matches k1 k2 d.
Proof.
  unfold doc_matches. intros H. apply andb_prop in H as [H1 H2].
  apply String.eqb_eq in H1, H2. rewrite H1, H2. reflexivity.
Qed.

Lemma find_upsert_doc k1 k2 d coll :
  find (doc_matches k1 k2) (upsert_doc d coll)
  = if doc_matches k1 k2 d then Some d else find (doc_matches k1 k2) coll.
Proof.
  induction coll as [|d0 coll IH]; cbn [upsert_doc find].
  - destruct (doc_matches k1 k2 d); reflexivity.
  - destruct (doc_matches (doc_platform d) (doc_cacheId d) d0) eqn:Hsame;
      cbn [find].
    + rewrite (doc_matches_same_key k1 k2 d d0 Hsame).
      destruct (doc_matches k1 k2 d); reflexivity.
    + destruct (doc_matches k1 k2 d0) eqn:H0.
      * destruct (doc_matches k1 k2 d) eqn:Hd; [|reflexivity].
        exfalso. unfold doc_matches in *.
        apply andb_prop in H0 as [A1 A2]. apply andb_prop in Hd as [B1 B2].
        apply String.eqb_eq in A1, A2, B1, B2.
        rewrite B1, B2, <- A1, <- A2, !String.eqb_refl in Hsame.
        discriminate.
      * exact IH.
Qed.

Lemma find_upsert_others k1 k2 (entries : list LeaderboardCache.t) :
  forall coll,
    Forall (fun e => doc_matches k1 k2 (_cache_entry_to_document e) = false)
           entries ->
    find (doc_matches k1 k2)
         (fold_left (fun coll e => upsert_doc (_cache_entry_to_document e) coll)
                    entries coll)
    = find (doc_matches k1 k2) coll.
Proof.
  induction entries as [|e entries IH]; intros coll Hall; [reflexivity|].
  apply Forall_cons in Hall as [He Hrest]. cbn [fold_left].
  rewrite IH by exact Hrest. rewrite find_upsert_doc, He. reflexivity.
Qed.

Lemma document_round_trip now_ (e : LeaderboardCache.t) :
  _document_to_cache_entry now_ (_cache_entry_to_document e)
  = Ret (read_back e).
Proof.
  unfold _document_to_cache_entry, _cache_entry_to_document.
  cbn [doc_platform doc_cacheId doc_entries doc_lastUpdated].
  rewrite Platform_of_value_value. reflexivity.
Qed.

Lemma save_cache_entries_up db (entries : list LeaderboardCache.t) :
  cache_db_up db = true ->
  save_cache_entries db entries
  = (Ret tt,
     mkCacheDb
       (fold_left (fun coll e => upsert_doc (_cache_entry_to_document e) coll)
                  entries (cache_collection db))
       true).
Proof.
  intros Hup. unfold save_cache_entries. rewrite Hup.
  destruct entries; [|reflexivity].
  destruct db as [coll up]. cbn in *. subst. reflexivity.
Qed.

(** X6.  What [save_cache_entries] wrote is what [get_cache_entry] reads,
    to the millisecond: after a save on a store that answers, the entry
    under a natural key (platform, cache id) is the last entry of the saved
    list with that key, with its stamp cut to whole milliseconds (what a
    BSON date holds) and the rest as it was saved; a freshness-checked read
    returns it exactly when that stored stamp is less than a day old.  The
    entry comes back as it was saved only if its stamp had no microseconds
    below the millisecond. *)
Theorem saved_entry_is_read_back
    (now_ : datetime) (db : CacheDb)
    (earlier later : list LeaderboardCache.t) (e : LeaderboardCache.t)
    (Hup : cache_db_up db = true)
    (Hlast : Forall (fun e' =>
                doc_matches (Platform_value (LeaderboardCache.platform e))
                            (LeaderboardCache.cache_id e)
                            (_cache_entry_to_document e') = false) later) :
  let saved := save_cache_entries db (earlier ++ e :: later) in
  fst saved = Ret tt
  /\ get_cache_entry now_ (snd saved) (LeaderboardCache.platform e)
                     (LeaderboardCache.cache_id e) false
     = Ret (Some (read_back e))
  /\ get_cache_entry now_ (snd saved) (LeaderboardCache.platform e)
                     (LeaderboardCache.cache_id e) true
     = Ret (if decide (now_ - 1000 * (LeaderboardCache.last_updated e / 1000)
                       < microseconds_per_day)
            then Some (read_back e) else None)
  /\ (read_back e = e <-> LeaderboardCache.last_updated e mod 1000 = 0).
Proof.
  intros saved. subst saved. rewrite (save_cache_entries_up _ _ Hup).
  cbn [fst snd]. split; [reflexivity|].
  assert (Hfind :
    find_one
      (mkCacheDb
         (fold_left (fun coll e0 => upsert_doc (_cache_entry_to_document e0) coll)
                    (earlier ++ e :: later) (cache_collection db)) true)
      (Platform_value (LeaderboardCache.platform e))
      (LeaderboardCache.cache_id e)
    = Ret (Some (_cache_entry_to_document e))).
  { unfold find_one. cbn [cache_db_up cache_collection]. f_equal.
    rewrite fold_left_app. cbn [fold_left].
    rewrite find_upsert_others by exact Hlast.
    rewrite find_upsert_doc.
    unfold doc_matches, _cache_entry_to_document.
    cbn [doc_platform doc_cacheId]. rewrite !String.eqb_refl. reflexivity. }
  split; [|split].
  - unfold get_cache_entry. rewrite Hfind, document_round_trip. reflexivity.
  - unfold get_cache_entry. rewrite Hfind, document_round_trip. cbn [andb].
    destruct (is_cache_stale now_ (Some (read_back e))) eqn:Hs.
    + apply is_cache_stale_iff in Hs. cbn [read_back LeaderboardCache.last_updated] in Hs.
      destruct (decide _); [lia|reflexivity].
    + destruct (decide _) as [|Hge]; [reflexivity|].
      assert (is_cache_stale now_ (Some (read_back e)) = true)
        by (apply is_cache_stale_iff;
            cbn [read_back LeaderboardCache.last_updated]; lia).
      congruence.
  - pose proof (Z.div_mod (LeaderboardCache.last_updated e) 1000).
    destruct e as [pf id rows_ t]. unfold read_back.
    cbn [LeaderboardCache.platform LeaderboardCache.cache_id
         LeaderboardCache.entries LeaderboardCache.last_updated] in *.
    split.
    + intros [= Heq]. lia.
    + intros Hmod. f_equal. lia.
Qed.

(** Page 0 is saved twice in one call, first with yesterday's stamp and
    then stamped an hour ago and 1234 microseconds, over a store that holds
    an older copy: the read gives the last one, stamped an hour ago and one
    millisecond. *)
Lemma saved_entry_is_read_back_witness :
  let saved := save_cache_entries two_pages
                 [page_zero (noon - 24 * hour);
                  page_zero (noon - 1 * hour + 1234)] in
  fst saved = Ret tt
  /\ get_cache_entry noon (snd saved) GEEKSFORGEEKS "0" false
     = Ret (Some (page_zero (noon - 1 * hour + 1000)))
  /\ get_cache_entry noon (snd saved) GEEKSFORGEEKS "0" true
     = Ret (Some (page_zero (noon - 1 * hour + 1000)))
  /\ page_zero (noon - 1 * hour + 1000) <> page_zero (noon - 1 * hour + 1234).
Proof.
  destruct (saved_entry_is_read_back noon two_pages
              [page_zero (noon - 24 * hour)] []
              (page_zero (noon - 1 * hour + 1234))
              eq_refl (List.Forall_nil _)) as (Hsave & Hget & Hfresh & _).
  split; [exact Hsave|]. split; [exact Hget|]. split; [exact Hfresh|].
  discriminate.
Defined.

(** X7.  A save touches only the keys it names: whatever the state of the
    store, a read under a natural key that no saved entry carries gives
    after [save_cache_entries] what it gave before. *)
Theorem save_leaves_other_keys
    (now_ : datetime) (db : CacheDb) (entries : list LeaderboardCache.t)
    (platform : Platform) (cache_id : string) (check_freshness : bool)
    (Hother : Forall (fun e =>
                 doc_matches (Platform_value platform) cache_id
                             (_cache_entry_to_document e) = false) entries) :
  get_cache_entry now_ (snd (save_cache_entries db entries))
                  platform cache_id check_freshness
  = get_cache_entry now_ db platform cache_id check_freshness.
Proof.
  destruct (cache_db_up db) eqn:Hup.
  - rewrite (save_cache_entries_up _ _ Hup). cbn [snd].
    unfold get_cache_entry, find_one. cbn [cache_db_up cache_collection].
    rewrite Hup, find_upsert_others by exact Hother. reflexivity.
  - unfold save_cache_entries. rewrite Hup. destruct entries; reflexivity.
Qed.

(** Saving page 0 leaves page 1 as it was. *)
Lemma save_leaves_other_keys_witness :
  get_cache_entry noon
    (snd (save_cache_entries two_pages [page_zero (noon - 1 * hour)]))
    GEEKSFORGEEKS "1" true
  = get_cache_entry noon two_pages GEEKSFORGEEKS "1" true.
Proof.
  apply (save_leaves_other_keys noon two_pages
           [page_zero (noon - 1 * hour)] GEEKSFORGEEKS "1" true).
  constructor; [reflexivity|constructor].
Defined.

Lemma doc_matches_key d d0 :
  doc_matches (doc_platform d) (doc_cacheId d) d0 = true
  <-> doc_key d0 = doc_key d.
Proof.
  unfold doc_matches, doc_key. rewrite andb_true_iff, !String.eqb_eq.
  split; [intros [-> ->]; reflexivity|intros H; injection H; auto].
Qed.

Lemma upsert_doc_keys d coll k :
  In k (map doc_key (upsert_doc d coll)) ->
  k = doc_key d \/ In k (map doc_key coll).
Proof.
  induction coll as [|d0 coll IH]; cbn [upsert_doc map In].
  - intros [<-|[]]. left; reflexivity.
  - destruct (doc_matches (doc_platform d) (doc_cacheId d) d0);
      cbn [map In]; intros [<-|H]; auto.
    destruct (IH H); auto.
Qed.

Lemma upsert_doc_NoDup d coll :
  List.NoDup (map doc_key coll) ->
  List.NoDup (map doc_key (upsert_doc d coll)).
Proof.
  induction coll as [|d0 coll IH]; cbn [upsert_doc map]; intros Hnd.
  - constructor; [intros []|constructor].
  - apply List.NoDup_cons_iff in Hnd as [Hnotin Hnd].
    destruct (doc_matches (doc_platform d) (doc_cacheId d) d0) eqn:Hm;
      cbn [map]; apply List.NoDup_cons_iff.
    + apply doc_matches_key in Hm. rewrite <- Hm. split; assumption.
    + split; [|exact (IH Hnd)].
      intros Hin. apply upsert_doc_keys in Hin as [Heq|Hin]; [|auto].
      apply doc_matches_key in Heq. congruence.
Qed.

(** X8.  [save_cache_entries] keeps the collection at one document per
    natural key: if no two documents share (platform, cache id) before a
    save, none do after it, whatever was saved and however often a key
    occurred in the list. *)
Theorem save_keeps_one_document_per_key
    (db : CacheDb) (entries : list LeaderboardCache.t)
    (Hunique : List.NoDup (map doc_key (cache_collection db))) :
  List.NoDup
    (map doc_key (cache_collection (snd (save_cache_entries db entries)))).
Proof.
  destruct (cache_db_up db) eqn:Hup.
  - rewrite (save_cache_entries_up _ _ Hup). cbn [snd cache_collection].
    revert Hunique. generalize (cache_collection db).
    induction entries as [|e entries IH]; intros coll Hnd; [exact Hnd|].
    cbn [fold_left]. apply IH, upsert_doc_NoDup, Hnd.
  - unfold save_cache_entries. rewrite Hup.
    destruct entries; exact Hunique.
Qed.

Lemma save_keeps_one_document_per_key_witness :
  List.NoDup
    (map doc_key
       (cache_collection
          (snd (save_cache_entries two_pages
                  [page_zero (noon - 24 * hour);
                   page_zero (noon - 1 * hour)])))).
Proof.
  apply (save_keeps_one_document_per_key two_pages
           [page_zero (noon - 24 * hour); page_zero (noon - 1 * hour)]).
  vm_compute.
  constructor;
    [intros [H|[]]; discriminate H
    |constructor; [intros []|constructor]].
Defined.

Lemma bson_date_bounds t : t - 1000 < bson_date t <= t.
Proof.
  unfold bson_date. pose proof (Z.mod_pos_bound t 1000 eq_refl).
  pose proof (Z.div_mod t 1000). lia.
Qed.

Lemma query_matches_fresh now_ platform doc :
  query_matches now_ (Platform_value platform) true doc = true
  <-> doc_platform doc = Platform_value platform
      /\ exists t, doc_lastUpdated doc = Some t
                   /\ bson_date (now_ - microseconds_per_day) <= t.
Proof.
  unfold query_matches, CACHE_MAX_AGE_DAYS. cbn [negb orb].
  rewrite andb_true_iff, String.eqb_eq, Z.mul_1_l.
  destruct (doc_lastUpdated doc) as [t|].
  - rewrite Z.leb_le. split.
    + intros [Hp Ht]. split; [exact Hp|]. exists t. split; [reflexivity|lia].
    + intros [Hp (t' & Ht' & Hle)]. injection Ht' as <-. split; [exact Hp|lia].
  - split; [intros [_ H]; discriminate H|].
    intros [_ (t & Ht & _)]. discriminate Ht.
Qed.

Lemma collect_fresh_entries now_ platform coll :
  forall acc,
    collect_entries now_ true
      (filter (fun doc => Is_true (query_matches now_ (Platform_value platform)
                                                 true doc)) coll)
      acc
    = Ret (acc ++ fresh_entries now_ platform coll).
Proof.
  induction coll as [|doc coll IH]; intros acc.
  - cbn. rewrite app_nil_r. reflexivity.
  - rewrite filter_cons. unfold fresh_entries. cbn [omap list_omap].
    fold (fresh_entries now_ platform coll).
    destruct (decide (Is_true (query_matches now_ (Platform_value platform)
                                             true doc))) as [Hq|Hq].
    + apply Is_true_true, query_matches_fresh in Hq
        as [Hp (t & Ht & Hle)].
      cbn [collect_entries]. unfold _document_to_cache_entry.
      rewrite Hp, Platform_of_value_value, Ht, String.eqb_refl.
      change (default now_ (Some t)) with t.
      fold (entry_of_doc platform doc t).
      cbn [negb orb].
      destruct (is_cache_stale now_ (Some (entry_of_doc platform doc t)))
        eqn:Hs; cbn [negb].
      * apply is_cache_stale_iff in Hs. cbn in Hs.
        destruct (now_ - t <? microseconds_per_day)%Z eqn:Hlt;
          [apply Z.ltb_lt in Hlt; lia|]. apply IH.
      * destruct (now_ - t <? microseconds_per_day)%Z eqn:Hlt.
        -- rewrite IH, <- app_assoc. reflexivity.
        -- exfalso. apply Z.ltb_ge in Hlt.
           assert (is_cache_stale now_ (Some (entry_of_doc platform doc t))
                   = true) by (apply is_cache_stale_iff; cbn; lia).
           congruence.
    + destruct (String.eqb (doc_platform doc) (Platform_value platform))
        eqn:Hp; [|apply IH].
      destruct (doc_lastUpdated doc) as [t|] eqn:Ht; [|apply IH].
      destruct (now_ - t <? microseconds_per_day)%Z eqn:Hlt; [|apply IH].
      exfalso. apply Hq, Is_true_true, query_matches_fresh.
      apply String.eqb_eq in Hp. apply Z.ltb_lt in Hlt.
      split; [exact Hp|]. exists t. split; [exact Ht|].
      pose proof (bson_date_bounds (now_ - microseconds_per_day)). lia.
Qed.

(** X9.  A fresh-only bulk read of a store that answers returns, in the
    order of the collection, exactly one entry for each document of the
    asked platform whose stamp is strictly less than one day old: the
    query keeps stamps of one day or less, and the second check drops the
    stamp of exactly one day. *)
Theorem fresh_bulk_read_is_exact
    (now_ : datetime) (db : CacheDb) (platform : Platform)
    (Hup : cache_db_up db = true) :
  get_platform_cache_entries now_ db platform true
  = Ret (fresh_entries now_ platform (cache_collection db)).
Proof.
  unfold get_platform_cache_entries. rewrite Hup.
  apply (collect_fresh_entries now_ platform (cache_collection db) []).
Qed.

Lemma fresh_bulk_read_is_exact_witness :
  get_platform_cache_entries noon two_pages GEEKSFORGEEKS true
  = Ret (fresh_entries noon GEEKSFORGEEKS (cache_collection two_pages)).
Proof. exact (fresh_bulk_read_is_exact noon two_pages GEEKSFORGEEKS eq_refl). Defined.

(** X10.  An outage is never reported as a miss.  On a store that does not
    answer, both reads raise [DatabaseError], and so does a save of at
    least one entry, which leaves the store as it was; a save of the empty
    list issues no write and returns normally. *)
Theorem cache_outage_is_a_database_error
    (now_ : datetime) (db : CacheDb)
    (Hdown : cache_db_up db = false) :
  (forall platform cache_id check_freshness,
     get_cache_entry now_ db platform cache_id check_freshness
     = Raise (an DatabaseError))
  /\ (forall platform only_fresh,
        get_platform_cache_entries now_ db platform only_fresh
        = Raise (an DatabaseError))
  /\ (forall e entries,
        save_cache_entries db (e :: entries) = (Raise (an DatabaseError), db))
  /\ save_cache_entries db [] = (Ret tt, db).
Proof.
  repeat split; intros.
  - unfold get_cache_entry, find_one. rewrite Hdown. reflexivity.
  - unfold get_platform_cache_entries. rewrite Hdown. reflexivity.
  - unfold save_cache_entries. rewrite Hdown. reflexivity.
Qed.

Lemma cache_outage_is_a_database_error_witness :
  get_cache_entry noon (mkCacheDb (cache_collection two_pages) false)
                  GEEKSFORGEEKS "0" true
  = Raise (an DatabaseError).
Proof.
  exact (proj1 (cache_outage_is_a_database_error noon
                  (mkCacheDb (cache_collection two_pages) false) eq_refl)
               GEEKSFORGEEKS "0" true).
Defined.

(** ** The batch orchestrators: what a returned batch is *)

Lemma codechef_get_keeps client fuel :
  forall i, keeps_objs (CodeChef.get_participant_data client fuel i).
Proof.
  induction fuel as [|fuel IH]; intros i; cbn [CodeChef.get_participant_data].
  - apply keeps_diverge.
  - keeps.
Qed.

Lemma codechef_one_at_a_time client fuel :
  one_at_a_time (CodeChef.process_one client fuel).
Proof.
  intros results i. unfold CodeChef.process_one.
  apply aok_finally_close. apply aok_try.
  - apply aok_store_now. apply codechef_get_keeps.
  - intros e. destruct (isinstance e RateLimitError); [|apply aok_raise].
    apply aok_bind_keeps; [apply keeps_sleep|]. intros _.
    apply aok_try.
    + apply aok_store_now. apply keeps_retry_wrapper, codechef_get_keeps.
    + intros e'. destruct (isinstance e' RateLimitError); [apply aok_ret|].
      destruct (isinstance e' ScraperError || isinstance e' UserNotFoundError);
        [apply aok_ret|apply aok_raise].
Qed.

Lemma codechef_loop_for_each client fuel participants :
  forall results w,
    CodeChef.process_loop client fuel participants results w
    = for_each (CodeChef.process_one client fuel) participants results w.
Proof.
  induction participants as [|i rest IH]; intros results w; [reflexivity|].
  cbn [CodeChef.process_loop for_each]. unfold mbind, M_bind.
  destruct (CodeChef.process_one client fuel results i w) as [[r|e|] w1];
    [apply IH|reflexivity|reflexivity].
Qed.

(** A loop that goes one participant at a time returns a selection of its
    input, in the order of the input. *)
Lemma for_each_selects body :
  one_at_a_time body ->
  forall participants results w results' w',
    for_each body participants results w = (Ret results', w') ->
    exists appended,
      results' = results ++ appended
      /\ appended `sublist_of` participants
      /\ forall j, j ∉ appended -> objs w' !! j = objs w !! j.
Proof.
  intros Hbody participants.
  induction participants as [|i rest IH]; intros results w results' w'.
  - intros [= <- <-]. exists []. rewrite app_nil_r. auto using sublist_nil.
  - cbn [for_each]. unfold mbind, M_bind.
    destruct (body results i w) as [[results1|e|] w1] eqn:E; try discriminate.
    intros Hrest. destruct (IH _ _ _ _ Hrest) as (ext & -> & Hsub & Hext).
    destruct (Hbody _ _ _ _ _ E) as [[Hr Ho]|[Ho Hr]].
    + injection Hr as ->. exists (i :: ext).
      split; [rewrite <- app_assoc; reflexivity|].
      split; [apply sublist_skip, Hsub|].
      intros j Hj. rewrite Hext, Ho.
      * reflexivity.
      * intros ->. apply Hj. left.
      * intros Hin. apply Hj. right. exact Hin.
    + rewrite (Hr _ eq_refl). exists ext. split; [reflexivity|].
      split; [apply sublist_cons, Hsub|].
      intros j Hj. rewrite Hext by exact Hj. rewrite Ho. reflexivity.
Qed.

(** X11.  What [process_batch] returns, on CodeChef, LeetCode and
    Codeforces alike, is a selection of the participants it was given, in
    the order it was given them; and a participant that is not in the
    returned list has every stored status as it was before the batch. *)
Theorem process_batch_returns_a_selection
    (client : client_behaviour) (fuel : nat) (participants : list nat)
    (w : World) (results : list nat) (w' : World)
    (Hbatch :
       CodeChef.process_batch client fuel participants w = (Ret results, w')
       \/ LeetCode.process_batch client fuel participants w = (Ret results, w')
       \/ Codeforces.process_batch client fuel participants w
          = (Ret results, w')) :
  results `sublist_of` participants
  /\ forall j, j ∉ results -> objs w' !! j = objs w !! j.
Proof.
  assert (Hfor : exists body, one_at_a_time body
                 /\ for_each body participants [] w = (Ret results, w')).
  { destruct Hbatch as [H|[H|H]].
    - exists (CodeChef.process_one client fuel).
      split; [apply codechef_one_at_a_time|].
      rewrite <- codechef_loop_for_each. exact H.
    - exists (LeetCode.process_one client fuel).
      split; [apply leetcode_one_at_a_time|].
      rewrite <- leetcode_loop_for_each. exact H.
    - exists (Codeforces.process_one client fuel).
      split; [apply codeforces_one_at_a_time|].
      rewrite <- codeforces_loop_for_each. exact H. }
  destruct Hfor as (body & Hbody & H).
  destruct (for_each_selects body Hbody _ _ _ _ _ H) as (ext & -> & Hsub & Hext).
  split; assumption.
Qed.

(** The LeetCode client fails for alice: bob alone is returned, and alice
    is as she was. *)
Lemma process_batch_returns_a_selection_witness :
  [1%nat] `sublist_of` [0%nat; 1%nat]
  /\ forall j, j ∉ [1%nat] ->
       objs (snd (LeetCode.process_batch
                    (fails_for_alice (leetcode_ranking 1600)) 2
                    [0%nat; 1%nat] roster)) !! j
       = objs roster !! j.
Proof.
  apply (process_batch_returns_a_selection
           (fails_for_alice (leetcode_ranking 1600)) 2 [0%nat; 1%nat] roster).
  right; left. vm_compute. reflexivity.
Defined.

(** ** Codeforces: the cool-down that cannot happen *)

Lemma scraper_family e :
  isinstance e ScraperError = false ->
  isinstance e UserNotFoundError = false
  /\ isinstance e RateLimitError = false.
Proof. destruct e as [[] s]; vm_compute; intuition congruence. Qed.

Lemma get_single_user_info_spec client h w r w' :
  Codeforces.get_single_user_info client h w = (r, w') ->
  objs w' = objs w /\ clock w' = clock w /\ sleeps w' = sleeps w
  /\ closes w' = closes w
  /\ (length (requests w') <= S (length (requests w)))%nat
  /\ (forall e, r = Raise e -> isinstance e ScraperError = false)
  /\ (never_hangs client -> r <> Diverge).
Proof.
  unfold Codeforces.get_single_user_info.
  destruct (falsy_handle h || handle_is h "#n/a" || contains_at (default "" h)).
  { intros [= <- <-]. repeat split; try lia; discriminate. }
  unfold try_except, call_client. unfold mbind, M_bind.
  destruct (client (length (requests w)) (default "" h)) as [j|e|] eqn:Hc.
  - unfold Codeforces.first_result.
    destruct (negb (truthy j)).
    { intros [= <- <-]. cbn. rewrite length_app. cbn.
      repeat split; try lia; discriminate. }
    destruct j as [| | |[|c s]|[|x l]|]; cbn; intros [= <- <-]; cbn;
      rewrite ?length_app; cbn;
      (repeat split; try lia; try discriminate);
      intros e [= <-]; reflexivity.
  - destruct (isinstance e UserNotFoundError || isinstance e ScraperError
              || isinstance e RateLimitError) eqn:Hsw.
    + intros [= <- <-]. cbn. rewrite length_app. cbn.
      repeat split; try lia; discriminate.
    + intros [= <- <-]. cbn. rewrite length_app. cbn.
      repeat split; try lia; try discriminate.
      intros e' [= <-].
      apply orb_false_iff in Hsw as [Hsw _].
      apply orb_false_iff in Hsw as [_ Hsw]. exact Hsw.
  - intros [= <- <-]. cbn. rewrite length_app. cbn.
    repeat split; try lia; try discriminate.
    intros Hnh. exfalso. exact (Hnh _ _ Hc).
Qed.

Lemma platform_handle_spec key i w :
  platform_handle key i w
  = (match objs w !! i with
     | None => Diverge
     | Some p =>
         match dict_get key (platforms p) with
         | None => Raise (an KeyError)
         | Some None => Raise (an AttributeError)
         | Some (Some st) => Ret (handle st)
         end
     end, w).
Proof.
  unfold platform_handle, deref. unfold mbind, M_bind.
  destruct (objs w !! i) as [p|]; [|reflexivity].
  destruct (dict_get key (platforms p)) as [[st|]|]; reflexivity.
Qed.

Lemma codeforces_get_spec client fuel i w r w' :
  Codeforces.get_participant_data client fuel i w = (r, w') ->
  objs w' = objs w /\ sleeps w' = sleeps w /\ closes w' = closes w
  /\ (length (requests w') <= S (length (requests w)))%nat
  /\ (forall e, r = Raise e -> isinstance e ScraperError = false)
  /\ ((0 < fuel)%nat -> (i < length (objs w))%nat -> never_hangs client ->
      r <> Diverge).
Proof.
  destruct fuel as [|fuel]; cbn [Codeforces.get_participant_data].
  { intros [= <- <-]. repeat split; try lia; discriminate. }
  unfold mbind at 1. unfold M_bind at 1. rewrite platform_handle_spec.
  destruct (objs w !! i) as [p|] eqn:Hp.
  2:{ intros [= <- <-]. repeat split; try lia; try discriminate.
      intros _ Hi _. destruct (lookup_lt_is_Some_2 _ _ Hi) as [p' Hp'].
      congruence. }
  destruct (dict_get Codeforces.KEY (platforms p)) as [[st|]|];
    [|intros [= <- <-]; repeat split; try lia; try discriminate;
      intros e [= <-]; reflexivity..].
  destruct (falsy_handle (handle st) || handle_is (handle st) "#n/a").
  { intros [= <- <-]. repeat split; try lia; discriminate. }
  unfold try_except. unfold mbind at 1. unfold M_bind at 1.
  destruct (Codeforces.get_single_user_info client (handle st) w)
    as [[j|e|] w1] eqn:E;
    apply get_single_user_info_spec in E
      as (Ho & Hc & Hs & Hcl & Hr & He & Hd).
  - destruct (negb (truthy j)).
    { intros [= <- <-]. repeat split; try assumption; discriminate. }
    destruct j; cbn; intros [= <- <-];
      (repeat split; try assumption; try discriminate);
      intros e [= <-]; reflexivity.
  - pose proof (He e eq_refl) as Hns.
    destruct (scraper_family e Hns) as [Hu Hrl].
    rewrite Hu, Hrl, Hns. intros [= <- <-].
    repeat split; try assumption; try discriminate.
    intros e' [= <-]. exact Hns.
  - intros [= <- <-]. repeat split; try assumption; try discriminate.
    intros _ _ Hnh. exfalso. exact (Hd Hnh eq_refl).
Qed.

Lemma codeforces_process_one_spec client fuel results i w r w' :
  Codeforces.process_one client fuel results i w = (r, w') ->
  sleeps w' = sleeps w
  /\ (closes w' <= S (closes w))%nat
  /\ length (objs w') = length (objs w)
  /\ (length (requests w') <= S (length (requests w)))%nat
  /\ (forall results',
        r = Ret results' ->
        results' = results ++ [i] /\ closes w' = S (closes w))
  /\ (forall e, r = Raise e -> isinstance e ScraperError = false)
  /\ ((0 < fuel)%nat -> (i < length (objs w))%nat -> never_hangs client ->
      r <> Diverge).
Proof.
  unfold Codeforces.process_one, try_finally, try_except.
  unfold mbind at 1. unfold M_bind at 1.
  destruct (Codeforces.get_participant_data client fuel i w)
    as [[res|e|] w1] eqn:E;
    apply codeforces_get_spec in E as (Ho & Hs & Hcl & Hr & He & Hd).
  - cbn. intros [= <- <-]. cbn. rewrite length_alter, Ho.
    repeat split; try assumption; try congruence; try lia.
  - destruct (scraper_family e (He e eq_refl)) as [_ Hrl]. rewrite Hrl.
    cbn. intros [= <- <-]. cbn. rewrite Ho.
    repeat split; try assumption; try congruence; try lia; try discriminate.
    intros e' [= <-]. exact (He e eq_refl).
  - cbn. intros [= <- <-]. cbn. rewrite Ho.
    repeat split; try assumption; try congruence; try lia; try discriminate.
    intros Hf Hi Hnh. exfalso. exact (Hd Hf Hi Hnh eq_refl).
Qed.

Lemma codeforces_loop_spec client fuel participants :
  forall results w r w',
    Codeforces.process_loop client fuel participants results w = (r, w') ->
    sleeps w' = sleeps w
    /\ (length (requests w') <= length (requests w) + length participants)%nat
    /\ (closes w' <= closes w + length participants)%nat
    /\ (forall results',
          r = Ret results' ->
          results' = results ++ participants
          /\ closes w' = (closes w + length participants)%nat)
    /\ (forall e, r = Raise e -> isinstance e ScraperError = false)
    /\ ((0 < fuel)%nat ->
        Forall (fun i => (i < length (objs w))%nat) participants ->
        never_hangs client -> r <> Diverge).
Proof.
  induction participants as [|i rest IH]; intros results w r w'.
  - intros [= <- <-]. cbn. rewrite app_nil_r.
    split; [reflexivity|]. split; [lia|]. split; [lia|].
    split; [|split; discriminate].
    intros results' [= <-]. split; [reflexivity|lia].
  - cbn [Codeforces.process_loop]. unfold mbind, M_bind.
    destruct (Codeforces.process_one client fuel results i w)
      as [[results1|e|] w1] eqn:E;
      apply codeforces_process_one_spec in E
        as (Hs & Hcl & Hlen & Hr & Hres & He & Hd).
    + intros H. apply IH in H as (Hs' & Hr' & Hcl' & Hres' & He' & Hd').
      destruct (Hres _ eq_refl) as [-> Hcl1]. cbn [length].
      split; [congruence|]. split; [lia|]. split; [lia|]. split; [|split].
      * intros results' Hret. destruct (Hres' _ Hret) as [-> ->].
        rewrite <- app_assoc. split; [reflexivity|lia].
      * exact He'.
      * intros Hfuel Hall Hnh. apply Forall_cons in Hall as [_ Hall].
        apply Hd'; try assumption. rewrite Hlen. exact Hall.
    + intros [= <- <-]. cbn [length].
      split; [exact Hs|]. split; [lia|]. split; [lia|].
      split; [discriminate|]. split; [exact He|discriminate].
    + intros [= <- <-]. cbn [length].
      split; [exact Hs|]. split; [lia|]. split; [lia|].
      split; [discriminate|]. split; [discriminate|].
      intros Hfuel Hall Hnh. apply Forall_cons in Hall as [Hi _].
      apply Hd; assumption.
Qed.



(** X13.  One level of recursion is all a Codeforces batch needs: when
    the participants are objects of the heap and the client answers every
    call one way or another, [process_batch] comes back, with all the
    participants, or with an exception that is not a [ScraperError]. *)
Theorem codeforces_batch_terminates
    (client : client_behaviour) (fuel : nat) (participants : list nat)
    (w : World)
    (Hfuel : (0 < fuel)%nat)
    (Hrefs : Forall (fun i => (i < length (objs w))%nat) participants)
    (Hclient : never_hangs client) :
  exists w',
    Codeforces.process_batch client fuel participants w
    = (Ret participants, w')
    \/ exists e,
         Codeforces.process_batch client fuel participants w = (Raise e, w')
         /\ isinstance e ScraperError = false.
Proof.
  destruct (Codeforces.process_batch client fuel participants w)
    as [r w'] eqn:E.
  exists w'. unfold Codeforces.process_batch in E.
  apply codeforces_loop_spec in E as (_ & _ & _ & Hres & He & Hd).
  destruct r as [results|e|].
  - left. destruct (Hres _ eq_refl) as [-> _]. reflexivity.
  - right. exists e. split; [reflexivity|exact (He _ eq_refl)].
  - exfalso. exact (Hd Hfuel Hrefs Hclient eq_refl).
Qed.

Lemma codeforces_batch_terminates_witness :
  exists w',
    Codeforces.process_batch codeforces_answer 1 [0%nat; 1%nat] roster
    = (Ret [0%nat; 1%nat], w')
    \/ exists e,
         Codeforces.process_batch codeforces_answer 1 [0%nat; 1%nat] roster
         = (Raise e, w')
         /\ isinstance e ScraperError = false.
Proof.
  apply (codeforces_batch_terminates codeforces_answer 1 [0%nat; 1%nat] roster).
  - lia.
  - repeat constructor.
  - intros n u. discriminate.
Defined.

(** ** Codeforces: a second run over a participant marked not found *)

Lemma usable_is_asked_for u :
  unusable (Some u) = false ->
  falsy_handle (Some u) || handle_is (Some u) "#n/a" = false.
Proof.
  unfold unusable. intros H. apply orb_false_iff in H as [H _]. exact H.
Qed.

(** With a usable handle [get_single_user_info] makes its one call,
    however that call ends. *)
Lemma codeforces_single_user_asks_once (client : client_behaviour) w u r w1 :
  unusable (Some u) = false ->
  Codeforces.get_single_user_info client (Some u) w = (r, w1) ->
  requests w1 = requests w ++ [u].
Proof.
  intros Hus. unfold Codeforces.get_single_user_info.
  unfold unusable in Hus. rewrite Hus. change (default "" (Some u)) with u.
  unfold try_except, call_client. unfold mbind, M_bind.
  destruct (client (length (requests w)) u) as [j|e|].
  - unfold Codeforces.first_result.
    destruct (negb (truthy j)); [intros [= _ <-]; reflexivity|].
    destruct j as [| | |[|c s]|[|x l]|]; cbn; intros [= _ <-]; reflexivity.
  - destruct (isinstance e UserNotFoundError || isinstance e ScraperError
              || isinstance e RateLimitError);
      intros [= _ <-]; reflexivity.
  - intros [= _ <-]. reflexivity.
Qed.

Lemma codeforces_get_asks_once (client : client_behaviour) fuel i w p st u
    r w1 :
  (0 < fuel)%nat ->
  objs w !! i = Some p ->
  dict_get Codeforces.KEY (platforms p) = Some (Some st) ->
  handle st = Some u ->
  unusable (Some u) = false ->
  Codeforces.get_participant_data client fuel i w = (r, w1) ->
  requests w1 = requests w ++ [u].
Proof.
  intros Hfuel Hp Hst Hu Hus. destruct fuel as [|fuel]; [lia|].
  cbn [Codeforces.get_participant_data].
  erewrite bind_ret by (eapply platform_handle_ok; eauto).
  rewrite Hu, (usable_is_asked_for u Hus).
  unfold try_except. unfold mbind at 1. unfold M_bind at 1.
  destruct (Codeforces.get_single_user_info client (Some u) w)
    as [[j|e|] w0] eqn:E;
    pose proof (codeforces_single_user_asks_once _ _ _ _ _ Hus E) as Hreq;
    apply get_single_user_info_spec in E as (_ & _ & _ & _ & _ & He & _).
  - destruct (negb (truthy j)); [intros [= _ <-]; exact Hreq|].
    destruct j; cbn; intros [= _ <-]; exact Hreq.
  - pose proof (He e eq_refl) as Hns.
    destruct (scraper_family e Hns) as [Hunf Hrl].
    rewrite Hunf, Hrl, Hns. intros [= _ <-]. exact Hreq.
  - intros [= _ <-]. exact Hreq.
Qed.

Lemma codeforces_batch_asks_once (client : client_behaviour) fuel i w p st u
    r w' :
  (0 < fuel)%nat ->
  objs w !! i = Some p ->
  dict_get Codeforces.KEY (platforms p) = Some (Some st) ->
  handle st = Some u ->
  unusable (Some u) = false ->
  Codeforces.process_batch client fuel [i] w = (r, w') ->
  requests w' = requests w ++ [u].
Proof.
  intros Hfuel Hp Hst Hu Hus.
  unfold Codeforces.process_batch. cbn [Codeforces.process_loop].
  unfold mbind, M_bind.
  unfold Codeforces.process_one, try_finally, try_except.
  unfold mbind at 1. unfold M_bind at 1.
  destruct (Codeforces.get_participant_data client fuel i w)
    as [[res|e|] w1] eqn:E;
    pose proof (codeforces_get_asks_once _ _ _ _ _ _ _ _ _
                  Hfuel Hp Hst Hu Hus E) as Hreq;
    apply codeforces_get_spec in E as (_ & _ & _ & _ & He & _).
  - cbn. intros [= _ <-]. exact Hreq.
  - destruct (scraper_family e (He e eq_refl)) as [_ Hrl]. rewrite Hrl.
    cbn. intros [= _ <-]. exact Hreq.
  - cbn. intros [= _ <-]. exact Hreq.
Qed.

(** An exception of the client that is no [ScraperError] leaves the batch
    as it is. *)
Lemma codeforces_batch_escapes (client : client_behaviour) fuel i w p st u e :
  (0 < fuel)%nat ->
  objs w !! i = Some p ->
  dict_get Codeforces.KEY (platforms p) = Some (Some st) ->
  handle st = Some u ->
  unusable (Some u) = false ->
  client (length (requests w)) u = Raise e ->
  isinstance e ScraperError = false ->
  Codeforces.process_batch client fuel [i] w
  = (Raise e,
     mkWorld (objs w) (clock w) (sleeps w) (requests w ++ [u])
             (S (closes w))).
Proof.
  intros Hfuel Hp Hst Hu Hus Hanswer Hns.
  destruct (scraper_family e Hns) as [Hunf Hrl].
  destruct fuel as [|fuel]; [lia|].
  assert (Hget :
    Codeforces.get_participant_data client (S fuel) i w
    = (Raise e, mkWorld (objs w) (clock w) (sleeps w) (requests w ++ [u])
                        (closes w))).
  { cbn [Codeforces.get_participant_data].
    erewrite bind_ret by (eapply platform_handle_ok; eauto).
    rewrite Hu, (usable_is_asked_for u Hus).
    erewrite try_raise.
    2:{ apply bind_raise. unfold Codeforces.get_single_user_info.
        unfold unusable in Hus. rewrite Hus.
        change (default "" (Some u)) with u.
        erewrite try_raise
          by (apply bind_raise; unfold call_client; rewrite Hanswer;
              reflexivity).
        rewrite Hunf, Hns, Hrl. reflexivity. }
    rewrite Hunf, Hrl, Hns. reflexivity. }
  unfold Codeforces.process_batch. cbn [Codeforces.process_loop].
  apply bind_raise.
  unfold Codeforces.process_one, try_finally.
  erewrite try_raise by (erewrite bind_raise by exact Hget; reflexivity).
  rewrite Hrl. reflexivity.
Qed.

Lemma blind_ret {A} (a : A) : blind_to_flags (mret a).
Proof. intros w1 w2 H. split; [reflexivity|exact H]. Qed.

Lemma blind_raise {A} (e : exn) : blind_to_flags (raise e : M World A).
Proof. intros w1 w2 H. split; [reflexivity|exact H]. Qed.

Lemma blind_diverge {A} : blind_to_flags (diverge : M World A).
Proof. intros w1 w2 H. split; [reflexivity|exact H]. Qed.

Lemma blind_bind {A B} (m : M World A) (f : A -> M World B) :
  blind_to_flags m -> (forall a, blind_to_flags (f a)) ->
  blind_to_flags (m ≫= f).
Proof.
  intros Hm Hf w1 w2 H. unfold mbind, M_bind.
  destruct (Hm _ _ H) as [Hr Hw].
  destruct (m w1) as [r1 w1'], (m w2) as [r2 w2']. cbn [fst snd] in *.
  subst r2. destruct r1 as [a|e|]; [apply Hf; exact Hw|..];
    (split; [reflexivity|exact Hw]).
Qed.

Lemma blind_try {A} (body : M World A) (h : exn -> M World A) :
  blind_to_flags body -> (forall e, blind_to_flags (h e)) ->
  blind_to_flags (try_except body h).
Proof.
  intros Hb Hh w1 w2 H. unfold try_except.
  destruct (Hb _ _ H) as [Hr Hw].
  destruct (body w1) as [r1 w1'], (body w2) as [r2 w2']. cbn [fst snd] in *.
  subst r2. destruct r1 as [a|e|]; [|apply Hh; exact Hw|];
    (split; [reflexivity|exact Hw]).
Qed.

Lemma blind_finally {A} (body : M World A) (cleanup : M World unit) :
  blind_to_flags body -> blind_to_flags cleanup ->
  blind_to_flags (try_finally body cleanup).
Proof.
  intros Hb Hc w1 w2 H. unfold try_finally.
  destruct (Hb _ _ H) as [Hr Hw].
  destruct (body w1) as [r1 w1'], (body w2) as [r2 w2']. cbn [fst snd] in *.
  subst r2.
  destruct (Hc _ _ Hw) as [Hr' Hw'].
  destruct (cleanup w1') as [c1 w1''], (cleanup w2') as [c2 w2''].
  cbn [fst snd] in *. subst c2.
  destruct r1 as [a|e|]; [destruct c1 as [[]|e'|]..|];
    (split; [reflexivity|first [exact Hw'|exact Hw]]).
Qed.

Lemma blind_clock : blind_to_flags (gets clock).
Proof.
  intros w1 w2 H. cbn. split; [|exact H]. f_equal. apply H.
Qed.

Lemma blind_new_status username r ex raw :
  blind_to_flags (new_status username r ex raw).
Proof.
  unfold new_status. apply blind_bind; [apply blind_clock|].
  intros t. apply blind_ret.
Qed.

Lemma blind_sleep seconds : blind_to_flags (asyncio_sleep seconds).
Proof.
  intros w1 w2 (Ho & Hc & Hs & Hr & Hcl). cbn. split; [reflexivity|].
  repeat split; cbn; congruence.
Qed.

Lemma blind_close : blind_to_flags client_close.
Proof.
  intros w1 w2 (Ho & Hc & Hs & Hr & Hcl). cbn. split; [reflexivity|].
  repeat split; cbn; congruence.
Qed.

Lemma blind_call client u : blind_to_flags (call_client client u).
Proof.
  intros w1 w2 (Ho & Hc & Hs & Hr & Hcl). unfold call_client. cbn [fst snd].
  rewrite Hr. split; [reflexivity|]. repeat split; cbn; congruence.
Qed.

Lemma blind_get_method d k dflt :
  blind_to_flags (get_method d k dflt : M World json).
Proof. destruct d; first [apply blind_ret | apply blind_raise]. Qed.

Lemma reflag_all_dict_set flag k st (d : dict (option PlatformStatus)) :
  reflag_all flag (dict_set k (Some st) d)
  = dict_set k (Some (reflag flag st)) (reflag_all flag d).
Proof.
  induction d as [|[k' v] d IH]; [reflexivity|].
  cbn [dict_set]. unfold reflag_all in *. cbn [map fst snd dict_set].
  destruct (decide (k' = k)); cbn [map fst snd option_map];
    [reflexivity|]. rewrite IH. reflexivity.
Qed.

Lemma same_handle key (p1 p2 : Participant) :
  flags_forgotten p1 = flags_forgotten p2 ->
  match dict_get key (platforms p1), dict_get key (platforms p2) with
  | None, None => True
  | Some None, Some None => True
  | Some (Some st1), Some (Some st2) => handle st1 = handle st2
  | _, _ => False
  end.
Proof.
  intros H. unfold flags_forgotten, with_exists, set_platforms in H.
  injection H as _ _ _ _ Hpl _ _.
  apply (f_equal (dict_get key)) in Hpl.
  rewrite !dict_get_with_exists in Hpl.
  destruct (dict_get key (platforms p1)) as [[st1|]|],
           (dict_get key (platforms p2)) as [[st2|]|];
    cbn in Hpl; try discriminate; try exact I.
  injection Hpl as Hh _ _ _. exact Hh.
Qed.

Lemma blind_platform_handle key i : blind_to_flags (platform_handle key i).
Proof.
  intros w1 w2 H. rewrite !platform_handle_spec. cbn [fst snd].
  split; [|exact H]. destruct H as (Ho & _).
  apply (f_equal (fun l => l !! i)) in Ho. rewrite !list_lookup_fmap in Ho.
  destruct (objs w1 !! i) as [p1|], (objs w2 !! i) as [p2|];
    cbn in Ho; try discriminate; [|reflexivity].
  assert (Hf : flags_forgotten p1 = flags_forgotten p2) by congruence.
  pose proof (same_handle key p1 p2 Hf) as Hh.
  destruct (dict_get key (platforms p1)) as [[st1|]|],
           (dict_get key (platforms p2)) as [[st2|]|];
    try contradiction; try reflexivity.
  rewrite Hh. reflexivity.
Qed.

Lemma blind_assign key i result : blind_to_flags (assign_status key i result).
Proof.
  intros w1 w2 (Ho & Hc & Hs & Hr & Hcl). unfold assign_status. cbn.
  split; [reflexivity|]. repeat split; cbn; try congruence.
  set (g := fun p => set_platforms (dict_set key (Some result) (platforms p)) p).
  set (g' := fun p =>
               set_platforms
                 (dict_set key (Some (reflag (fun _ => false) result))
                           (platforms p)) p).
  assert (Hcomm : forall l : list Participant,
            map flags_forgotten (alter g i l)
            = alter g' i (map flags_forgotten l)).
  { intros l. apply (list_fmap_alter flags_forgotten g g').
    apply Forall_forall. intros p _. subst g g'.
    destruct p as [ht nm b c pl tr pc].
    unfold flags_forgotten, with_exists, set_platforms.
    cbn [platforms hall_ticket_no name batch college total_rating
         percentile].
    rewrite reflag_all_dict_set. reflexivity. }
  rewrite !Hcomm, Ho. reflexivity.
Qed.

Section CodeforcesBlind.
Variable client : client_behaviour.

Lemma blind_first_result results :
  blind_to_flags (Codeforces.first_result results).
Proof.
  unfold Codeforces.first_result.
  destruct (negb (truthy results)); [apply blind_ret|].
  destruct results as [| | |[|c s]|[|x l]|];
    first [apply blind_ret | apply blind_raise].
Qed.

Lemma blind_single_user h :
  blind_to_flags (Codeforces.get_single_user_info client h).
Proof.
  unfold Codeforces.get_single_user_info.
  destruct (_ || _); [apply blind_ret|].
  apply blind_try.
  - apply blind_bind; [apply blind_call|]. intros j. apply blind_first_result.
  - intros e. destruct (_ || _); [apply blind_ret|apply blind_raise].
Qed.

Lemma blind_retry_wrapper {A} (again : M World A) :
  blind_to_flags again -> blind_to_flags (retry_wrapper again).
Proof.
  intros H. unfold retry_wrapper. apply blind_try; [exact H|].
  intros e. destruct (isinstance e RateLimitError); apply blind_raise.
Qed.

Lemma blind_get_participant_data fuel i :
  blind_to_flags (Codeforces.get_participant_data client fuel i).
Proof.
  induction fuel as [|fuel IH]; cbn [Codeforces.get_participant_data];
    [apply blind_diverge|].
  apply blind_bind; [apply blind_platform_handle|]. intros username.
  destruct (_ || _); [apply blind_new_status|].
  apply blind_try.
  - apply blind_bind; [apply blind_single_user|]. intros user_data.
    destruct (negb (truthy user_data)); [apply blind_new_status|].
    apply blind_bind; [apply blind_get_method|]. intros rating.
    apply blind_new_status.
  - intros e.
    destruct (isinstance e UserNotFoundError); [apply blind_new_status|].
    destruct (isinstance e RateLimitError).
    + apply blind_bind; [apply blind_sleep|]. intros _.
      apply blind_retry_wrapper, IH.
    + destruct (isinstance e ScraperError); apply blind_raise.
Qed.

Lemma blind_process_one fuel results i :
  blind_to_flags (Codeforces.process_one client fuel results i).
Proof.
  unfold Codeforces.process_one.
  apply blind_finally; [|apply blind_close].
  apply blind_try.
  - apply blind_bind; [apply blind_get_participant_data|]. intros result.
    apply blind_bind; [apply blind_assign|]. intros _. apply blind_ret.
  - intros e. destruct (isinstance e RateLimitError); [|apply blind_raise].
    apply blind_bind; [apply blind_sleep|]. intros _.
    apply blind_try.
    + apply blind_bind.
      * unfold Codeforces._retry_get_participant_data.
        apply blind_retry_wrapper, blind_get_participant_data.
      * intros result.
        apply blind_bind; [apply blind_assign|]. intros _. apply blind_ret.
    + intros e'. destruct (isinstance e' RateLimitError); [apply blind_ret|].
      destruct (_ || _); [apply blind_ret|apply blind_raise].
Qed.

Lemma blind_process_loop fuel participants :
  forall results,
    blind_to_flags (Codeforces.process_loop client fuel participants results).
Proof.
  induction participants as [|i rest IH]; intros results;
    cbn [Codeforces.process_loop]; [apply blind_ret|].
  apply blind_bind; [apply blind_process_one|]. intros results'. apply IH.
Qed.

Lemma blind_process_batch fuel participants :
  blind_to_flags (Codeforces.process_batch client fuel participants).
Proof. apply blind_process_loop. Qed.
End CodeforcesBlind.

(** C7, as the code has it.  [CodeforcesService.process_batch] cannot tell
    two runs apart that differ only in stored [exists] flags: it gives the
    same result, sends the same requests, sleeps as much, and leaves
    objects that again differ in those flags only.  A participant marked
    [exists = false] is processed like any other; for a batch of one, with
    whatever flag: when the stored handle is missing, empty, ["#n/a"] or
    contains ['@'], no request is sent, the participant is returned and
    its status is replaced by a not-found status stamped now.  Otherwise
    exactly one call of the client is made for the handle, however it
    ends, and: when the client returns nothing or raises a [ScraperError]
    of any kind, the participant is returned and its status is replaced by
    a not-found status stamped now; when it returns a user whose rating is
    a number or missing, the participant is returned with that rating ([0]
    when missing), [exists = true] and the user as raw data; when it raises
    an exception that is no [ScraperError], [process_batch] raises it and
    the participant objects stay as they were.  A batch of Codeforces that
    returns, returns every participant it was given; on LeetCode, where
    participants are skipped, one that is not returned keeps its stored
    status. *)
Theorem codeforces_rerun_of_not_found
    (client : client_behaviour) (fuel i : nat) (w : World)
    (p : Participant) (st : PlatformStatus)
    (Hfuel : (0 < fuel)%nat)
    (Hp : objs w !! i = Some p)
    (Hst : dict_get Codeforces.KEY (platforms p) = Some (Some st)) :
  (forall participants w1 w2,
     same_but_flags w1 w2 ->
     fst (Codeforces.process_batch client fuel participants w1)
     = fst (Codeforces.process_batch client fuel participants w2)
     /\ same_but_flags
          (snd (Codeforces.process_batch client fuel participants w1))
          (snd (Codeforces.process_batch client fuel participants w2)))
  /\ (unusable (handle st) = true ->
      exists w',
        Codeforces.process_batch client fuel [i] w = (Ret [i], w')
        /\ requests w' = requests w
        /\ objs w' !! i
           = Some (with_status Codeforces.KEY
                     (not_found_status (handle st) (clock w)) p))
  /\ (forall u,
        handle st = Some u -> unusable (Some u) = false ->
        (forall r w',
           Codeforces.process_batch client fuel [i] w = (r, w') ->
           requests w' = requests w ++ [u])
        /\ (says_nothing (client (length (requests w)) u) = true ->
            exists w',
              Codeforces.process_batch client fuel [i] w = (Ret [i], w')
              /\ objs w' !! i
                 = Some (with_status Codeforces.KEY
                           (not_found_status (Some u) (clock w)) p))
        /\ (forall field fields more q,
              client (length (requests w)) u
              = Ret (JArr (JObj (field :: fields) :: more)) ->
              default (JNum 0) (dict_get "rating" (field :: fields))
              = JNum q ->
              exists w',
                Codeforces.process_batch client fuel [i] w = (Ret [i], w')
                /\ objs w' !! i
                   = Some (with_status Codeforces.KEY
                             (mkStatus (Some u) (Some q) true (clock w)
                                       (JObj (field :: fields)))
                             p))
        /\ (forall e,
              client (length (requests w)) u = Raise e ->
              isinstance e ScraperError = false ->
              exists w',
                Codeforces.process_batch client fuel [i] w = (Raise e, w')
                /\ objs w' = objs w))
  /\ (forall participants w0 results w',
        Codeforces.process_batch client fuel participants w0
        = (Ret results, w') ->
        results = participants)
  /\ (forall leetcode participants w0 results w',
        LeetCode.process_batch leetcode fuel participants w0
        = (Ret results, w') ->
        forall j, j ∉ results -> objs w' !! j = objs w0 !! j).
Proof.
  assert (Hlook : forall result (l : list Participant),
            l !! i = Some p ->
            alter (with_status Codeforces.KEY result) i l !! i
            = Some (with_status Codeforces.KEY result p)).
  { intros result l Hl. rewrite list_lookup_alter.
    destruct (decide (i = i)); [|congruence]. rewrite Hl. reflexivity. }
  split; [|split; [|split; [|split]]].
  - intros participants. apply blind_process_batch.
  - intros Hun. eexists. split.
    + eapply codeforces_batch_of_one.
      eapply codeforces_get_unusable; eauto.
    + split; [reflexivity|]. cbn [objs]. apply Hlook, Hp.
  - intros u Hu Hus. split; [|split; [|split]].
    + intros r w'. eapply codeforces_batch_asks_once; eauto.
    + intros Hnothing. eexists. split.
      * eapply codeforces_batch_of_one.
        eapply codeforces_get_nothing; eauto.
      * cbn [objs]. apply Hlook, Hp.
    + intros field fields more q Hanswer Hrating. eexists. split.
      * eapply codeforces_batch_of_one.
        eapply codeforces_get_found; eauto.
      * cbn [objs]. rewrite Hrating. apply Hlook, Hp.
    + intros e Hanswer Hns. eexists. split.
      * eapply codeforces_batch_escapes; eauto.
      * reflexivity.
  - intros participants w0 results w' H.
    unfold Codeforces.process_batch in H.
    apply codeforces_loop_spec in H as (_ & _ & _ & Hres & _).
    exact (proj1 (Hres _ eq_refl)).
  - intros leetcode participants w0 results w'.
    apply leetcode_skipped_untouched.
Qed.

(** Ghost, marked not found yesterday.  Codeforces still knows nobody:
    one request is sent and the stored status is stamped anew.  The
    connection fails on every attempt: one call is made, the batch raises
    [RetryError] and Ghost keeps the status of yesterday.  Had Ghost been
    marked as existing, the first run would have gone the same way. *)
Lemma codeforces_rerun_of_not_found_witness :
  (exists_ <$> status_of Codeforces.KEY ghost_on_codeforces) = Some false
  /\ fst (Codeforces.process_batch still_nobody 1 [0%nat]
            (mkWorld [with_exists (fun _ => true) ghost_on_codeforces]
                     noon [] [] 0))
     = fst (Codeforces.process_batch still_nobody 1 [0%nat] second_run)
  /\ (exists w',
        Codeforces.process_batch still_nobody 1 [0%nat] second_run
        = (Ret [0%nat], w')
        /\ requests w' = ["ghost"]
        /\ objs w' !! 0%nat
           = Some (with_status Codeforces.KEY
                     (not_found_status (Some "ghost") noon)
                     ghost_on_codeforces))
  /\ (exists w',
        Codeforces.process_batch out_of_attempts 1 [0%nat] second_run
        = (Raise (an RetryError), w')
        /\ requests w' = ["ghost"]
        /\ objs w' = [ghost_on_codeforces]).
Proof.
  destruct (codeforces_rerun_of_not_found still_nobody 1 0 second_run
              ghost_on_codeforces (not_found_status (Some "ghost") yesterday)
              (Nat.lt_0_succ 0) eq_refl eq_refl)
    as (Hblind & _ & Hasked & _ & _).
  destruct (Hasked "ghost" eq_refl eq_refl) as (Honce & Hnothing & _ & _).
  destruct (Hnothing eq_refl) as (w1 & Hrun1 & Hobj1).
  destruct (codeforces_rerun_of_not_found out_of_attempts 1 0 second_run
              ghost_on_codeforces (not_found_status (Some "ghost") yesterday)
              (Nat.lt_0_succ 0) eq_refl eq_refl)
    as (_ & _ & Hasked' & _ & _).
  destruct (Hasked' "ghost" eq_refl eq_refl) as (Honce' & _ & _ & Hescapes).
  destruct (Hescapes (an RetryError) eq_refl eq_refl)
    as (w2 & Hrun2 & Hobj2).
  split; [reflexivity|]. split; [|split].
  - apply Hblind. repeat split.
  - exists w1. split; [exact Hrun1|]. split; [|exact Hobj1].
    exact (Honce _ _ Hrun1).
  - exists w2. split; [exact Hrun2|]. split; [|exact Hobj2].
    exact (Honce' _ _ Hrun2).
Defined.

(** C7, as stated, fails.  Ghost is stored as not found; the second run
    sends a request for the handle all the same and overwrites the stored
    status, with a new time stamp when Codeforces still knows nobody and
    with [exists = true] and a rating when it now does. *)
Lemma rerun_of_not_found_asks_again :
  (exists_ <$> (objs second_run !! 0%nat ≫= status_of Codeforces.KEY))
  = Some false
  /\ requests second_run = []
  /\ requests (snd (Codeforces.process_batch still_nobody 1 [0%nat] second_run))
     = ["ghost"]
  /\ objs (snd (Codeforces.process_batch still_nobody 1 [0%nat] second_run))
     <> objs second_run
  /\ (objs (snd (Codeforces.process_batch found_today 1 [0%nat] second_run))
        !! 0%nat ≫= status_of Codeforces.KEY)
     = Some (mkStatus (Some "ghost") (Some (inject_Z 1200)) true noon
               (JObj [("handle", JStr "ghost");
                      ("rating", JNum (inject_Z 1200))])).
Proof.
  split; [reflexivity|]. split; [reflexivity|]. split; [reflexivity|].
  split; [|reflexivity].
  intros H.
  apply (f_equal (fun l => first_stamp (mkWorld l 0 [] [] 0))) in H.
  vm_compute in H. discriminate H.
Qed.

(** ** A participant without the platform's key *)

Lemma platform_handle_missing key i w p :
  objs w !! i = Some p ->
  dict_get key (platforms p) = None ->
  platform_handle key i w = (Raise (an KeyError), w).
Proof. intros Hp Hk. rewrite platform_handle_spec, Hp, Hk. reflexivity. Qed.

(** X14.  A participant whose [platforms] has no entry for the platform.
    LeetCode's [process_batch] tests for the key and goes on to the next
    participant, without a request or a pause; CodeChef's and Codeforces'
    subscript the dictionary, and the [KeyError] ends the whole batch after
    the client was closed, whatever came before and whoever comes after. *)
Theorem missing_platform_key
    (client : client_behaviour) (fuel : nat) (i : nat) (rest results : list nat)
    (w : World) (p : Participant)
    (Hfuel : (0 < fuel)%nat)
    (Hp : objs w !! i = Some p) :
  (dict_get LeetCode.KEY (platforms p) = None ->
   LeetCode.process_loop client fuel (i :: rest) results w
   = LeetCode.process_loop client fuel rest results w)
  /\ (dict_get CodeChef.KEY (platforms p) = None ->
      CodeChef.process_loop client fuel (i :: rest) results w
      = (Raise (an KeyError), closed_once w))
  /\ (dict_get Codeforces.KEY (platforms p) = None ->
      Codeforces.process_loop client fuel (i :: rest) results w
      = (Raise (an KeyError), closed_once w)).
Proof.
  destruct fuel as [|fuel]; [lia|]. split; [|split]; intros Hk.
  - cbn [LeetCode.process_loop].
    erewrite bind_ret; [reflexivity|].
    unfold LeetCode.process_one.
    erewrite try_ret; [reflexivity|].
    erewrite bind_ret
      by (unfold LeetCode.has_no_key, deref; unfold mbind, M_bind;
          rewrite Hp, Hk; reflexivity).
    reflexivity.
  - assert (Hget : CodeChef.get_participant_data client (S fuel) i w
                   = (Raise (an KeyError), w)).
    { cbn [CodeChef.get_participant_data].
      erewrite bind_raise by (eapply platform_handle_missing; eassumption).
      reflexivity. }
    cbn [CodeChef.process_loop]. unfold CodeChef.process_one, try_finally.
    erewrite bind_raise; [reflexivity|].
    erewrite try_raise by (erewrite bind_raise by exact Hget; reflexivity).
    reflexivity.
  - assert (Hget : Codeforces.get_participant_data client (S fuel) i w
                   = (Raise (an KeyError), w)).
    { cbn [Codeforces.get_participant_data].
      erewrite bind_raise by (eapply platform_handle_missing; eassumption).
      reflexivity. }
    cbn [Codeforces.process_loop]. unfold Codeforces.process_one, try_finally.
    erewrite bind_raise; [reflexivity|].
    erewrite try_raise by (erewrite bind_raise by exact Hget; reflexivity).
    reflexivity.
Qed.

Lemma missing_platform_key_witness :
  let w := mkWorld [carol; bob] 0 [] [] 0 in
  LeetCode.process_batch leetcode_answer 1 [0%nat; 1%nat] w
  = LeetCode.process_batch leetcode_answer 1 [1%nat] w
  /\ CodeChef.process_batch (fun _ _ => Ret (codechef_profile 1500)) 1
       [0%nat; 1%nat] w
     = (Raise (an KeyError), closed_once w).
Proof.
  intros w.
  destruct (missing_platform_key leetcode_answer 1 0 [1%nat] [] w carol)
    as (Hl & _ & _); [lia|reflexivity|].
  destruct (missing_platform_key (fun _ _ => Ret (codechef_profile 1500))
              1 0 [1%nat] [] w carol)
    as (_ & Hc & _); [lia|reflexivity|].
  split; [exact (Hl eq_refl)|exact (Hc eq_refl)].
Defined.

(** ** The GeeksForGeeks leaderboard cache in memory *)

Section GfgCache.
Import GeeksForGeeks.

Lemma hydrate_loaded force_refresh g g' :
  hydrate force_refresh g = (Ret true, g') ->
  is_cache_initialized g' = true.
Proof.
  unfold hydrate. destruct force_refresh; cbn [negb]; [discriminate|].
  unfold try_except. unfold mbind at 1. unfold M_bind at 1.
  unfold repo_get_platform_cache_entries.
  destruct (get_platform_cache_entries _ _ _ _) as [[|e es]|x|];
    try discriminate.
  unfold mbind at 1. unfold M_bind at 1.
  destruct (load_entries (e :: es) g) as [[[]|x|] g1]; try discriminate.
  cbn. intros [= <-]. reflexivity.
Qed.

Lemma fetch_leaderboard_marks server overshoot max_pages g g' :
  fetch_leaderboard server overshoot max_pages g = (Ret tt, g') ->
  is_cache_initialized g' = true.
Proof.
  unfold fetch_leaderboard. unfold mbind at 1. unfold M_bind at 1.
  cbn [gets]. cbv beta iota.
  unfold mbind at 1. unfold M_bind at 1.
  destruct (pages_loop _ _ _ _ _ g) as [[loc|x|] g1]; try discriminate.
  unfold mbind at 1. unfold M_bind at 1.
  destruct (try_except _ _ g1) as [[[]|x|] g2]; try discriminate.
  cbn. intros [= <-]. reflexivity.
Qed.

(** X15.  [initialize_cache] is idempotent.  Whenever it returns, the
    cache is marked initialised; and from then on a call without
    [force_refresh] returns at once and changes nothing: no request, no
    read of the store, whatever the upstream would have answered. *)
Theorem initialize_cache_is_idempotent
    (server : nat -> transport) (overshoot : nat -> Q)
    (max_pages : nat) (force_refresh : bool) (g g' : GfgClient)
    (Hreturns : initialize_cache server overshoot max_pages force_refresh g
                = (Ret tt, g')) :
  is_cache_initialized g' = true
  /\ forall server' overshoot' max_pages',
       initialize_cache server' overshoot' max_pages' false g' = (Ret tt, g').
Proof.
  assert (Hinit : is_cache_initialized g' = true).
  { revert Hreturns. unfold initialize_cache.
    unfold mbind at 1. unfold M_bind at 1. cbn [gets]. cbv beta iota.
    destruct (is_cache_initialized g && negb force_refresh) eqn:Hskip.
    - intros [= <-]. apply andb_prop in Hskip as [H _]. exact H.
    - unfold mbind at 1. unfold M_bind at 1.
      destruct (hydrate force_refresh g) as [[[]|x|] g1] eqn:Hh;
        try discriminate.
      + intros [= <-]. exact (hydrate_loaded _ _ _ Hh).
      + apply fetch_leaderboard_marks. }
  split; [exact Hinit|].
  intros server' overshoot' max_pages'. unfold initialize_cache.
  unfold mbind at 1. unfold M_bind at 1. cbn [gets]. cbv beta iota.
  rewrite Hinit. reflexivity.
Qed.

(** Hydrated at noon from the store, then asked again over an upstream that
    would answer 429. *)
Lemma initialize_cache_is_idempotent_witness :
  let g' := snd (initialize_cache always_ok punctual 1000 false gfg_at_noon) in
  is_cache_initialized g' = true
  /\ initialize_cache always_429 punctual 1000 false g' = (Ret tt, g').
Proof.
  intros g'.
  destruct (initialize_cache_is_idempotent always_ok punctual 1000 false
              gfg_at_noon g') as [Hinit Hagain].
  - subst g'. vm_compute. reflexivity.
  - split; [exact Hinit|apply Hagain].
Defined.

Lemma dict_get_set_eq {V} k (v : V) d : dict_get k (dict_set k v d) = Some v.
Proof.
  induction d as [|[k' v'] d IH]; cbn.
  - destruct (decide (k = k)); congruence.
  - destruct (decide (k' = k)) as [Heq|Hne]; cbn.
    + destruct (decide (k' = k)); congruence.
    + destruct (decide (k' = k)); [contradiction|exact IH].
Qed.

Lemma dict_get_set_ne {V} k k' (v : V) d :
  k' <> k -> dict_get k (dict_set k' v d) = dict_get k d.
Proof.
  intros Hne. induction d as [|[k0 v0] d IH]; cbn.
  - destruct (decide (k' = k)); [contradiction|reflexivity].
  - destruct (decide (k0 = k')) as [->|Hne0]; cbn.
    + destruct (decide (k' = k)); [contradiction|reflexivity].
    + destruct (decide (k0 = k)); [reflexivity|exact IH].
Qed.

Lemma entry_handle_ok row g :
  row_ok row = true -> exists h, entry_handle row g = (Ret h, g).
Proof.
  unfold row_ok, entry_handle, get_method.
  destruct row as [| | | | |fields]; try discriminate.
  unfold mbind, M_bind. cbn [mret M_ret].
  destruct (dict_get "user_handle" fields) as [[| | |s| |]|];
    try discriminate; intros _; cbn; eauto.
Qed.

Lemma index_entry_user_cache contest_id entry h g :
  exists uc, index_entry contest_id entry h g = (Ret tt, set_user_cache uc g).
Proof.
  unfold index_entry. destruct (String.eqb h "").
  - exists (user_cache g). destruct g; reflexivity.
  - eexists. reflexivity.
Qed.

Lemma load_rows_ok contest_id rows_ :
  forall g,
    Forall (fun row => row_ok row = true) rows_ ->
    exists uc, load_rows contest_id rows_ g = (Ret tt, set_user_cache uc g).
Proof.
  induction rows_ as [|row rest IH]; intros g Hall.
  - exists (user_cache g). destruct g; reflexivity.
  - apply Forall_cons in Hall as [Hrow Hrest]. cbn [load_rows].
    destruct (entry_handle_ok row g Hrow) as [h Hh].
    erewrite bind_ret by exact Hh.
    destruct (index_entry_user_cache contest_id row h g) as [uc1 H1].
    erewrite bind_ret by exact H1.
    destruct (IH (set_user_cache uc1 g) Hrest) as [uc2 H2].
    exists uc2. rewrite H2. reflexivity.
Qed.

Lemma load_entries_ok (es : list LeaderboardCache.t) :
  forall g,
    Forall (fun e => Forall (fun row => row_ok row = true)
                            (LeaderboardCache.entries e)) es ->
    exists uc,
      load_entries es g
      = (Ret tt,
         mkGfg (base g)
               (fold_left (fun d e => dict_set (LeaderboardCache.cache_id e)
                                               (JArr (LeaderboardCache.entries e))
                                               d)
                          es (leaderboard_cache g))
               uc (is_cache_initialized g) (cache_db g)).
Proof.
  induction es as [|e es IH]; intros g Hall.
  - exists (user_cache g). destruct g; reflexivity.
  - apply Forall_cons in Hall as [He Hrest]. cbn [load_entries fold_left].
    erewrite bind_ret by reflexivity.
    match goal with
    | |- context [load_rows ?id ?rs] =>
        destruct (load_rows_ok id rs
                    (set_leaderboard_cache
                       (dict_set (LeaderboardCache.cache_id e)
                                 (JArr (LeaderboardCache.entries e))
                                 (leaderboard_cache g)) g) He) as [uc1 H1]
    end.
    erewrite bind_ret by exact H1.
    destruct (IH (set_user_cache uc1
                    (set_leaderboard_cache
                       (dict_set (LeaderboardCache.cache_id e)
                                 (JArr (LeaderboardCache.entries e))
                                 (leaderboard_cache g)) g)) Hrest) as [uc2 H2].
    exists uc2. rewrite H2. reflexivity.
Qed.

Lemma fold_dict_set_others k (es : list LeaderboardCache.t) :
  forall d,
    Forall (fun e => LeaderboardCache.cache_id e <> k) es ->
    dict_get k
      (fold_left (fun d e => dict_set (LeaderboardCache.cache_id e)
                                      (JArr (LeaderboardCache.entries e)) d)
                 es d)
    = dict_get k d.
Proof.
  induction es as [|e es IH]; intros d Hall; [reflexivity|].
  apply Forall_cons in Hall as [He Hrest]. cbn [fold_left].
  rewrite IH by exact Hrest. apply dict_get_set_ne. exact He.
Qed.

(** X16.  Hydration.  When the store holds at least one fresh
    GeeksForGeeks page and its rows are well formed, a first
    [initialize_cache] loads the pages from the store and returns: the
    HTTP client is left as it was (no request, no sleep), the store is
    not written, the cache is marked initialised, and each page id maps
    in memory to the rows of the last fresh entry that carries it. *)
Theorem cache_is_hydrated_from_the_store
    (server : nat -> transport) (overshoot : nat -> Q) (max_pages : nat)
    (g : GfgClient) (e : LeaderboardCache.t) (es : list LeaderboardCache.t)
    (Hneeded : is_cache_initialized g = false)
    (Hup : cache_db_up (cache_db g) = true)
    (Hfresh : fresh_entries (Qfloor (now (base g) * inject_Z second))
                GEEKSFORGEEKS (cache_collection (cache_db g)) = e :: es)
    (Hrows : Forall (fun x => Forall (fun row => row_ok row = true)
                                     (LeaderboardCache.entries x)) (e :: es)) :
  exists g',
    initialize_cache server overshoot max_pages false g = (Ret tt, g')
    /\ base g' = base g
    /\ cache_db g' = cache_db g
    /\ is_cache_initialized g' = true
    /\ forall earlier entry later,
         e :: es = earlier ++ entry :: later ->
         Forall (fun x => LeaderboardCache.cache_id x
                          <> LeaderboardCache.cache_id entry) later ->
         dict_get (LeaderboardCache.cache_id entry) (leaderboard_cache g')
         = Some (JArr (LeaderboardCache.entries entry)).
Proof.
  destruct (load_entries_ok (e :: es) g Hrows) as [uc Hload].
  eexists. split; [|split; [|split; [|split]]].
  - unfold initialize_cache.
    erewrite bind_ret by reflexivity. rewrite Hneeded. cbn [andb].
    erewrite bind_ret.
    2:{ unfold hydrate. cbn [negb].
        erewrite try_ret; [reflexivity|].
        erewrite bind_ret.
        2:{ unfold repo_get_platform_cache_entries, get_platform_cache_entries.
            rewrite Hup, collect_fresh_entries, Hfresh. reflexivity. }
        cbv beta iota.
        cbn [app]. erewrite bind_ret by exact Hload.
        erewrite bind_ret by reflexivity. reflexivity. }
    reflexivity.
  - reflexivity.
  - reflexivity.
  - reflexivity.
  - intros earlier entry later Hsplit Hlater.
    unfold set_is_cache_initialized. cbn [leaderboard_cache].
    rewrite Hsplit, fold_left_app. cbn [fold_left].
    rewrite fold_dict_set_others by exact Hlater.
    apply dict_get_set_eq.
Qed.

Lemma cache_is_hydrated_from_the_store_witness :
  exists g',
    initialize_cache always_429 punctual 1000 false gfg_at_noon = (Ret tt, g')
    /\ base g' = base gfg_at_noon
    /\ is_cache_initialized g' = true
    /\ dict_get "1" (leaderboard_cache g') = Some (JArr page_rows).
Proof.
  destruct (cache_is_hydrated_from_the_store always_429 punctual 1000
              gfg_at_noon
              (LeaderboardCache.mk GEEKSFORGEEKS "1" page_rows
                                   (noon - 1 * hour)) [])
    as (g' & Hrun & Hbase & _ & Hinit & Hget).
  - reflexivity.
  - reflexivity.
  - vm_compute. reflexivity.
  - repeat constructor.
  - exists g'. split; [exact Hrun|]. split; [exact Hbase|].
    split; [exact Hinit|].
    exact (Hget [] (LeaderboardCache.mk GEEKSFORGEEKS "1" page_rows
                                        (noon - 1 * hour)) []
                eq_refl (List.Forall_nil _)).
Defined.

Lemma request_once_keeps_rate (server : nat -> transport)
    (overshoot : nat -> Q) minute bypass c r c' :
  request_once server overshoot None minute bypass c = (r, c') ->
  rate_limit c' = rate_limit c.
Proof.
  unfold request_once, before_exchange, initialize, session_request,
         _rate_limit_by_minute, _rate_limit, govern, sleep_for.
  unfold_M. simpl.
  destruct (session_open c); simpl;
    destruct minute; simpl; destruct bypass; simpl;
    try (destruct (bypass_rate_limit c); simpl);
    try (destruct (decide (rate_limit c = 0)); simpl);
    try (destruct (Qlt_bool _ _); simpl);
    try (destruct (server _) as [resp| |]; simpl;
         [destruct (400 <=? status resp)%Z; simpl;
            [destruct (decide (status resp = 429)); simpl|]| |]);
    intros [= _ <-]; reflexivity.
Qed.

Lemma request_keeps_rate (server : nat -> transport) (overshoot : nat -> Q)
    minute bypass c r c' :
  request server overshoot None minute bypass c = (r, c') ->
  rate_limit c' = rate_limit c.
Proof.
  unfold request, retry.
  apply (attempts_invariant (fun x => rate_limit x = rate_limit c)).
  - intros c0 r0 c0' H0 Hrun.
    rewrite (request_once_keeps_rate _ _ _ _ _ _ _ Hrun). exact H0.
  - intros c0 d H0. exact H0.
  - reflexivity.
Qed.

Lemma store_page_empty (server : nat -> transport) (overshoot : nat -> Q)
    page loc g :
  rate_limit (base g) <> 0 ->
  empty_page (server (exchanges (base g))) = true ->
  exists b,
    store_page server overshoot page loc g = (Ret loc, set_base b g)
    /\ exchanges b = S (exchanges (base g))
    /\ rate_limit b = rate_limit (base g)
    /\ backoffs (slept b) = backoffs (slept (base g)).
Proof.
  intros Hrate Hempty. unfold empty_page in Hempty.
  destruct (server (exchanges (base g))) as [r| |] eqn:Hs; try discriminate.
  apply andb_prop in Hempty as [Hempty Hbody].
  apply andb_prop in Hempty as [Hstatus Hjson].
  destruct (body r) as [[| | | | |fields]|] eqn:Hb; try discriminate.
  destruct (request_ends_after_one server overshoot None false false (base g)
              Hrate) as (b & Hrun & Hex & Hbo).
  { rewrite Hs. reflexivity. }
  rewrite Hs in Hrun. cbn [attempt_outcome] in Hrun.
  assert (H400 : (400 <=? status r)%Z = false).
  { apply Z.leb_gt. apply Z.ltb_lt in Hstatus. exact Hstatus. }
  rewrite H400 in Hrun.
  exists b. split; [|split; [exact Hex|split; [|exact Hbo]]].
  - unfold store_page.
    erewrite bind_ret by (unfold on_base; rewrite Hrun; reflexivity).
    erewrite bind_ret by (unfold response_json; rewrite Hjson, Hb; reflexivity).
    erewrite bind_ret by reflexivity.
    apply negb_true_iff in Hbody. rewrite Hbody. reflexivity.
  - exact (request_keeps_rate _ _ _ _ _ _ _ Hrun).
Qed.

Lemma pages_loop_over_empty_pages (server : nat -> transport)
    (overshoot : nat -> Q) (count : nat) :
  (forall n, empty_page (server n) = true) ->
  forall page g,
    rate_limit (base g) <> 0 ->
    exists b,
      pages_loop server overshoot count page (mkLocals [] [] None) g
      = (Ret (mkLocals [] [] None), set_base b g)
      /\ exchanges b = (exchanges (base g) + count)%nat
      /\ rate_limit b = rate_limit (base g)
      /\ backoffs (slept b) = backoffs (slept (base g)).
Proof.
  intros Hserver. induction count as [|count IH]; intros page g Hrate.
  - exists (base g). cbn. destruct g; cbn. repeat split; lia.
  - destruct (store_page_empty server overshoot page (mkLocals [] [] None) g
                Hrate (Hserver _)) as (b1 & Hstore & Hex1 & Hr1 & Hb1).
    destruct (IH (S page) (set_base b1 g)) as (b2 & Hloop & Hex2 & Hr2 & Hb2).
    { cbn. congruence. }
    exists b2. cbn [base set_base] in *.
    split; [|split; [lia|split; congruence]].
    cbn [pages_loop processed_pages].
    destruct (bool_decide (page ∈ ([] : list nat))) eqn:Hin.
    { apply bool_decide_eq_true in Hin. inversion Hin. }
    erewrite bind_ret.
    2:{ cbn [fetch_page]. change (max_retries <? 0)%nat with false.
        cbv beta iota.
        erewrite try_ret; [reflexivity|].
        erewrite bind_ret by exact Hstore. reflexivity. }
    cbv beta iota.
    erewrite bind_ret by reflexivity.
    cbn [found_zero]. rewrite Hloop. destruct g; reflexivity.
Qed.

Lemma hydrate_nothing force_refresh g :
  (force_refresh = false ->
   get_platform_cache_entries (Qfloor (now (base g) * inject_Z second))
                              (cache_db g) GEEKSFORGEEKS true = Ret []) ->
  hydrate force_refresh g = (Ret false, g).
Proof.
  intros Hstore. unfold hydrate.
  destruct force_refresh; [reflexivity|]. cbn [negb].
  erewrite try_ret; [reflexivity|].
  erewrite bind_ret
    by (unfold repo_get_platform_cache_entries; rewrite (Hstore eq_refl);
        reflexivity).
  reflexivity.
Qed.

(** X17.  An empty page does not end the fetch.  The branch that logs
    that there are no more entries only leaves the retry loop of that
    page, and the loop over the pages goes on: over an upstream whose
    leaderboard has no rows, a fetch from scratch asks for every one of
    the [max_pages] pages, one exchange each, caches nothing and still
    marks the cache initialised. *)
Theorem empty_pages_do_not_stop_the_fetch
    (server : nat -> transport) (overshoot : nat -> Q)
    (max_pages : nat) (force_refresh : bool) (g : GfgClient)
    (Hneeded : is_cache_initialized g && negb force_refresh = false)
    (Hstore : force_refresh = false ->
              get_platform_cache_entries
                (Qfloor (now (base g) * inject_Z second))
                (cache_db g) GEEKSFORGEEKS true = Ret [])
    (Hmemory : leaderboard_cache g = [])
    (Hrate : rate_limit (base g) <> 0)
    (Hserver : forall n, empty_page (server n) = true) :
  exists b,
    initialize_cache server overshoot max_pages force_refresh g
    = (Ret tt, set_is_cache_initialized true (set_base b g))
    /\ exchanges b = (exchanges (base g) + max_pages)%nat
    /\ backoffs (slept b) = backoffs (slept (base g)).
Proof.
  destruct (pages_loop_over_empty_pages server overshoot max_pages Hserver
              0%nat g Hrate) as (b & Hloop & Hex & _ & Hbo).
  exists b. split; [|split; assumption].
  unfold initialize_cache.
  erewrite bind_ret by reflexivity. rewrite Hneeded.
  erewrite bind_ret by (apply hydrate_nothing; exact Hstore). cbv beta iota.
  unfold fetch_leaderboard.
  erewrite bind_ret by reflexivity.
  unfold processed_page_ids. rewrite Hmemory. cbn [omap list_omap].
  rewrite Nat.sub_0_r.
  erewrite bind_ret by exact Hloop.
  cbn [db_cache_entries_to_save].
  erewrite bind_ret by reflexivity.
  reflexivity.
Qed.

Lemma empty_pages_do_not_stop_the_fetch_witness :
  exists b,
    initialize_cache no_rows punctual 25 false fresh_gfg
    = (Ret tt, set_is_cache_initialized true (set_base b fresh_gfg))
    /\ exchanges b = (0 + 25)%nat
    /\ backoffs (slept b) = [].
Proof.
  apply (empty_pages_do_not_stop_the_fetch no_rows punctual 25 false fresh_gfg).
  - reflexivity.
  - reflexivity.
  - reflexivity.
  - discriminate.
  - reflexivity.
Defined.

Lemma scan_rows_ok page rows_ :
  forall found g,
    Forall (fun row => row_ok row = true) rows_ ->
    exists uc,
      scan_rows page rows_ found g
      = (Ret (found || existsb score_is_zero rows_), set_user_cache uc g).
Proof.
  induction rows_ as [|row rest IH]; intros found g Hall.
  - exists (user_cache g). cbn. rewrite orb_false_r. destruct g; reflexivity.
  - apply Forall_cons in Hall as [Hrow Hrest]. cbn [scan_rows existsb].
    destruct (entry_handle_ok row g Hrow) as [h Hh].
    erewrite bind_ret by exact Hh.
    destruct row as [| | | | |fields]; try discriminate.
    erewrite bind_ret by reflexivity.
    destruct (index_entry_user_cache (str page) (JObj fields) h g)
      as [uc1 H1].
    erewrite bind_ret by exact H1.
    destruct (IH (found || zero_or_none
                              (default JNull (dict_get "user_score" fields)))
                 (set_user_cache uc1 g) Hrest) as [uc2 H2].
    exists uc2. rewrite H2. cbn [score_is_zero]. rewrite orb_assoc.
    reflexivity.
Qed.

Lemma repo_save_guarded (l : list LeaderboardCache.t) g :
  try_except (repo_save l) (fun _ => mret tt) g
  = (Ret tt, set_cache_db (snd (save_cache_entries (cache_db g) l)) g).
Proof.
  unfold try_except, repo_save, save_cache_entries.
  destruct l as [|e l]; [reflexivity|].
  destruct (cache_db_up (cache_db g)); reflexivity.
Qed.

(** X18.  The fetch ends at the first page that shows a zero score.  From
    scratch, when page 0 comes back with well-formed rows one of which has
    a score of [0] or none, [initialize_cache] stops there whatever
    [max_pages] allows: one exchange, the page in memory under ["0"], the
    page handed to the store in one save stamped with the time of the
    answer (a failure of the store is swallowed), and the cache marked
    initialised. *)
Theorem fetch_stops_at_a_zero_score
    (server : nat -> transport) (overshoot : nat -> Q)
    (max_pages : nat) (force_refresh : bool) (g : GfgClient)
    (rows_ : list json)
    (Hneeded : is_cache_initialized g && negb force_refresh = false)
    (Hstore : force_refresh = false ->
              get_platform_cache_entries
                (Qfloor (now (base g) * inject_Z second))
                (cache_db g) GEEKSFORGEEKS true = Ret [])
    (Hmemory : leaderboard_cache g = [])
    (Hpages : (0 < max_pages)%nat)
    (Hrate : rate_limit (base g) <> 0)
    (Hanswer : server (exchanges (base g)) = page_of rows_)
    (Hrows : Forall (fun row => row_ok row = true) rows_)
    (Hzero : existsb score_is_zero rows_ = true) :
  exists b uc,
    initialize_cache server overshoot max_pages force_refresh g
    = (Ret tt,
       mkGfg b [("0", JArr rows_)] uc true
             (snd (save_cache_entries (cache_db g)
                     [LeaderboardCache.mk GEEKSFORGEEKS "0" rows_
                        (Qfloor (now b * inject_Z second))])))
    /\ exchanges b = S (exchanges (base g))
    /\ backoffs (slept b) = backoffs (slept (base g)).
Proof.
  destruct (request_ends_after_one server overshoot None false false (base g)
              Hrate) as (b & Hrun & Hex & Hbo).
  { rewrite Hanswer. reflexivity. }
  rewrite Hanswer in Hrun.
  change (attempt_outcome (page_of rows_))
    with (Ret (mkResponse 200 true (Some (JObj [("results", JArr rows_)]))))
    in Hrun.
  set (g2 := set_leaderboard_cache [("0", JArr rows_)] (set_base b g)).
  destruct (scan_rows_ok 0 rows_ false g2 Hrows) as [uc Hscan].
  rewrite Hzero in Hscan. cbn [orb] in Hscan.
  set (entry := LeaderboardCache.mk GEEKSFORGEEKS "0" rows_
                  (Qfloor (now b * inject_Z second))).
  assert (Hne : truthy (JArr rows_) = true).
  { destruct rows_; [discriminate Hzero|reflexivity]. }
  assert (Hpage :
    store_page server overshoot 0 (mkLocals [] [] None) g
    = (Ret (mkLocals [entry] [0%nat] (Some true)), set_user_cache uc g2)).
  { unfold store_page.
    erewrite bind_ret by (unfold on_base; rewrite Hrun; reflexivity).
    erewrite bind_ret by reflexivity.
    erewrite bind_ret by reflexivity.
    cbn [dict_get]. destruct (decide ("results" = "results")); [|congruence].
    change (default (JArr []) (Some (JArr rows_))) with (JArr rows_).
    rewrite Hne. cbn [negb].
    erewrite bind_ret
      by (unfold modify; cbn [base set_base leaderboard_cache];
          rewrite Hmemory; reflexivity).
    erewrite bind_ret by reflexivity.
    erewrite bind_ret by reflexivity.
    erewrite bind_ret by exact Hscan.
    erewrite bind_ret by reflexivity.
    erewrite bind_ret by reflexivity.
    reflexivity. }
  exists b, uc. split; [|split; assumption].
  unfold initialize_cache.
  erewrite bind_ret by reflexivity. rewrite Hneeded.
  erewrite bind_ret by (apply hydrate_nothing; exact Hstore). cbv beta iota.
  unfold fetch_leaderboard.
  erewrite bind_ret by reflexivity.
  unfold processed_page_ids. rewrite Hmemory. cbn [omap list_omap].
  destruct max_pages as [|n]; [lia|]. rewrite Nat.sub_0_r.
  erewrite bind_ret.
  2:{ cbn [pages_loop processed_pages].
      destruct (bool_decide (0%nat ∈ ([] : list nat))) eqn:Hin.
      { apply bool_decide_eq_true in Hin. inversion Hin. }
      erewrite bind_ret.
      2:{ cbn [fetch_page]. change (max_retries <? 0)%nat with false.
          cbv beta iota.
          erewrite try_ret; [reflexivity|].
          erewrite bind_ret by exact Hpage. reflexivity. }
      cbv beta iota.
      erewrite bind_ret by reflexivity.
      cbn [found_zero]. reflexivity. }
  cbn [db_cache_entries_to_save].
  erewrite bind_ret by apply repo_save_guarded.
  destruct g; reflexivity.
Qed.

Lemma fetch_stops_at_a_zero_score_witness :
  exists b uc,
    initialize_cache (fun _ => page_of last_page) punctual 1000 false fresh_gfg
    = (Ret tt,
       mkGfg b [("0", JArr last_page)] uc true
             (snd (save_cache_entries (cache_db fresh_gfg)
                     [LeaderboardCache.mk GEEKSFORGEEKS "0" last_page
                        (Qfloor (now b * inject_Z second))])))
    /\ exchanges b = 1%nat
    /\ backoffs (slept b) = [].
Proof.
  apply (fetch_stops_at_a_zero_score (fun _ => page_of last_page) punctual
           1000 false fresh_gfg last_page).
  - reflexivity.
  - reflexivity.
  - reflexivity.
  - lia.
  - discriminate.
  - reflexivity.
  - repeat constructor.
  - reflexivity.
Defined.
End GfgCache.

(** ** The HackerRank leaderboard loop *)

(** What one attempt can hand back: a response below 400, or an exception
    that is not a [ClientResponseError]; it sleeps for the governor only. *)
Lemma request_once_result (server : nat -> transport) (overshoot : nat -> Q)
    rate_limit_arg minute bypass c r c' :
  request_once server overshoot rate_limit_arg minute bypass c = (r, c') ->
  cool_downs (slept c') = cool_downs (slept c)
  /\ (forall resp, r = Ret resp -> status resp < 400)
  /\ (forall e, r = Raise e -> isinstance e ClientResponseError = false).
Proof.
  unfold request_once, before_exchange, initialize, session_request,
         _rate_limit_by_minute, _rate_limit, govern, sleep_for.
  unfold_M. simpl.
  destruct (session_open c); simpl;
    (destruct rate_limit_arg as [x|]; simpl;
       [destruct (decide (x = 0)); simpl|]);
    destruct minute; simpl; destruct bypass; simpl;
    try (destruct (bypass_rate_limit c); simpl);
    try (destruct (decide (_ = 0)); simpl);
    try (destruct (Qlt_bool _ _); simpl);
    try (destruct (server _) as [resp| |]; simpl;
         [destruct (400 <=? status resp)%Z eqn:H400; simpl;
            [destruct (decide (status resp = 429)); simpl|]| |]);
    intros [= <- <-]; simpl; rewrite ?cool_downs_app; simpl;
    rewrite ?app_nil_r;
    (split; [reflexivity|split]); try discriminate;
    try (intros e' [= <-]; reflexivity);
    try (intros resp' [= <-]; apply Z.leb_gt in H400; exact H400).
Qed.

Lemma attempts_result {A} (overshoot : nat -> Q) retry_on wait
    (body : M Client A) (Pr : outcome A -> Prop) :
  (forall c r c',
     body c = (r, c') ->
     cool_downs (slept c') = cool_downs (slept c) /\ Pr r) ->
  forall remaining k c r c',
    attempts overshoot retry_on wait remaining k body c = (r, c') ->
    cool_downs (slept c') = cool_downs (slept c)
    /\ ((Pr r /\ forall e, r = Raise e -> retry_on e = false)
        \/ r = Raise (an RetryError)).
Proof.
  intros Hbody remaining.
  induction remaining as [|remaining IH]; intros k c r c';
    destruct (body c) as [r1 c1] eqn:E;
    destruct (Hbody _ _ _ E) as [Hcd HP].
  - rewrite (attempts_last _ _ _ _ _ _ _ _ E).
    destruct r1 as [a|e|].
    + intros [= <- <-]. split; [exact Hcd|]. left. split; [exact HP|].
      discriminate.
    + destruct (retry_on e) eqn:Hre; intros [= <- <-];
        (split; [exact Hcd|]); [right; reflexivity|].
      left. split; [exact HP|]. intros e' [= <-]. exact Hre.
    + intros [= <- <-]. split; [exact Hcd|]. left. split; [exact HP|].
      discriminate.
  - rewrite (attempts_more _ _ _ _ _ _ _ _ _ E).
    destruct r1 as [a|e|].
    + intros [= <- <-]. split; [exact Hcd|]. left. split; [exact HP|].
      discriminate.
    + destruct (retry_on e) eqn:Hre.
      * intros H. apply IH in H as [Hcd' Hres]. split; [|exact Hres].
        rewrite Hcd'. cbn. rewrite cool_downs_app. cbn.
        rewrite app_nil_r. exact Hcd.
      * intros [= <- <-]. split; [exact Hcd|]. left. split; [exact HP|].
        intros e' [= <-]. exact Hre.
    + intros [= <- <-]. split; [exact Hcd|]. left. split; [exact HP|].
      discriminate.
Qed.

(** What [request] can hand back, whatever the upstream and the client:
    a response below 400, or an exception that is no [aiohttp.ClientError];
    and it never sleeps to cool down. *)
Lemma request_result (server : nat -> transport) (overshoot : nat -> Q)
    rate_limit_arg minute bypass c r c' :
  request server overshoot rate_limit_arg minute bypass c = (r, c') ->
  cool_downs (slept c') = cool_downs (slept c)
  /\ (forall resp, r = Ret resp -> status resp < 400)
  /\ (forall e, r = Raise e -> isinstance e ClientError = false).
Proof.
  intros Hrun. unfold request, retry in Hrun.
  apply (attempts_result overshoot _ _ _
           (fun r => (forall resp, r = Ret resp -> status resp < 400)
                     /\ (forall e, r = Raise e ->
                                   isinstance e ClientResponseError = false)))
    in Hrun.
  - destruct Hrun as [Hcd [[[Hret _] Hraise] | Hretry]].
    + split; [exact Hcd|]. split; [exact Hret|exact Hraise].
    + subst r. split; [exact Hcd|]. split; [discriminate|].
      intros e [= <-]. reflexivity.
  - intros c0 r0 c0' H0. apply request_once_result in H0 as (H1 & H2 & H3).
    split; [exact H1|]. split; assumption.
Qed.

Lemma client_response_is_client_error e :
  isinstance e ClientError = false -> isinstance e ClientResponseError = false.
Proof. destruct e as [[] s]; vm_compute; congruence. Qed.

Lemma next_rows_result (server : nat -> transport) (overshoot : nat -> Q)
    all_entries c r c' :
  HackerRank.next_rows server overshoot all_entries c = (r, c') ->
  cool_downs (slept c') = cool_downs (slept c)
  /\ (forall e, r = Raise e -> is_http_429 e = false)
  /\ (forall rows_, r = Ret (Some rows_) ->
        exists more, rows_ = all_entries ++ more).
Proof.
  unfold HackerRank.next_rows. unfold mbind at 1. unfold M_bind at 1.
  destruct (request server overshoot None false false c) as [[resp|e|] c1]
    eqn:E; apply request_result in E as (Hcd & Hret & Hraise).
  - pose proof (Hret resp eq_refl) as Hlt.
    unfold response_json, get_method, HackerRank.extend, sleep_for.
    unfold_M.
    destruct (content_type_json resp).
    + destruct (body resp) as [[| | | | |fields]|]; simpl;
        try (intros [= <- <-]; split; [exact Hcd|split];
             [intros e [= <-]; reflexivity|discriminate]).
      destruct (negb (truthy (default (JArr []) (dict_get "models" fields)))).
      { intros [= <- <-]. split; [exact Hcd|split]; discriminate. }
      destruct (default (JArr []) (dict_get "models" fields))
        as [| | | |l|fs]; simpl; intros [= <- <-]; simpl;
        rewrite ?cool_downs_app, ?app_nil_r; simpl; rewrite ?app_nil_r;
        (split; [exact Hcd|split]);
        try discriminate;
        try (intros e [= <-]; reflexivity);
        intros rows_ [= <-]; eauto.
    + intros [= <- <-]. split; [exact Hcd|split]; [|discriminate].
      intros e [= <-]. unfold is_http_429, http_error. cbn [exn_status].
      apply andb_false_iff. right. apply bool_decide_eq_false. lia.
  - intros [= <- <-]. split; [exact Hcd|split]; [|discriminate].
    intros e' [= <-]. unfold is_http_429.
    rewrite (client_response_is_client_error e (Hraise e eq_refl)).
    reflexivity.
  - intros [= <- <-]. split; [exact Hcd|split]; discriminate.
Qed.

(** X19.  The cool-down of the HackerRank leaderboard loop is dead code.
    [request] has already turned every error status into a [ScraperError]
    or a [RateLimitError], so the handler for a 429 never fires: whatever
    the upstream answers, fetching a contest never sleeps to cool down and
    never sets [rate_limited]; and the rows it returns extend the rows it
    started from. *)
Theorem hackerrank_fetch_never_cools_down
    (server : nat -> transport) (overshoot : nat -> Q) (fuel : nat) :
  forall (retry_count : nat) (all_entries : list json) (offset : nat)
         (rate_limited : bool) (c : Client)
         (r : outcome (list json * bool)) (c' : Client),
    HackerRank.fetch_contest server overshoot fuel retry_count all_entries
                             offset rate_limited c = (r, c') ->
    cool_downs (slept c') = cool_downs (slept c)
    /\ forall rows_ flag,
         r = Ret (rows_, flag) ->
         flag = rate_limited /\ exists more, rows_ = all_entries ++ more.
Proof.
  induction fuel as [|fuel IH];
    intros retry_count all_entries offset rate_limited c r c'.
  { intros [= <- <-]. split; [reflexivity|discriminate]. }
  cbn [HackerRank.fetch_contest].
  unfold mbind at 1. unfold M_bind at 1. unfold try_except.
  unfold mbind at 1. unfold M_bind at 1.
  destruct (HackerRank.next_rows server overshoot all_entries c)
    as [[[rows1|]|e|] c1] eqn:E;
    apply next_rows_result in E as (Hcd & Hraise & Hrows).
  - cbn [mret M_ret]. intros H. apply IH in H as [Hcd' Hres].
    split; [congruence|].
    intros rows_ flag Hret. destruct (Hres _ _ Hret) as [-> [more ->]].
    split; [reflexivity|].
    destruct (Hrows _ eq_refl) as [more1 ->].
    exists (more1 ++ more). rewrite app_assoc. reflexivity.
  - cbn [mret M_ret]. intros [= <- <-]. split; [exact Hcd|].
    intros rows_ flag [= <- <-]. split; [reflexivity|].
    exists []. rewrite app_nil_r. reflexivity.
  - pose proof (Hraise e eq_refl) as H429. unfold is_http_429 in H429.
    rewrite H429.
    destruct (isinstance e ClientError || isinstance e JSONDecodeError).
    + cbn [mret M_ret]. intros [= <- <-]. split; [exact Hcd|].
      intros rows_ flag [= <- <-]. split; [reflexivity|].
      exists []. rewrite app_nil_r. reflexivity.
    + intros [= <- <-]. split; [exact Hcd|discriminate].
  - intros [= <- <-]. split; [exact Hcd|discriminate].
Qed.

Lemma hackerrank_fetch_never_cools_down_witness :
  let out := HackerRank.fetch_contest always_429 punctual 5 0 [] 1 false
                                      (fresh_client 2) in
  fst out = Raise (an RateLimitError)
  /\ cool_downs (slept (snd out)) = [].
Proof.
  intros out. split; [reflexivity|].
  exact (proj1 (hackerrank_fetch_never_cools_down always_429 punctual 5 0 []
                  1 false (fresh_client 2) (fst out) (snd out)
                  (surjective_pairing out))).
Defined.

Lemma next_rows_page (server : nat -> transport) (overshoot : nat -> Q)
    all_entries c l :
  rate_limit c <> 0 ->
  server (exchanges c) = models_page l ->
  l <> [] ->
  exists c',
    HackerRank.next_rows server overshoot all_entries c
    = (Ret (Some (all_entries ++ l)), c')
    /\ exchanges c' = S (exchanges c)
    /\ rate_limit c' <> 0.
Proof.
  intros Hrate Hs Hne.
  destruct (request_ends_after_one server overshoot None false false c Hrate)
    as (c1 & Hrun & Hex & _).
  { rewrite Hs. reflexivity. }
  rewrite Hs in Hrun.
  change (attempt_outcome (models_page l))
    with (Ret (mkResponse 200 true (Some (JObj [("models", JArr l)]))))
    in Hrun.
  pose proof (request_keeps_rate _ _ _ _ _ _ _ Hrun) as Hr1.
  eexists. split; [|split].
  - unfold HackerRank.next_rows.
    erewrite bind_ret by exact Hrun.
    erewrite bind_ret by reflexivity.
    erewrite bind_ret by reflexivity.
    cbn [dict_get]. destruct (decide ("models" = "models")); [|congruence].
    change (default (JArr []) (Some (JArr l))) with (JArr l).
    assert (Ht : truthy (JArr l) = true) by (destruct l; [congruence|reflexivity]).
    rewrite Ht. cbn [negb].
    erewrite bind_ret by reflexivity.
    erewrite bind_ret by reflexivity.
    reflexivity.
  - cbn. exact Hex.
  - cbn. congruence.
Qed.

Lemma next_rows_end (server : nat -> transport) (overshoot : nat -> Q)
    all_entries c :
  rate_limit c <> 0 ->
  no_models (server (exchanges c)) = true ->
  exists c',
    HackerRank.next_rows server overshoot all_entries c = (Ret None, c')
    /\ exchanges c' = S (exchanges c).
Proof.
  intros Hrate Hempty. unfold no_models in Hempty.
  destruct (server (exchanges c)) as [r| |] eqn:Hs; try discriminate.
  apply andb_prop in Hempty as [Hempty Hbody].
  apply andb_prop in Hempty as [Hstatus Hjson].
  destruct (body r) as [[| | | | |fields]|] eqn:Hb; try discriminate.
  destruct (request_ends_after_one server overshoot None false false c Hrate)
    as (c1 & Hrun & Hex & _).
  { rewrite Hs. reflexivity. }
  rewrite Hs in Hrun. cbn [attempt_outcome] in Hrun.
  assert (H400 : (400 <=? status r)%Z = false).
  { apply Z.leb_gt. apply Z.ltb_lt in Hstatus. exact Hstatus. }
  rewrite H400 in Hrun.
  exists c1. split; [|exact Hex].
  unfold HackerRank.next_rows.
  erewrite bind_ret by exact Hrun.
  erewrite bind_ret by (unfold response_json; rewrite Hjson, Hb; reflexivity).
  erewrite bind_ret by reflexivity.
  apply negb_true_iff in Hbody. rewrite Hbody. reflexivity.
Qed.

(** X20.  Paging through a contest.  When the upstream serves a number
    of non-empty pages and then an empty one, the loop returns the rows of
    all the pages, in order, after the rows it started from, leaves
    [rate_limited] as it was, and has made one exchange per page plus the
    one that found the end. *)
Theorem hackerrank_collects_until_empty
    (server : nat -> transport) (overshoot : nat -> Q)
    (pages : list (list json)) :
  forall (fuel retry_count : nat) (all_entries : list json) (offset : nat)
         (rate_limited : bool) (c : Client)
         (Hfuel : (length pages < fuel)%nat)
         (Hrate : rate_limit c <> 0)
         (Hpages : forall k l, pages !! k = Some l ->
                     server (exchanges c + k)%nat = models_page l /\ l <> [])
         (Hend : no_models (server (exchanges c + length pages)%nat) = true),
  exists c',
    HackerRank.fetch_contest server overshoot fuel retry_count all_entries
                             offset rate_limited c
    = (Ret (all_entries ++ concat pages, rate_limited), c')
    /\ exchanges c' = (exchanges c + S (length pages))%nat.
Proof.
  induction pages as [|l pages IH];
    intros fuel retry_count all_entries offset rate_limited c
           Hfuel Hrate Hpages Hend;
    (destruct fuel as [|fuel]; [cbn in Hfuel; lia|]).
  - cbn [length] in Hend. rewrite Nat.add_0_r in Hend.
    destruct (next_rows_end server overshoot all_entries c Hrate Hend)
      as (c' & Hrun & Hex).
    exists c'. split; [|cbn; lia].
    cbn [HackerRank.fetch_contest].
    erewrite bind_ret.
    2:{ erewrite try_ret; [reflexivity|].
        erewrite bind_ret by exact Hrun. reflexivity. }
    cbn. rewrite app_nil_r. reflexivity.
  - destruct (Hpages 0%nat l eq_refl) as [Hs Hne].
    rewrite Nat.add_0_r in Hs.
    destruct (next_rows_page server overshoot all_entries c l Hrate Hs Hne)
      as (c1 & Hrun & Hex & Hr1).
    destruct (IH fuel retry_count (all_entries ++ l)
                 (offset + HackerRank.limit)%nat rate_limited c1)
      as (c' & Hrest & Hex').
    + cbn in Hfuel. lia.
    + exact Hr1.
    + intros k l' Hk. rewrite Hex.
      replace (S (exchanges c) + k)%nat with (exchanges c + S k)%nat by lia.
      apply Hpages. exact Hk.
    + rewrite Hex.
      replace (S (exchanges c) + length pages)%nat
        with (exchanges c + length (l :: pages))%nat by (cbn; lia).
      exact Hend.
    + exists c'. split; [|cbn [length]; lia].
      cbn [HackerRank.fetch_contest].
      erewrite bind_ret.
      2:{ erewrite try_ret; [reflexivity|].
          erewrite bind_ret by exact Hrun. reflexivity. }
      cbv beta iota. rewrite Hrest. cbn [concat].
      rewrite <- app_assoc. reflexivity.
Qed.

Lemma hackerrank_collects_until_empty_witness :
  exists c',
    HackerRank.fetch_contest
      (serves [[hacker "alice" 300; hacker "bob" 250]; [hacker "carol" 100]])
      punctual 5 0 [] 1 false (fresh_client 2)
    = (Ret ([] ++ concat [[hacker "alice" 300; hacker "bob" 250];
                          [hacker "carol" 100]], false), c')
    /\ exchanges c' = (0 + 3)%nat.
Proof.
  apply (hackerrank_collects_until_empty
           (serves [[hacker "alice" 300; hacker "bob" 250];
                    [hacker "carol" 100]])
           punctual
           [[hacker "alice" 300; hacker "bob" 250]; [hacker "carol" 100]]
           5 0 [] 1 false (fresh_client 2)).
  - cbn. lia.
  - discriminate.
  - intros [|[|[|k]]] l Hk; cbn in Hk; try discriminate Hk;
      injection Hk as <-; (split; [reflexivity|discriminate]).
  - reflexivity.
Defined.

(** ** The cool-downs of the GeeksForGeeks cache *)

Section GfgCalm.
Import GeeksForGeeks.

Lemma calm_ret {A} (a : A) : calm (mret a).
Proof. intros g r g' [= <- <-]. split; [reflexivity|discriminate]. Qed.

Lemma calm_raise {A} (e : exn) :
  is_http_429 e = false -> calm (raise e : M GfgClient A).
Proof.
  intros He g r g' [= <- <-]. split; [reflexivity|].
  intros e' [= <-]. exact He.
Qed.

Lemma calm_gets {A} (f : GfgClient -> A) : calm (gets f).
Proof. intros g r g' [= <- <-]. split; [reflexivity|discriminate]. Qed.

Lemma calm_modify (f : GfgClient -> GfgClient) :
  (forall g, base (f g) = base g) -> calm (modify f).
Proof.
  intros Hf g r g' [= <- <-]. rewrite Hf. split; [reflexivity|discriminate].
Qed.

Lemma calm_bind {A B} (m : M GfgClient A) (f : A -> M GfgClient B) :
  calm m -> (forall a, calm (f a)) -> calm (m ≫= f).
Proof.
  intros Hm Hf g r g'. unfold mbind, M_bind.
  destruct (m g) as [[a|e|] g1] eqn:E; intros H;
    destruct (Hm _ _ _ E) as [Hcd He].
  - destruct (Hf a _ _ _ H) as [Hcd' He']. split; [congruence|exact He'].
  - injection H as <- <-. split; [exact Hcd|].
    intros e' [= <-]. exact (He e eq_refl).
  - injection H as <- <-. split; [exact Hcd|discriminate].
Qed.

Lemma calm_try {A} (body : M GfgClient A) (h : exn -> M GfgClient A) :
  calm body -> (forall e, calm (h e)) -> calm (try_except body h).
Proof.
  intros Hb Hh g r g'. unfold try_except.
  destruct (body g) as [[a|e|] g1] eqn:E; intros H;
    destruct (Hb _ _ _ E) as [Hcd He].
  - injection H as <- <-. split; [exact Hcd|discriminate].
  - destruct (Hh e _ _ _ H) as [Hcd' He']. split; [congruence|exact He'].
  - injection H as <- <-. split; [exact Hcd|discriminate].
Qed.

Lemma calm_get_method d k dflt :
  calm (get_method d k dflt : M GfgClient json).
Proof.
  unfold get_method. destruct d; try (apply calm_raise; reflexivity).
  apply calm_ret.
Qed.

Lemma calm_entry_handle row : calm (entry_handle row).
Proof.
  unfold entry_handle. apply calm_bind; [apply calm_get_method|].
  intros h. destruct h; try (apply calm_raise; reflexivity). apply calm_ret.
Qed.

Lemma calm_index_entry contest_id entry h :
  calm (index_entry contest_id entry h).
Proof.
  unfold index_entry. destruct (String.eqb h ""); [apply calm_ret|].
  apply calm_modify. reflexivity.
Qed.

Lemma calm_rows entries : calm (rows entries).
Proof.
  unfold rows.
  destruct entries; try (apply calm_raise; reflexivity); apply calm_ret.
Qed.

Lemma calm_scan_rows page entries :
  forall found, calm (scan_rows page entries found).
Proof.
  induction entries as [|entry rest IH]; intros found; cbn [scan_rows].
  - apply calm_ret.
  - apply calm_bind; [apply calm_entry_handle|]. intros h.
    apply calm_bind; [apply calm_get_method|]. intros score.
    apply calm_bind; [apply calm_index_entry|]. intros _. apply IH.
Qed.

Lemma calm_load_rows contest_id entries : calm (load_rows contest_id entries).
Proof.
  induction entries as [|entry rest IH]; cbn [load_rows].
  - apply calm_ret.
  - apply calm_bind; [apply calm_entry_handle|]. intros h.
    apply calm_bind; [apply calm_index_entry|]. intros _. apply IH.
Qed.

Lemma calm_load_entries es : calm (load_entries es).
Proof.
  induction es as [|e es IH]; cbn [load_entries].
  - apply calm_ret.
  - apply calm_bind; [apply calm_modify; reflexivity|]. intros _.
    apply calm_bind; [apply calm_load_rows|]. intros _. apply IH.
Qed.

Lemma calm_repo_save l : calm (repo_save l).
Proof.
  intros g r g'. unfold repo_save, save_cache_entries.
  destruct l as [|e l]; [|destruct (cache_db_up (cache_db g))];
    intros [= <- <-]; (split; [reflexivity|]); try discriminate.
  intros e' [= <-]. reflexivity.
Qed.

Lemma collect_entries_raises now_ only_fresh docs :
  forall acc e,
    collect_entries now_ only_fresh docs acc = Raise e -> e = an KeyError.
Proof.
  induction docs as [|doc docs IH]; intros acc e; cbn [collect_entries].
  - discriminate.
  - unfold _document_to_cache_entry.
    destruct (Platform_of_value (doc_platform doc)).
    + destruct (negb only_fresh || negb (is_cache_stale now_ _)); apply IH.
    + intros [= <-]. reflexivity.
Qed.

Lemma calm_repo_get platform only_fresh :
  calm (repo_get_platform_cache_entries platform only_fresh).
Proof.
  intros g r g'. unfold repo_get_platform_cache_entries.
  intros [= <- <-]. split; [reflexivity|].
  intros e. unfold get_platform_cache_entries.
  destruct (cache_db_up (cache_db g)).
  - intros H. apply collect_entries_raises in H as ->. reflexivity.
  - intros [= <-]. reflexivity.
Qed.

Lemma calm_sleep (overshoot : nat -> Q) why d :
  why <> CoolDown -> calm (on_base (sleep_for overshoot why d)).
Proof.
  intros Hwhy g r g'. unfold on_base, sleep_for. cbn.
  intros [= <- <-]. cbn. rewrite cool_downs_app. cbn.
  split; [|discriminate].
  destruct why; try contradiction; cbn; rewrite app_nil_r; reflexivity.
Qed.

Lemma calm_hydrate force_refresh : calm (hydrate force_refresh).
Proof.
  unfold hydrate. destruct force_refresh; cbn [negb]; [apply calm_ret|].
  apply calm_try; [|intros e; apply calm_ret].
  apply calm_bind; [apply calm_repo_get|].
  intros [|e es]; [apply calm_ret|].
  apply calm_bind; [apply calm_load_entries|]. intros _.
  apply calm_bind; [apply calm_modify; reflexivity|]. intros _.
  apply calm_ret.
Qed.

Lemma calm_store_page (server : nat -> transport) (overshoot : nat -> Q)
    page loc :
  calm (store_page server overshoot page loc).
Proof.
  intros g r g'. unfold store_page.
  unfold mbind at 1. unfold M_bind at 1. unfold on_base at 1.
  destruct (request server overshoot None false false (base g))
    as [[resp|e|] b] eqn:E; apply request_result in E as (Hcd & Hret & Hraise).
  - pose proof (Hret resp eq_refl) as Hlt.
    unfold mbind at 1. unfold M_bind at 1. unfold response_json.
    destruct (content_type_json resp).
    + destruct (body resp) as [j|].
      * cbn [mret M_ret]. intros H.
        assert (Hrest : calm
          (entries ← get_method j "results" (JArr []);
           if negb (truthy entries) then mret loc else
           modify (fun g =>
             set_leaderboard_cache
               (dict_set (str page) entries (leaderboard_cache g)) g);;
           stamp ← datetime_now;
           entry_list ← rows entries;
           let cache_entry :=
             LeaderboardCache.mk GEEKSFORGEEKS (str page) entry_list stamp in
           let to_save := db_cache_entries_to_save loc ++ [cache_entry] in
           let processed := processed_pages loc ++ [page] in
           found ← scan_rows page entry_list false;
           to_save' ←
             (if (10 <=? length to_save)%nat then
                try_except (repo_save to_save;; mret [])
                           (fun _ => mret to_save)
              else mret to_save);
           (if found then mret tt
            else on_base (sleep_for overshoot Pacing (1 # 10)));;
           mret (mkLocals to_save' processed (Some found)))).
        { apply calm_bind; [apply calm_get_method|]. intros entries.
          destruct (negb (truthy entries)); [apply calm_ret|].
          apply calm_bind; [apply calm_modify; reflexivity|]. intros _.
          apply calm_bind; [apply calm_gets|]. intros stamp.
          apply calm_bind; [apply calm_rows|]. intros entry_list.
          cbv zeta.
          apply calm_bind; [apply calm_scan_rows|]. intros found.
          apply calm_bind.
          { destruct (10 <=? _)%nat; [|apply calm_ret].
            apply calm_try; [|intros e; apply calm_ret].
            apply calm_bind; [apply calm_repo_save|]. intros _.
            apply calm_ret. }
          intros to_save'.
          apply calm_bind; [|intros _; apply calm_ret].
          destruct found; [apply calm_ret|].
          apply calm_sleep. discriminate. }
        destruct (Hrest _ _ _ H) as [Hcd' He'].
        split; [|exact He']. rewrite Hcd'. exact Hcd.
      * intros [= <- <-]. split; [exact Hcd|].
        intros e [= <-]. reflexivity.
    + intros [= <- <-]. split; [exact Hcd|].
      intros e [= <-]. unfold is_http_429, http_error. cbn [exn_status].
      apply andb_false_iff. right. apply bool_decide_eq_false. lia.
  - intros [= <- <-]. split; [exact Hcd|].
    intros e' [= <-]. unfold is_http_429.
    rewrite (client_response_is_client_error e (Hraise e eq_refl)).
    reflexivity.
  - intros [= <- <-]. split; [exact Hcd|discriminate].
Qed.

(** The retry loop of a page leaves the flag [rate_limited] as it found
    it. *)
Lemma fetch_page_result (server : nat -> transport) (overshoot : nat -> Q)
    budget :
  forall retry_count page loc rate_limited g r g',
    fetch_page server overshoot budget retry_count page loc rate_limited g
    = (r, g') ->
    cool_downs (slept (base g')) = cool_downs (slept (base g))
    /\ (forall e, r = Raise e -> is_http_429 e = false)
    /\ (forall loc' flag, r = Ret (loc', flag) -> flag = rate_limited).
Proof.
  destruct budget as [|budget];
    intros retry_count page loc rate_limited g r g'; cbn [fetch_page].
  { intros [= <- <-]. split; [reflexivity|]. split; [discriminate|].
    intros loc' flag [= _ <-]. reflexivity. }
  destruct (max_retries <? retry_count)%nat.
  { intros [= <- <-]. split; [reflexivity|]. split; [discriminate|].
    intros loc' flag [= _ <-]. reflexivity. }
  unfold try_except. unfold mbind at 1. unfold M_bind at 1.
  destruct (store_page server overshoot page loc g) as [[loc1|e|] g1] eqn:E;
    apply calm_store_page in E as [Hcd He].
  - cbn [mret M_ret]. intros [= <- <-]. split; [exact Hcd|].
    split; [discriminate|]. intros loc' flag [= _ <-]. reflexivity.
  - pose proof (He e eq_refl) as H429. unfold is_http_429 in H429.
    rewrite H429.
    destruct (isinstance e ClientError || isinstance e JSONDecodeError).
    + unfold mbind, M_bind, on_base, sleep_for. cbn.
      intros [= <- <-]. cbn. rewrite cool_downs_app. cbn.
      rewrite app_nil_r. split; [exact Hcd|].
      split; [discriminate|]. intros loc' flag [= _ <-]. reflexivity.
    + intros [= <- <-]. split; [exact Hcd|].
      split; [|discriminate]. intros e' [= <-]. exact (He e eq_refl).
  - intros [= <- <-]. split; [exact Hcd|]. split; discriminate.
Qed.

Lemma calm_pages_loop (server : nat -> transport) (overshoot : nat -> Q)
    count :
  forall page loc, calm (pages_loop server overshoot count page loc).
Proof.
  induction count as [|count IH]; intros page loc; cbn [pages_loop].
  - apply calm_ret.
  - destruct (bool_decide (page ∈ processed_pages loc)); [apply IH|].
    intros g r g'. unfold mbind at 1. unfold M_bind at 1.
    destruct (fetch_page server overshoot (S max_retries) 0 page loc false g)
      as [[[loc1 flag]|e|] g1] eqn:E;
      apply fetch_page_result in E as (Hcd & He & Hflag).
    + rewrite (Hflag _ _ eq_refl).
      assert (Hrest : calm
        (mret tt;;
         match found_zero loc1 with
         | Some true => mret loc1
         | _ => pages_loop server overshoot count (S page) loc1
         end)).
      { apply calm_bind; [apply calm_ret|]. intros _.
        destruct (found_zero loc1) as [[|]|]; [apply calm_ret|apply IH..]. }
      intros H. destruct (Hrest _ _ _ H) as [Hcd' He'].
      split; [congruence|exact He'].
    + intros [= <- <-]. split; [exact Hcd|].
      intros e' [= <-]. exact (He e eq_refl).
    + intros [= <- <-]. split; [exact Hcd|discriminate].
Qed.

Lemma calm_fetch_leaderboard (server : nat -> transport)
    (overshoot : nat -> Q) max_pages :
  calm (fetch_leaderboard server overshoot max_pages).
Proof.
  unfold fetch_leaderboard.
  apply calm_bind; [apply calm_gets|]. intros ids.
  apply calm_bind; [apply calm_pages_loop|]. intros loc.
  apply calm_bind; [|intros _; apply calm_modify; reflexivity].
  apply calm_try; [|intros e; apply calm_ret].
  destruct (db_cache_entries_to_save loc); [apply calm_ret|].
  apply calm_repo_save.
Qed.

(** X21.  The GeeksForGeeks cache never cools down.  The handler of the
    page loop waits 60, 120, 180 seconds on a [ClientResponseError] with
    status 429 and the loop over the pages waits 120 seconds more once
    [rate_limited] is set; but [request] hands back either a response
    below 400 or an exception that is no [ClientResponseError], so neither
    wait can happen: whatever the upstream, the store and the arguments,
    [initialize_cache] ends without a single cool-down. *)
Theorem gfg_cache_never_cools_down
    (server : nat -> transport) (overshoot : nat -> Q)
    (max_pages : nat) (force_refresh : bool)
    (g : GfgClient) (r : outcome unit) (g' : GfgClient)
    (Hrun : initialize_cache server overshoot max_pages force_refresh g
            = (r, g')) :
  cool_downs (slept (base g')) = cool_downs (slept (base g))
  /\ forall e, r = Raise e -> is_http_429 e = false.
Proof.
  revert Hrun. generalize g r g'.
  change (calm (initialize_cache server overshoot max_pages force_refresh)).
  unfold initialize_cache.
  apply calm_bind; [apply calm_gets|]. intros initialized.
  destruct (initialized && negb force_refresh); [apply calm_ret|].
  apply calm_bind; [apply calm_hydrate|]. intros loaded.
  destruct loaded; [apply calm_ret|apply calm_fetch_leaderboard].
Qed.

Lemma gfg_cache_never_cools_down_witness :
  let out := initialize_cache
               (fun n => match n with
                         | O => page_of page_rows
                         | _ => answers 429 None
                         end)
               punctual 1000 false fresh_gfg in
  fst out = Raise (an RateLimitError)
  /\ cool_downs (slept (base (snd out))) = []
  /\ exchanges (base (snd out)) = 2%nat.
Proof.
  intros out. split; [vm_compute; reflexivity|].
  split; [|vm_compute; reflexivity].
  exact (proj1 (gfg_cache_never_cools_down _ punctual 1000 false fresh_gfg
                  (fst out) (snd out) (surjective_pairing out))).
Defined.
End GfgCalm.

(** ** The participant repository: write, read back *)

Lemma update_participants_folds ps :
  forall db,
    participant_db_up db = true ->
    update_participants ps db
    = (Ret tt,
       mkParticipantDb
         (fold_left (fun docs p =>
                       upsert_participant (fst (document_of p))
                                          (snd (document_of p)) docs)
                    ps (documents db))
         true).
Proof.
  induction ps as [|p ps IH]; intros db Hup.
  - destruct db as [docs up]. cbn in *. subst. reflexivity.
  - cbn [update_participants fold_left].
    erewrite bind_ret
      by (unfold update_participant; rewrite Hup; reflexivity).
    rewrite IH by reflexivity. reflexivity.
Qed.

Lemma fold_upsert_NoDup ps :
  forall docs,
    List.NoDup (map participant_key docs) ->
    List.NoDup
      (map participant_key
           (fold_left (fun docs p =>
                         upsert_participant (fst (document_of p))
                                            (snd (document_of p)) docs)
                      ps docs)).
Proof.
  induction ps as [|p ps IH]; intros docs Hnd; [exact Hnd|].
  cbn [fold_left]. apply IH, upsert_participant_NoDup, Hnd.
Qed.

Lemma fold_upsert_keeps ps d :
  forall docs,
    In d docs ->
    Forall (fun q => participant_key (document_of q) <> participant_key d) ps ->
    In d (fold_left (fun docs p =>
                       upsert_participant (fst (document_of p))
                                          (snd (document_of p)) docs)
                    ps docs).
Proof.
  induction ps as [|p ps IH]; intros docs Hin Hall; [exact Hin|].
  apply Forall_cons in Hall as [Hp Hrest]. cbn [fold_left].
  apply IH; [|exact Hrest].
  apply upsert_participant_keeps; [exact Hin|].
  intros Heq. apply Hp. symmetry. exact Heq.
Qed.

Lemma NoDup_map_inj {A B} (f : A -> B) (l : list A) x y :
  List.NoDup (map f l) -> In x l -> In y l -> f x = f y -> x = y.
Proof.
  induction l as [|a l IH]; cbn [map]; intros Hnd Hx Hy Hf; [destruct Hx|].
  apply List.NoDup_cons_iff in Hnd as [Hnotin Hnd].
  destruct Hx as [<-|Hx], Hy as [<-|Hy]; auto.
  - exfalso. apply Hnotin. rewrite Hf. apply in_map. exact Hy.
  - exfalso. apply Hnotin. rewrite <- Hf. apply in_map. exact Hx.
Qed.

(** Through the store and back: the stamps lose their microseconds. *)
Lemma participant_round_trip (p : Participant) :
  _document_to_participant (_participant_to_document p) = as_stored p.
Proof.
  unfold _document_to_participant, _participant_to_document, as_stored,
    set_platforms.
  cbn [doc_hallTicketNo doc_name doc_batch doc_college doc_platforms
       doc_totalRating doc_percentile].
  f_equal. rewrite map_map. apply map_ext. intros [k [st|]]; reflexivity.
Qed.

(** X22.  What [update_participants] wrote is what [get_all_participants]
    reads, to the millisecond.  On a store that answers and holds at most
    one document per hall ticket in each collection, after the update the
    collection of a participant's college and batch holds, under that hall
    ticket, one document: the one written for the last version of the
    participant in the list.  It is read back as that version with the
    stamp of each platform status cut to whole milliseconds (what a BSON
    date holds); a status stamped by [datetime.now()] does not come back
    as it was written. *)
Theorem updated_participant_is_read_back
    (db : ParticipantDb) (earlier later : list Participant) (p : Participant)
    (Hup : participant_db_up db = true)
    (Hunique : List.NoDup (map participant_key (documents db)))
    (Hlast : Forall (fun q => participant_key (document_of q)
                              <> participant_key (document_of p)) later) :
  exists db' stored,
    update_participants (earlier ++ p :: later) db = (Ret tt, db')
    /\ (forall d, In d (documents db')
                  /\ participant_key d = participant_key (document_of p)
                  <-> d = document_of p)
    /\ get_all_participants (batch p) (college p) db' = (Ret stored, db')
    /\ In (as_stored p) stored
    /\ forall q, In q stored -> hall_ticket_no q = hall_ticket_no p ->
                 q = as_stored p.
Proof.
  rewrite (update_participants_folds _ db Hup).
  set (docs' := fold_left _ _ _).
  assert (Hnd : List.NoDup (map participant_key docs'))
    by (apply fold_upsert_NoDup; exact Hunique).
  assert (Hin : In (document_of p) docs').
  { subst docs'. rewrite fold_left_app. cbn [fold_left].
    apply fold_upsert_keeps; [apply upsert_participant_has|exact Hlast]. }
  eexists. eexists. split; [reflexivity|].
  split; [|split; [reflexivity|split]].
  - cbn [documents]. intros d. split.
    + intros [Hd Hkey].
      apply (NoDup_map_inj participant_key docs'); assumption.
    + intros ->. split; [exact Hin|reflexivity].
  - cbn [documents]. apply in_map_iff. exists (document_of p).
    split; [apply participant_round_trip|].
    apply list_elem_of_In, list_elem_of_filter. split.
    + apply Is_true_true, String.eqb_eq. reflexivity.
    + apply list_elem_of_In. exact Hin.
  - cbn [documents]. intros q Hq Hticket.
    apply in_map_iff in Hq as ([c doc] & Hread & Hq). cbn [snd] in Hread.
    apply list_elem_of_In, list_elem_of_filter in Hq as [Hc Hq].
    apply Is_true_true, String.eqb_eq in Hc. cbn in Hc. subst c.
    apply list_elem_of_In in Hq.
    assert (Heq : (get_collection_name (batch p) (college p), doc)
                  = document_of p).
    { apply (NoDup_map_inj participant_key docs'); try assumption.
      unfold participant_key, document_of. cbn [fst snd]. f_equal.
      rewrite <- Hread in Hticket. exact Hticket. }
    injection Heq as ->. rewrite <- Hread. apply participant_round_trip.
Qed.

(** Alice is saved twice in one update, bob in between, over a store that
    already holds her: the collection ends with her last version only, and
    the stamp of 1234 microseconds is read back as one millisecond. *)
Lemma updated_participant_is_read_back_witness :
  exists db' stored,
    update_participants [alice_rated 1500; bob; alice_stamped 1234]
                        (mkParticipantDb [document_of alice] true)
    = (Ret tt, db')
    /\ get_all_participants _2025 CMRIT db' = (Ret stored, db')
    /\ In (alice_stamped 1000) stored
    /\ (forall q, In q stored -> hall_ticket_no q = "21R01A0501" ->
                  q = alice_stamped 1000)
    /\ alice_stamped 1000 <> alice_stamped 1234.
Proof.
  destruct (updated_participant_is_read_back
              (mkParticipantDb [document_of alice] true)
              [alice_rated 1500; bob] [] (alice_stamped 1234))
    as (db' & stored & Hrun & _ & Hget & Hin & Hone).
  - reflexivity.
  - constructor; [intros []|constructor].
  - constructor.
  - exists db', stored. split; [exact Hrun|]. split; [exact Hget|].
    split; [exact Hin|]. split; [exact Hone|]. discriminate.
Defined.

(** ** The tasks of the dispatcher *)

Lemma dict_set_keys {V} k (v : V) d :
  map fst (dict_set k v d)
  = if decide (k ∈ map fst d) then map fst d else map fst d ++ [k].
Proof.
  induction d as [|[k' v'] d IH]; cbn [dict_set map fst app].
  - destruct (decide (k ∈ [])) as [Hin|_]; [inversion Hin|reflexivity].
  - destruct (decide (k' = k)) as [->|Hne]; cbn [map fst].
    + destruct (decide (k ∈ k :: map fst d)) as [_|Hn]; [reflexivity|].
      exfalso. apply Hn. left.
    + rewrite IH.
      destruct (decide (k ∈ map fst d)) as [Hin|Hn];
        destruct (decide (k ∈ k' :: map fst d)) as [Hin'|Hn'];
        try reflexivity.
      * exfalso. apply Hn'. right. exact Hin.
      * apply elem_of_cons in Hin' as [?|?]; [congruence|contradiction].
Qed.

Lemma dict_set_NoDup {V} k (v : V) d :
  NoDup (map fst d) -> NoDup (map fst (dict_set k v d)).
Proof.
  intros Hnd. rewrite dict_set_keys.
  destruct (decide (k ∈ map fst d)) as [|Hn]; [exact Hnd|].
  apply NoDup_app. split; [exact Hnd|].
  split; [|apply NoDup_singleton].
  intros x Hx Hx'. apply list_elem_of_singleton in Hx'. subst x.
  contradiction.
Qed.

Lemma process_platforms_lookup gps k platform_list :
  forall tasks,
    dict_get k (process_platforms gps platform_list tasks)
    = if decide (k ∈ platform_list) then
        match gps k with
        | Ret (Some t) => Some t
        | _ => dict_get k tasks
        end
      else dict_get k tasks.
Proof.
  induction platform_list as [|platform rest IH]; intros tasks;
    cbn [process_platforms].
  - destruct (decide (k ∈ [])) as [Hin|_]; [inversion Hin|reflexivity].
  - destruct (gps platform) as [[t|]|e|] eqn:Hg; rewrite IH;
      destruct (decide (k ∈ rest)) as [Hin|Hn];
      destruct (decide (k ∈ platform :: rest)) as [Hin'|Hn'];
      try reflexivity;
      try (exfalso; apply Hn'; right; exact Hin);
      try (exfalso; apply Hn'; left);
      try (apply elem_of_cons in Hin' as [->|?]; [|contradiction];
           rewrite Hg; try reflexivity; apply dict_get_set_eq).
    + destruct (decide (platform = k)) as [->|Hne].
      * rewrite Hg. reflexivity.
      * rewrite dict_get_set_ne by exact Hne. reflexivity.
    + apply dict_get_set_ne. intros ->. apply Hn'. left.
Qed.

Lemma process_platforms_NoDup gps platform_list :
  forall tasks,
    NoDup (map fst tasks) ->
    NoDup (map fst (process_platforms gps platform_list tasks)).
Proof.
  induction platform_list as [|platform rest IH]; intros tasks Hnd;
    cbn [process_platforms]; [exact Hnd|].
  destruct (gps platform) as [[t|]|e|]; try (apply IH; exact Hnd).
  apply IH, dict_set_NoDup, Hnd.
Qed.

(** X23.  The tasks [process_platforms] hands to the dispatcher: one per
    platform name that has a service, however often the name was given;
    a name without a service, or whose service cannot be constructed, gets
    none, and the others are not affected by it. *)
Theorem process_platforms_keeps_known_platforms
    (get_platform_service : string -> outcome (option task))
    (platform_list : list string) :
  let tasks := process_platforms get_platform_service platform_list [] in
  NoDup (map fst tasks)
  /\ forall platform,
       dict_get platform tasks
       = if decide (platform ∈ platform_list) then
           match get_platform_service platform with
           | Ret (Some t) => Some t
           | _ => None
           end
         else None.
Proof.
  split.
  - apply process_platforms_NoDup. constructor.
  - intros platform. apply process_platforms_lookup.
Qed.

(** ** Evaluation: totals and percentiles *)

Lemma Qlt_bool_iff a b : Qlt_bool a b = true <-> (a < b)%Q.
Proof.
  split; [apply Qlt_bool_true|]. intros H.
  destruct (Qlt_bool a b) eqn:E; [reflexivity|].
  apply Qlt_bool_false in E. lra.
Qed.

Lemma insort_In x l y : In y (insort x l) <-> y = x \/ In y l.
Proof.
  induction l as [|a l IH]; cbn [insort In]; [intuition congruence|].
  destruct (Qlt_bool x a); cbn [In]; [intuition congruence|].
  rewrite IH. intuition congruence.
Qed.

Lemma insort_length x l : length (insort x l) = S (length l).
Proof.
  induction l as [|a l IH]; cbn [insort length]; [reflexivity|].
  destruct (Qlt_bool x a); cbn [length]; [reflexivity|]. rewrite IH.
  reflexivity.
Qed.

Lemma insort_ascending x l : ascending l -> ascending (insort x l).
Proof.
  induction l as [|a l IH]; cbn [insort ascending].
  - intros _. split; [constructor|exact I].
  - intros [Hall Hl]. destruct (Qlt_bool x a) eqn:E; cbn [ascending].
    + apply Qlt_bool_true in E. split; [|split; assumption].
      constructor; [lra|].
      eapply Forall_impl; [exact Hall|]. cbn. intros y Hy. lra.
    + apply Qlt_bool_false in E. split; [|exact (IH Hl)].
      apply Forall_forall. intros y Hy.
      apply list_elem_of_In, insort_In in Hy as [->|Hy]; [exact E|].
      rewrite Forall_forall in Hall. apply Hall, list_elem_of_In, Hy.
Qed.

Lemma insort_count_below y x l :
  count_below y (insort x l) = count_below y (x :: l).
Proof.
  unfold count_below.
  induction l as [|a l IH]; cbn [insort List.filter]; [reflexivity|].
  destruct (Qlt_bool x a); cbn [List.filter]; [reflexivity|].
  cbn [List.filter] in IH.
  destruct (Qlt_bool a y), (Qlt_bool x y); cbn [length] in *;
    rewrite IH; reflexivity.
Qed.

Lemma sort_from acc l :
  ascending acc ->
  ascending (fold_left (fun sorted x => insort x sorted) l acc)
  /\ length (fold_left (fun sorted x => insort x sorted) l acc)
     = (length acc + length l)%nat
  /\ (forall y, In y (fold_left (fun sorted x => insort x sorted) l acc)
                <-> In y acc \/ In y l)
  /\ (forall y, count_below y (fold_left (fun sorted x => insort x sorted) l acc)
                = (count_below y acc + count_below y l)%nat).
Proof.
  revert acc. induction l as [|x l IH]; intros acc Hacc; cbn [fold_left].
  - split; [exact Hacc|]. split; [cbn; lia|]. split.
    + intros y. cbn. tauto.
    + intros y. unfold count_below. cbn. lia.
  - destruct (IH (insort x acc) (insort_ascending x acc Hacc))
      as (Hs & Hlen & Hin & Hcount).
    split; [exact Hs|]. split; [rewrite Hlen, insort_length; cbn; lia|].
    split.
    + intros y. rewrite Hin, insort_In. cbn [In]. intuition congruence.
    + intros y. rewrite Hcount, insort_count_below.
      unfold count_below. cbn [List.filter].
      destruct (Qlt_bool x y); cbn [length]; lia.
Qed.

Lemma index_ascending x l :
  ascending l ->
  In x l ->
  index x l = Some (count_below x l).
Proof.
  unfold count_below.
  induction l as [|a l IH]; cbn [ascending index In List.filter];
    [intros _ []|].
  intros [Hall Hl] Hin.
  destruct (Qeq_bool a x) eqn:Heq.
  - apply Qeq_bool_iff in Heq.
    assert (Ha : Qlt_bool a x = false).
    { destruct (Qlt_bool a x) eqn:E; [|reflexivity].
      apply Qlt_bool_true in E. lra. }
    rewrite Ha. f_equal.
    assert (Hnone : forall l', Forall (fun y => (a <= y)%Q) l' ->
                      List.filter (fun y => Qlt_bool y x) l' = []).
    { intros l' H. induction H as [|y l' Hy _ IH']; [reflexivity|].
      cbn [List.filter].
      destruct (Qlt_bool y x) eqn:E; [|exact IH'].
      apply Qlt_bool_true in E. lra. }
    rewrite (Hnone l Hall). reflexivity.
  - assert (Hx : In x l).
    { destruct Hin as [->|Hin]; [|exact Hin].
      rewrite Qeq_bool_refl in Heq. discriminate. }
    assert (Ha : Qlt_bool a x = true).
    { apply Qlt_bool_iff.
      rewrite Forall_forall in Hall.
      pose proof (Hall x (proj2 (list_elem_of_In _ _) Hx)) as Hle.
      apply Qeq_bool_neq in Heq. lra. }
    rewrite Ha, (IH Hl Hx). reflexivity.
Qed.

Lemma index_sort x l :
  In x l -> index x (sort l) = Some (count_below x l).
Proof.
  intros Hin. unfold sort.
  destruct (sort_from [] l I) as (Hs & _ & Hmem & Hcount).
  rewrite index_ascending; [|exact Hs|apply Hmem; right; exact Hin].
  rewrite Hcount. reflexivity.
Qed.

Lemma sort_length l : length (sort l) = length l.
Proof. destruct (sort_from [] l I) as (_ & Hlen & _). exact Hlen. Qed.

Lemma positive_totals_In ps p :
  In p ps -> Qlt_bool 0 (total_of p) = true ->
  In (total_of p) (positive_totals ps).
Proof.
  intros Hin Hpos. unfold positive_totals.
  apply filter_In. split; [apply in_map; exact Hin|exact Hpos].
Qed.

Lemma rank_evaluated all_ ps p db :
  In p all_ ->
  positive_totals all_ = ps ->
  rank (sort ps) (set_total_rating (total_of p) p) db
  = (Ret (evaluated all_ p), db).
Proof.
  intros Hin <-. unfold rank, evaluated. cbn [total_rating set_total_rating].
  destruct (Qlt_bool 0 (total_of p)) eqn:Hpos; [|reflexivity].
  rewrite index_sort by (apply positive_totals_In; assumption).
  rewrite sort_length. reflexivity.
Qed.

Lemma rank_all_evaluated all_ ps db :
  forall some,
    (forall p, In p some -> In p all_) ->
    positive_totals all_ = ps ->
    rank_all (sort ps)
             (map (fun p => set_total_rating (total_of p) p) some) db
    = (Ret (map (evaluated all_) some), db).
Proof.
  induction some as [|p some IH]; intros Hsub Hps; [reflexivity|].
  cbn [map rank_all].
  erewrite bind_ret
    by (apply rank_evaluated; [apply Hsub; left; reflexivity|exact Hps]).
  erewrite bind_ret
    by (apply IH; [intros q Hq; apply Hsub; right; exact Hq|exact Hps]).
  reflexivity.
Qed.

Lemma count_below_lt x l : In x l -> (count_below x l < length l)%nat.
Proof.
  unfold count_below. induction l as [|a l IH]; [intros []|].
  cbn [List.filter length]. intros [->|Hin].
  - assert (Hx : Qlt_bool x x = false).
    { destruct (Qlt_bool x x) eqn:E; [|reflexivity].
      apply Qlt_bool_true in E. lra. }
    rewrite Hx. pose proof (List.filter_length_le (fun y => Qlt_bool y x) l).
    lia.
  - specialize (IH Hin). destruct (Qlt_bool a x); cbn [length]; lia.
Qed.

(** X24.  What a percentile is.  On a store that answers, when at least
    one participant of the collection has a positive total,
    [evaluate_batch] returns the participants in stored order, each with
    the sum of its platform ratings as total and, as percentile, 100 times
    the share of the positive totals that are strictly below its own (0
    for a participant whose total is not positive), and stores exactly
    these; so a percentile is at least 0 and always below 100. *)
Theorem evaluate_batch_percentiles
    (college : College) (batch : Batch) (db : ParticipantDb)
    (Hup : participant_db_up db = true)
    (Hvalid : positive_totals (stored_in batch college db) <> []) :
  let ps := stored_in batch college db in
  evaluate_batch college batch db
  = (Ret (map (evaluated ps) ps),
     snd (update_participants (map (evaluated ps) ps) db))
  /\ forall p, In p ps ->
       (0 <= percentile (evaluated ps p) < 100)%Q.
Proof.
  intros ps. subst ps.
  remember (stored_in batch college db) as ps eqn:Hps. split.
  - unfold evaluate_batch.
    erewrite bind_ret
      by (unfold get_all_participants; rewrite Hup; reflexivity).
    fold (stored_in batch college db). rewrite <- Hps. clear Hps.
    destruct ps as [|p0 ps0]; [exfalso; apply Hvalid; reflexivity|].
    cbv beta iota zeta. set (ps := p0 :: ps0) in *.
    rewrite map_map. cbn [total_rating set_total_rating].
    change (List.filter (Qlt_bool 0)
              (map (fun x => EvaluationService_calculate_total_rating x) ps))
      with (positive_totals ps).
    destruct (positive_totals ps) as [|t ts] eqn:Hpos; [contradiction|].
    rewrite <- Hpos.
    erewrite bind_ret
      by (apply (rank_all_evaluated ps (positive_totals ps) db ps);
          [intros q Hq; exact Hq|reflexivity]).
    rewrite (update_participants_up _ db Hup).
    erewrite bind_ret by (apply update_participants_up; exact Hup).
    reflexivity.
  - intros p Hin. unfold evaluated. cbn [percentile set_percentile].
    destruct (Qlt_bool 0 (total_of p)) eqn:Hpos; [|lra].
    pose proof (count_below_lt _ _ (positive_totals_In ps p Hin Hpos)) as Hlt.
    set (n := count_below (total_of p) (positive_totals ps)) in *.
    set (m := length (positive_totals ps)) in *.
    assert (Hm : (0 < inject_Z (Z.of_nat m))%Q).
    { change 0%Q with (inject_Z 0). rewrite <- Zlt_Qlt. lia. }
    assert (Hn : (0 <= inject_Z (Z.of_nat n))%Q).
    { change 0%Q with (inject_Z 0). rewrite <- Zle_Qle. lia. }
    assert (Hnm : (inject_Z (Z.of_nat n) < inject_Z (Z.of_nat m))%Q).
    { rewrite <- Zlt_Qlt. lia. }
    split.
    + apply Qmult_le_0_compat; [|lra].
      apply Qle_shift_div_l; [exact Hm|]. lra.
    + assert (Hdiv : (inject_Z (Z.of_nat n) / inject_Z (Z.of_nat m) < 1)%Q).
      { apply Qlt_shift_div_r; [exact Hm|]. lra. }
      lra.
Qed.

(** Alice at 1500, bob without a rating, dave at 1200: alice is above half
    of the rated participants, dave above none, bob is not ranked. *)
Lemma evaluate_batch_percentiles_witness :
  exists stored db',
    evaluate_batch CMRIT _2025 class_of_three = (Ret stored, db')
    /\ map (fun p => (name p, total_rating p, percentile p)) stored
       = [("Alice", 1500%Q, (1 / 2 * 100)%Q); ("Bob", 0%Q, 0%Q);
          ("Dave", 1200%Q, (0 / 2 * 100)%Q)].
Proof.
  destruct (evaluate_batch_percentiles CMRIT _2025 class_of_three)
    as [Hrun _]; [reflexivity|discriminate|].
  eexists. eexists. split; [exact Hrun|]. vm_compute. reflexivity.
Defined.

(** X25.  Nothing to rank, nothing written.  On a store that answers,
    when no participant of the collection has a positive total (an empty
    collection included), [evaluate_batch] returns the participants with
    the totals it computed and leaves the store alone: the new totals are
    not saved and the stored percentiles stay as they were. *)
Theorem evaluate_batch_writes_nothing_without_ratings
    (college : College) (batch : Batch) (db : ParticipantDb)
    (Hup : participant_db_up db = true)
    (Hnone : positive_totals (stored_in batch college db) = []) :
  evaluate_batch college batch db
  = (Ret (map (fun p => set_total_rating (total_of p) p)
              (stored_in batch college db)),
     db).
Proof.
  unfold evaluate_batch.
  erewrite bind_ret
    by (unfold get_all_participants; rewrite Hup; reflexivity).
  fold (stored_in batch college db).
  destruct (stored_in batch college db) as [|p0 ps0]; [reflexivity|].
  cbv beta iota zeta. rewrite map_map. cbn [total_rating set_total_rating].
  change (List.filter (Qlt_bool 0)
            (map (fun x => EvaluationService_calculate_total_rating x)
                 (p0 :: ps0)))
    with (positive_totals (p0 :: ps0)).
  rewrite Hnone. reflexivity.
Qed.

Lemma evaluate_batch_writes_nothing_without_ratings_witness :
  evaluate_batch CMRIT _2025 (mkParticipantDb [document_of bob] true)
  = (Ret [set_total_rating 0 bob], mkParticipantDb [document_of bob] true).
Proof.
  exact (evaluate_batch_writes_nothing_without_ratings CMRIT _2025
           (mkParticipantDb [document_of bob] true) eq_refl eq_refl).
Defined.

(** ** The LeetCode client: one lookup *)

Section LcFetch.
Import LeetCodeApi.

Lemma bind_ret_inv {W A B} (m : M W A) (f : A -> M W B) w b w' :
  (m ≫= f) w = (Ret b, w') ->
  exists a w1, m w = (Ret a, w1) /\ f a w1 = (Ret b, w').
Proof.
  unfold mbind, M_bind. destruct (m w) as [[a|e|] w1]; try discriminate.
  eauto.
Qed.

(** X26.  An answer is fetched once.  Whatever [get_user_contest_data]
    returns for a handle it returns again on the next call, from the
    client as the first call left it and without touching it: no
    exchange, no sleep, whatever the upstream would answer now. *)
Theorem leetcode_answer_is_cached
    (server server' : nat -> transport) (overshoot overshoot' : nat -> Q)
    (handle : option string) (c c1 : LcClient) (answer : json)
    (Hfirst : get_user_contest_data server overshoot handle c
              = (Ret answer, c1)) :
  get_user_contest_data server' overshoot' handle c1 = (Ret answer, c1).
Proof.
  unfold get_user_contest_data in *.
  destruct (falsy_handle handle || handle_is handle "#n/a");
    [injection Hfirst as <- <-; reflexivity|].
  cbv zeta in *.
  erewrite bind_ret in Hfirst by reflexivity.
  erewrite bind_ret by reflexivity.
  destruct (dict_get (default "" handle) (user_cache c)) as [cached|] eqn:Hc.
  - injection Hfirst as <- <-. rewrite Hc. reflexivity.
  - unfold try_except in Hfirst.
    match type of Hfirst with
    | context [(attempts_loop ?s ?o 3 0 ≫= ?k) c] =>
        destruct ((attempts_loop s o 3 0 ≫= k) c) as [[j|e|] c2] eqn:E
    end.
    + injection Hfirst as <- <-.
      apply bind_ret_inv in E as (resp & w1 & _ & E).
      apply bind_ret_inv in E as (j0 & w2 & _ & E).
      apply bind_ret_inv in E as ([] & w3 & _ & E).
      apply bind_ret_inv in E as (data & w4 & _ & E).
      apply bind_ret_inv in E as (ranking & w5 & _ & E).
      cbv zeta in E.
      apply bind_ret_inv in E as ([] & w6 & Hmod & E).
      injection Hmod as <-. injection E as <- <-.
      cbn [user_cache]. rewrite dict_get_set_eq. reflexivity.
    + destruct (isinstance e UserNotFoundError); [discriminate|].
      destruct (isinstance e ClientResponseError).
      { destruct (decide (exn_status e = 429)); [discriminate|].
        destruct (decide (exn_status e = 403)); discriminate. }
      destruct (isinstance e ClientError || isinstance e JSONDecodeError
                || isinstance e TimeoutError); discriminate.
    + discriminate.
Qed.

(** Alice is looked up twice; the second time the upstream is down. *)
Lemma leetcode_answer_is_cached_witness :
  let c1 := snd (get_user_contest_data
                   (fun _ => answers 200 (Some (leetcode_ranking 1600)))
                   punctual (Some "alice") lc_fresh) in
  get_user_contest_data unreachable punctual (Some "alice") c1
  = (Ret (leetcode_ranking 1600), c1).
Proof.
  intros c1.
  apply (leetcode_answer_is_cached
           (fun _ => answers 200 (Some (leetcode_ranking 1600))) unreachable
           punctual punctual (Some "alice") lc_fresh c1).
  subst c1. vm_compute. reflexivity.
Defined.

Lemma request_once_pauses (server : nat -> transport) (overshoot : nat -> Q)
    rate_limit_arg minute bypass c r c' :
  request_once server overshoot rate_limit_arg minute bypass c = (r, c') ->
  pauses (slept c') = pauses (slept c).
Proof.
  unfold request_once, before_exchange, initialize, session_request,
         _rate_limit_by_minute, _rate_limit, govern, sleep_for.
  unfold_M. simpl.
  destruct (session_open c); simpl;
    (destruct rate_limit_arg as [x|]; simpl;
       [destruct (decide (x = 0)); simpl|]);
    destruct minute; simpl; destruct bypass; simpl;
    try (destruct (bypass_rate_limit c); simpl);
    try (destruct (decide (_ = 0)); simpl);
    try (destruct (Qlt_bool _ _); simpl);
    try (destruct (server _) as [resp| |]; simpl;
         [destruct (400 <=? status resp)%Z eqn:H400; simpl;
            [destruct (decide (status resp = 429)); simpl|]| |]);
    intros [= _ <-]; simpl; unfold pauses; rewrite ?omap_app; simpl;
    rewrite ?app_nil_r; reflexivity.
Qed.

Lemma request_pauses (server : nat -> transport) (overshoot : nat -> Q)
    rate_limit_arg minute bypass c r c' :
  request server overshoot rate_limit_arg minute bypass c = (r, c') ->
  pauses (slept c') = pauses (slept c).
Proof.
  unfold request, retry.
  apply (attempts_invariant (fun x => pauses (slept x) = pauses (slept c))).
  - intros c0 r0 c0' H0 Hrun.
    rewrite (request_once_pauses _ _ _ _ _ _ _ _ Hrun). exact H0.
  - intros c0 d H0. cbn. unfold pauses in *. rewrite omap_app. cbn.
    rewrite app_nil_r. exact H0.
  - reflexivity.
Qed.

(** One time-out: the exchange, no answer, the client ready for more. *)
Lemma request_times_out (server : nat -> transport) (overshoot : nat -> Q) c :
  rate_limit c <> 0 ->
  server (exchanges c) = TimedOut ->
  exists c',
    request server overshoot None false false c = (Raise (an TimeoutError), c')
    /\ exchanges c' = S (exchanges c)
    /\ rate_limit c' <> 0
    /\ pauses (slept c') = pauses (slept c).
Proof.
  intros Hrate Hs.
  destruct (request_ends_after_one server overshoot None false false c Hrate)
    as (c' & Hrun & Hex & _).
  { rewrite Hs. reflexivity. }
  rewrite Hs in Hrun. cbn [attempt_outcome] in Hrun.
  exists c'. split; [exact Hrun|]. split; [exact Hex|]. split.
  - rewrite (request_keeps_rate _ _ _ _ _ _ _ Hrun). exact Hrate.
  - exact (request_pauses _ _ _ _ _ _ _ _ Hrun).
Qed.

Lemma attempts_loop_timeout (server : nat -> transport) (overshoot : nat -> Q)
    remaining attempt c :
  rate_limit (base c) <> 0 ->
  server (exchanges (base c)) = TimedOut ->
  (attempt < 2)%nat ->
  exists b,
    attempts_loop server overshoot (S remaining) attempt c
    = attempts_loop server overshoot remaining (S attempt)
                    (mkLc b (user_cache c))
    /\ exchanges b = S (exchanges (base c))
    /\ rate_limit b <> 0
    /\ pauses (slept b)
       = pauses (slept (base c)) ++ [inject_Z (3 * (Z.of_nat attempt + 1))].
Proof.
  intros Hrate Hs Hattempt.
  destruct (request_times_out server overshoot (base c) Hrate Hs)
    as (b1 & Hrun & Hex & Hr & Hp).
  exists (snd (sleep_for overshoot Pacing
                 (inject_Z (3 * (Z.of_nat attempt + 1))) b1)).
  split; [|split; [exact Hex|split; [exact Hr|]]].
  - cbn [attempts_loop].
    erewrite try_raise by (unfold on_base; rewrite Hrun; reflexivity).
    change (isinstance (an TimeoutError) ClientResponseError
            || isinstance (an TimeoutError) TimeoutError) with true.
    change (isinstance (an TimeoutError) ClientResponseError
            && bool_decide (exn_status (an TimeoutError) = 429)) with false.
    cbv beta iota.
    apply Nat.ltb_lt in Hattempt. rewrite Hattempt.
    erewrite bind_ret by reflexivity. reflexivity.
  - cbn. unfold pauses at 1. rewrite omap_app. fold (pauses (slept b1)).
    rewrite Hp. reflexivity.
Qed.

Lemma attempts_loop_last_timeout (server : nat -> transport)
    (overshoot : nat -> Q) remaining c :
  rate_limit (base c) <> 0 ->
  server (exchanges (base c)) = TimedOut ->
  exists b,
    attempts_loop server overshoot (S remaining) 2 c
    = (Raise (an TimeoutError), mkLc b (user_cache c))
    /\ exchanges b = S (exchanges (base c))
    /\ pauses (slept b) = pauses (slept (base c)).
Proof.
  intros Hrate Hs.
  destruct (request_times_out server overshoot (base c) Hrate Hs)
    as (b1 & Hrun & Hex & Hr & Hp).
  exists b1. split; [|split; assumption].
  cbn [attempts_loop].
  erewrite try_raise by (unfold on_base; rewrite Hrun; reflexivity).
  reflexivity.
Qed.

(** X27.  Time-outs.  A lookup whose exchanges time out is tried three
    times, with pauses of 3 and 6 seconds in between; after the third
    time-out the caller gets a [ScraperError], and nothing is cached. *)
Theorem leetcode_timeouts_are_retried
    (server : nat -> transport) (overshoot : nat -> Q)
    (handle : string) (c : LcClient)
    (Hhandle : looked_up (Some handle))
    (Hmiss : dict_get handle (user_cache c) = None)
    (Hrate : rate_limit (base c) <> 0)
    (Hfirst : server (exchanges (base c)) = TimedOut)
    (Hsecond : server (S (exchanges (base c))) = TimedOut)
    (Hthird : server (S (S (exchanges (base c)))) = TimedOut) :
  exists b,
    get_user_contest_data server overshoot (Some handle) c
    = (Raise (an ScraperError), mkLc b (user_cache c))
    /\ exchanges b = S (S (S (exchanges (base c))))
    /\ pauses (slept b) = pauses (slept (base c)) ++ [3%Q; 6%Q].
Proof.
  destruct (attempts_loop_timeout server overshoot 2 0 c Hrate Hfirst)
    as (b1 & Hrun1 & Hex1 & Hr1 & Hp1); [lia|].
  destruct (attempts_loop_timeout server overshoot 1 1
              (mkLc b1 (user_cache c)))
    as (b2 & Hrun2 & Hex2 & Hr2 & Hp2);
    [exact Hr1|cbn [base]; rewrite Hex1; exact Hsecond|lia|].
  destruct (attempts_loop_last_timeout server overshoot 0
              (mkLc b2 (user_cache c)))
    as (b3 & Hrun3 & Hex3 & Hp3);
    [exact Hr2|cbn [base]; rewrite Hex2; cbn [base]; rewrite Hex1;
               exact Hthird|].
  cbn [base user_cache] in *.
  exists b3. split; [|split].
  - unfold get_user_contest_data. unfold looked_up in Hhandle.
    rewrite Hhandle. cbv zeta.
    erewrite bind_ret by reflexivity.
    change (default "" (Some handle)) with handle. rewrite Hmiss.
    erewrite try_raise
      by (apply bind_raise; rewrite Hrun1, Hrun2; exact Hrun3).
    reflexivity.
  - rewrite Hex3, Hex2, Hex1. reflexivity.
  - rewrite Hp3, Hp2, Hp1, <- app_assoc. reflexivity.
Qed.

Lemma leetcode_timeouts_are_retried_witness :
  exists b,
    get_user_contest_data (fun _ => TimedOut) punctual (Some "alice") lc_fresh
    = (Raise (an ScraperError), mkLc b [])
    /\ exchanges b = 3%nat
    /\ pauses (slept b) = [] ++ [3%Q; 6%Q].
Proof.
  apply (leetcode_timeouts_are_retried (fun _ => TimedOut) punctual "alice"
           lc_fresh); try reflexivity.
  discriminate.
Defined.

(** X28.  A connection that cannot be established.  After three failed
    connections tenacity gives up with a [RetryError]; neither the loop
    nor the handlers of [get_user_contest_data] are written for it, so it
    reaches the caller as it is, and it is no [ScraperError]:
    [verify_user_exists], which assumes that the user exists on a
    [ScraperError], raises it too. *)
Theorem leetcode_connection_failures_escape
    (server : nat -> transport) (overshoot : nat -> Q)
    (handle : string) (c : LcClient)
    (Hhandle : looked_up (Some handle))
    (Hmiss : dict_get handle (user_cache c) = None)
    (Hrate : rate_limit (base c) <> 0)
    (Hfirst : server (exchanges (base c)) = ConnectionFailed)
    (Hsecond : server (S (exchanges (base c))) = ConnectionFailed)
    (Hthird : server (S (S (exchanges (base c)))) = ConnectionFailed) :
  exists b,
    get_user_contest_data server overshoot (Some handle) c
    = (Raise (an RetryError), mkLc b (user_cache c))
    /\ LeetCodeClient.verify_user_exists
         (get_user_contest_data server overshoot) (Some handle) c
       = (Raise (an RetryError), mkLc b (user_cache c))
    /\ isinstance (an RetryError) ScraperError = false
    /\ exchanges b = S (S (S (exchanges (base c)))).
Proof.
  destruct (request_exhausts_after_three_failures server overshoot None false
              false (base c) Hrate Hfirst Hsecond Hthird)
    as (b & Hrun & _ & Hex & _).
  exists b.
  assert (Hget : get_user_contest_data server overshoot (Some handle) c
                 = (Raise (an RetryError), mkLc b (user_cache c))).
  { unfold get_user_contest_data. unfold looked_up in Hhandle.
    rewrite Hhandle. cbv zeta.
    erewrite bind_ret by reflexivity.
    change (default "" (Some handle)) with handle. rewrite Hmiss.
    erewrite try_raise.
    2:{ apply bind_raise. cbn [attempts_loop].
        erewrite try_raise by (unfold on_base; rewrite Hrun; reflexivity).
        reflexivity. }
    reflexivity. }
  split; [exact Hget|]. split; [|split; [reflexivity|exact Hex]].
  unfold LeetCodeClient.verify_user_exists. unfold looked_up in Hhandle.
  rewrite Hhandle.
  erewrite try_raise by (apply bind_raise; exact Hget).
  reflexivity.
Qed.

Lemma leetcode_connection_failures_escape_witness :
  exists b,
    get_user_contest_data unreachable punctual (Some "alice") lc_fresh
    = (Raise (an RetryError), mkLc b [])
    /\ LeetCodeClient.verify_user_exists
         (get_user_contest_data unreachable punctual) (Some "alice") lc_fresh
       = (Raise (an RetryError), mkLc b [])
    /\ isinstance (an RetryError) ScraperError = false
    /\ exchanges b = 3%nat.
Proof.
  apply (leetcode_connection_failures_escape unreachable punctual "alice"
           lc_fresh); try reflexivity.
  discriminate.
Defined.

Lemma steady_ret {A} (a : A) : steady (mret a).
Proof. intros c r c' [= _ <-]. reflexivity. Qed.

Lemma steady_raise {A} (e : exn) : steady (raise e : M LcClient A).
Proof. intros c r c' [= _ <-]. reflexivity. Qed.

Lemma steady_bind {A B} (m : M LcClient A) (f : A -> M LcClient B) :
  steady m -> (forall a, steady (f a)) -> steady (m ≫= f).
Proof.
  intros Hm Hf c r c'. unfold mbind, M_bind.
  destruct (m c) as [[a|e|] c1] eqn:E; intros H.
  - rewrite (Hf a _ _ _ H). eapply Hm; eauto.
  - injection H as _ <-. eapply Hm; eauto.
  - injection H as _ <-. eapply Hm; eauto.
Qed.

Lemma steady_try {A} (body : M LcClient A) (h : exn -> M LcClient A) :
  steady body -> (forall e, steady (h e)) -> steady (try_except body h).
Proof.
  intros Hb Hh c r c'. unfold try_except.
  destruct (body c) as [[a|e|] c1] eqn:E; intros H.
  - injection H as _ <-. eapply Hb; eauto.
  - rewrite (Hh e _ _ _ H). eapply Hb; eauto.
  - injection H as _ <-. eapply Hb; eauto.
Qed.

Lemma steady_subscript d k : steady (subscript d k : M LcClient json).
Proof.
  unfold subscript. destruct d; try apply steady_raise.
  destruct (dict_get k fields); [apply steady_ret|apply steady_raise].
Qed.

Lemma steady_get_method d k dflt :
  steady (get_method d k dflt : M LcClient json).
Proof.
  unfold get_method. destruct d; try apply steady_raise. apply steady_ret.
Qed.

Lemma steady_check_errors j : steady (check_errors j).
Proof.
  unfold check_errors. apply steady_bind.
  { unfold key_in. destruct j; try apply steady_raise; apply steady_ret. }
  intros [|]; [|apply steady_ret].
  apply steady_bind; [apply steady_subscript|]. intros errors.
  apply steady_bind.
  { unfold item0. destruct errors as [| | |[|? ?]|[|? ?]|];
      try apply steady_raise; apply steady_ret. }
  intros first. apply steady_bind; [apply steady_subscript|]. intros message.
  apply steady_bind.
  { unfold lower_method. destruct message; try apply steady_raise.
    apply steady_ret. }
  intros lowered. destruct (_ || _); apply steady_raise.
Qed.

Lemma steady_attempts_loop (server : nat -> transport) (overshoot : nat -> Q)
    remaining :
  forall attempt, steady (attempts_loop server overshoot remaining attempt).
Proof.
  induction remaining as [|remaining IH]; intros attempt;
    cbn [attempts_loop]; [apply steady_raise|].
  intros c r c'. unfold try_except, on_base.
  destruct (request server overshoot None false false (base c))
    as [[resp|e|] b] eqn:E; apply request_result in E as (Hcd & _ & Hraise).
  - intros [= _ <-]. exact Hcd.
  - rewrite (client_response_is_client_error e (Hraise e eq_refl)).
    cbn [orb andb].
    destruct (isinstance e TimeoutError); [|intros [= _ <-]; exact Hcd].
    destruct (attempt <? 2)%nat; [|intros [= _ <-]; exact Hcd].
    unfold mbind, M_bind, sleep_for. cbn. intros H.
    apply IH in H. rewrite H. cbn. rewrite cool_downs_app. cbn.
    rewrite app_nil_r. exact Hcd.
  - intros [= _ <-]. exact Hcd.
Qed.

Lemma not_found_is_no_transport_error e :
  isinstance e UserNotFoundError = true ->
  isinstance e ClientError = false
  /\ isinstance e JSONDecodeError = false
  /\ isinstance e TimeoutError = false.
Proof. destruct e as [[] s]; vm_compute; intuition congruence. Qed.

(** X29.  What a lookup never does.  It never cools down: the wait of
    10, 20, 30 seconds on a 429 is out of reach, since [request] raises a
    [RateLimitError] instead of the [ClientResponseError] the loop looks
    for, and the rate limit reaches the caller at once.  And no transport
    error leaves it: an [aiohttp.ClientError], a [JSONDecodeError] or a
    time-out is always turned into a [ScraperError]. *)
Theorem leetcode_lookup_never_cools_down
    (server : nat -> transport) (overshoot : nat -> Q)
    (handle : option string) (c : LcClient) (r : outcome json)
    (c' : LcClient)
    (Hrun : get_user_contest_data server overshoot handle c = (r, c')) :
  cool_downs (slept (base c')) = cool_downs (slept (base c))
  /\ forall e, r = Raise e ->
       isinstance e ClientError = false
       /\ isinstance e JSONDecodeError = false
       /\ isinstance e TimeoutError = false.
Proof.
  revert Hrun. unfold get_user_contest_data.
  destruct (falsy_handle handle || handle_is handle "#n/a").
  { intros [= <- <-]. split; [reflexivity|discriminate]. }
  cbv zeta. unfold mbind at 1. unfold M_bind at 1. cbn [gets].
  destruct (dict_get (default "" handle) (user_cache c)) as [cached|].
  { intros [= <- <-]. split; [reflexivity|discriminate]. }
  unfold try_except at 1.
  match goal with
  | |- context [(attempts_loop ?s ?o 3 0 ≫= ?k) c] =>
      assert (Hbody : steady (attempts_loop s o 3 0 ≫= k));
      [|destruct ((attempts_loop s o 3 0 ≫= k) c) as [[j|e|] c1] eqn:E;
        apply Hbody in E]
  end.
  { apply steady_bind; [apply steady_attempts_loop|]. intros resp.
    apply steady_bind.
    { unfold response_json. destruct (content_type_json resp);
        [destruct (body resp)|]; try apply steady_raise; apply steady_ret. }
    intros j. apply steady_bind; [apply steady_check_errors|]. intros _.
    apply steady_bind; [apply steady_get_method|]. intros data.
    apply steady_bind; [apply steady_get_method|]. intros ranking.
    cbv zeta. apply steady_bind; [|intros _; apply steady_ret].
    intros c0 r0 c0' [= _ <-]. reflexivity. }
  - intros [= <- <-]. split; [exact E|discriminate].
  - destruct (isinstance e UserNotFoundError) eqn:Hnf.
    { intros [= <- <-]. split; [exact E|]. intros e' [= <-].
      apply not_found_is_no_transport_error. exact Hnf. }
    destruct (isinstance e ClientResponseError).
    { destruct (decide (exn_status e = 429));
        [|destruct (decide (exn_status e = 403))];
        intros [= <- <-]; (split; [exact E|]); intros e' [= <-];
        repeat split; reflexivity. }
    destruct (isinstance e ClientError || isinstance e JSONDecodeError
              || isinstance e TimeoutError) eqn:Ht.
    { intros [= <- <-]. split; [exact E|]. intros e' [= <-].
      repeat split; reflexivity. }
    intros [= <- <-]. split; [exact E|]. intros e' [= <-].
    apply orb_false_iff in Ht as [Ht Ht3].
    apply orb_false_iff in Ht as [Ht1 Ht2]. auto.
  - intros [= <- <-]. split; [exact E|discriminate].
Qed.

Lemma leetcode_lookup_never_cools_down_witness :
  let out := get_user_contest_data always_429 punctual (Some "alice")
                                   lc_fresh in
  fst out = Raise (an RateLimitError)
  /\ cool_downs (slept (base (snd out))) = []
  /\ exchanges (base (snd out)) = 1%nat.
Proof.
  intros out. split; [vm_compute; reflexivity|].
  split; [|vm_compute; reflexivity].
  exact (proj1 (leetcode_lookup_never_cools_down always_429 punctual
                  (Some "alice") lc_fresh (fst out) (snd out)
                  (surjective_pairing out))).
Defined.
End LcFetch.

(** ** The LeetCode client: errors of the API *)

Section LcErrors.
Import LeetCodeApi.

(** X30.  How an error of the API is read.  When the answer carries an
    [errors] list whose first entry has a string [message], the lookup
    raises [UserNotFoundError] if the message, in lower case, contains
    "could not find user" or "user matching query does not exist", and a
    plain [ScraperError] otherwise, after one exchange and without caching
    anything; [verify_user_exists] then answers [False] in the first case
    and [True] in the second. *)
Theorem leetcode_errors_are_classified
    (server : nat -> transport) (overshoot : nat -> Q)
    (handle : string) (c : LcClient) (s : Z)
    (fields error : list (string * json)) (errors : list json)
    (message : string)
    (Hhandle : looked_up (Some handle))
    (Hmiss : dict_get handle (user_cache c) = None)
    (Hrate : rate_limit (base c) <> 0)
    (Hanswer : server (exchanges (base c)) = answers s (Some (JObj fields)))
    (Hstatus : s < 400)
    (Herrors : dict_get "errors" fields = Some (JArr (JObj error :: errors)))
    (Hmessage : dict_get "message" error = Some (JStr message)) :
  exists b,
    get_user_contest_data server overshoot (Some handle) c
    = (Raise (an (if says_not_found message then UserNotFoundError
                  else ScraperError)),
       mkLc b (user_cache c))
    /\ LeetCodeClient.verify_user_exists
         (get_user_contest_data server overshoot) (Some handle) c
       = (Ret (negb (says_not_found message)), mkLc b (user_cache c))
    /\ exchanges b = S (exchanges (base c)).
Proof.
  destruct (request_ends_after_one server overshoot None false false (base c)
              Hrate) as (b & Hrun & Hex & _).
  { rewrite Hanswer. reflexivity. }
  rewrite Hanswer in Hrun. cbn [attempt_outcome answers status] in Hrun.
  assert (H400 : (400 <=? s)%Z = false) by (apply Z.leb_gt; exact Hstatus).
  rewrite H400 in Hrun.
  exists b.
  assert (Hcheck : forall w,
    check_errors (JObj fields) w
    = (Raise (an (if says_not_found message then UserNotFoundError
                  else ScraperError)), w)).
  { intros w. unfold check_errors.
    erewrite bind_ret by (unfold key_in; rewrite Herrors; reflexivity).
    cbv beta iota.
    erewrite bind_ret by (unfold subscript; rewrite Herrors; reflexivity).
    erewrite bind_ret by reflexivity.
    erewrite bind_ret by (unfold subscript; rewrite Hmessage; reflexivity).
    erewrite bind_ret by reflexivity.
    fold (says_not_found message).
    destruct (says_not_found message); reflexivity. }
  assert (Hget :
    get_user_contest_data server overshoot (Some handle) c
    = (Raise (an (if says_not_found message then UserNotFoundError
                  else ScraperError)), mkLc b (user_cache c))).
  { unfold get_user_contest_data. unfold looked_up in Hhandle.
    rewrite Hhandle. cbv zeta.
    erewrite bind_ret by reflexivity.
    change (default "" (Some handle)) with handle. rewrite Hmiss.
    erewrite try_raise.
    2:{ erewrite bind_ret.
        2:{ cbn [attempts_loop].
            erewrite try_ret by (unfold on_base; rewrite Hrun; reflexivity).
            reflexivity. }
        erewrite bind_ret by reflexivity.
        apply bind_raise. apply Hcheck. }
    destruct (says_not_found message); reflexivity. }
  split; [exact Hget|]. split; [|exact Hex].
  unfold LeetCodeClient.verify_user_exists. unfold looked_up in Hhandle.
  rewrite Hhandle.
  erewrite try_raise by (apply bind_raise; exact Hget).
  destruct (says_not_found message); reflexivity.
Qed.

Lemma leetcode_errors_are_classified_witness :
  (exists b,
     get_user_contest_data
       (fun _ => graphql_error "User matching query does not exist.")
       punctual (Some "ghost") lc_fresh
     = (Raise (an UserNotFoundError), mkLc b [])
     /\ LeetCodeClient.verify_user_exists
          (get_user_contest_data
             (fun _ => graphql_error "User matching query does not exist.")
             punctual)
          (Some "ghost") lc_fresh
        = (Ret false, mkLc b [])
     /\ exchanges b = 1%nat)
  /\ (exists b,
        get_user_contest_data (fun _ => graphql_error "Internal error")
                              punctual (Some "ghost") lc_fresh
        = (Raise (an ScraperError), mkLc b [])
        /\ LeetCodeClient.verify_user_exists
             (get_user_contest_data (fun _ => graphql_error "Internal error")
                                    punctual)
             (Some "ghost") lc_fresh
           = (Ret true, mkLc b [])
        /\ exchanges b = 1%nat).
Proof.
  split.
  - apply (leetcode_errors_are_classified
             (fun _ => graphql_error "User matching query does not exist.")
             punctual "ghost" lc_fresh 200
             [("errors",
               JArr [JObj [("message",
                            JStr "User matching query does not exist.")]]);
              ("data", JObj [("userContestRanking", JNull)])]
             [("message", JStr "User matching query does not exist.")] []
             "User matching query does not exist.");
      try reflexivity; try discriminate; lia.
  - apply (leetcode_errors_are_classified
             (fun _ => graphql_error "Internal error")
             punctual "ghost" lc_fresh 200
             [("errors", JArr [JObj [("message", JStr "Internal error")]]);
              ("data", JObj [("userContestRanking", JNull)])]
             [("message", JStr "Internal error")] [] "Internal error");
      try reflexivity; try discriminate; lia.
Defined.
End LcErrors.
